(** * Control core of the Arducam IMX477P sensor driver

    A shallow embedding of [drivers/media/i2c/arducam-imx477p.c]: the
    register transport helpers, the mode catalog and its negotiation,
    the timing engine, the control handler callback and the
    streaming / power state machine, followed by the properties that the
    driver's specification states about them.

    C integers are modelled as [Z] with their wrap-around written out;
    the driver's object ([struct imx477]) is threaded explicitly through
    every function that mutates it. *)

From Stdlib Require Import ZArith List Bool Lia.
Import ListNotations.
Open Scope Z_scope.

Set Implicit Arguments.

(** ** C integer types *)

Module CInt.

Definition u8  (x : Z) : Z := x mod 2 ^ 8.
Definition u16 (x : Z) : Z := x mod 2 ^ 16.
Definition u32 (x : Z) : Z := x mod 2 ^ 32.
Definition u64 (x : Z) : Z := x mod 2 ^ 64.

(** Conversion to [int]: the value modulo 2^32 that lies in
    [-2^31, 2^31). *)
Definition s32 (x : Z) : Z := (x + 2 ^ 31) mod 2 ^ 32 - 2 ^ 31.

(** C truth value of an [int]. *)
Definition truth (x : Z) : bool := negb (x =? 0).

(** [bool] promoted to [int]. *)
Definition of_bool (b : bool) : Z := if b then 1 else 0.

End CInt.
Import CInt.

(** ** errno values returned by the driver *)

Definition EIO     : Z := 5.
Definition EBUSY   : Z := 16.
Definition EINVAL  : Z := 22.
Definition ENOTTY  : Z := 25.

(** ** Register map and limits ([#define]s of the driver) *)

Definition IMX477_REG_VALUE_08BIT : Z := 1.
Definition IMX477_REG_VALUE_16BIT : Z := 2.

Definition IMX477_REG_CHIP_ID : Z := 0x0016.
Definition IMX477_CHIP_ID : Z := 0x0477.

Definition IMX477_REG_MODE_SELECT : Z := 0x0100.
Definition IMX477_MODE_STANDBY : Z := 0x00.
Definition IMX477_MODE_STREAMING : Z := 0x01.

Definition IMX477_REG_ORIENTATION : Z := 0x101.

Definition IMX477_PIXEL_RATE : Z := 614400000.

Definition IMX477_REG_FRAME_LENGTH : Z := 0x0340.
Definition IMX477_FRAME_LENGTH_MAX : Z := 0xffdc.

Definition IMX477_REG_LINE_LENGTH : Z := 0x0342.
Definition IMX477_LINE_LENGTH_MAX : Z := 0xfff0.

Definition IMX477_LONG_EXP_SHIFT_MAX : Z := 7.
Definition IMX477_LONG_EXP_SHIFT_REG : Z := 0x3100.

Definition IMX477_REG_EXPOSURE : Z := 0x0202.
Definition IMX477_EXPOSURE_OFFSET : Z := 22.
Definition IMX477_EXPOSURE_MIN : Z := 4.
Definition IMX477_EXPOSURE_STEP : Z := 1.
Definition IMX477_EXPOSURE_DEFAULT : Z := 0x640.
Definition IMX477_EXPOSURE_MAX : Z :=
  IMX477_FRAME_LENGTH_MAX - IMX477_EXPOSURE_OFFSET.

Definition IMX477_REG_ANALOG_GAIN : Z := 0x0204.
Definition IMX477_ANA_GAIN_MIN : Z := 0.
Definition IMX477_ANA_GAIN_MAX : Z := 978.
Definition IMX477_ANA_GAIN_STEP : Z := 1.
Definition IMX477_ANA_GAIN_DEFAULT : Z := 0x0.

Definition IMX477_REG_DIGITAL_GAIN : Z := 0x020e.
Definition IMX477_DGTL_GAIN_MIN : Z := 0x0100.
Definition IMX477_DGTL_GAIN_MAX : Z := 0xffff.
Definition IMX477_DGTL_GAIN_DEFAULT : Z := 0x0100.
Definition IMX477_DGTL_GAIN_STEP : Z := 1.

Definition IMX477_REG_TEST_PATTERN : Z := 0x0600.
Definition IMX477_TEST_PATTERN_DISABLE : Z := 0.
Definition IMX477_TEST_PATTERN_SOLID_COLOR : Z := 1.
Definition IMX477_TEST_PATTERN_COLOR_BARS : Z := 2.
Definition IMX477_TEST_PATTERN_GREY_COLOR : Z := 3.
Definition IMX477_TEST_PATTERN_PN9 : Z := 4.

Definition IMX477_REG_TEST_PATTERN_R : Z := 0x0602.
Definition IMX477_REG_TEST_PATTERN_GR : Z := 0x0604.
Definition IMX477_REG_TEST_PATTERN_B : Z := 0x0606.
Definition IMX477_REG_TEST_PATTERN_GB : Z := 0x0608.
Definition IMX477_TEST_PATTERN_COLOUR_MIN : Z := 0.
Definition IMX477_TEST_PATTERN_COLOUR_MAX : Z := 0x0fff.
Definition IMX477_TEST_PATTERN_COLOUR_STEP : Z := 1.

(** [MEDIA_BUS_FMT_SRGGB10_1X10] comes from the kernel's
    [media-bus-format.h], which is not part of the driver file; its value
    there is 0x300f. *)
Definition MEDIA_BUS_FMT_SRGGB10_1X10 : Z := 0x300f.

(** ** Register programs *)

(** [struct imx477_reg]; the value field is called [reg_val] here, [val]
    being kept for [ctrl->val]. *)
Record imx477_reg := R { address : Z; reg_val : Z }.

Record imx477_reg_list := { regs : list imx477_reg }.

Definition num_of_regs (l : imx477_reg_list) : Z := Z.of_nat (length (regs l)).

Record v4l2_fract := { numerator : Z; denominator : Z }.

(** Mode : resolution and related config & values. *)
Record imx477_mode := {
  bus_fmt : Z;
  width : Z;
  height : Z;
  line_length_pix : Z;
  max_fps : v4l2_fract;
  timeperframe_default : v4l2_fract;
  reg_list : imx477_reg_list
}.

Definition mode_common_regs : list imx477_reg :=
  [ R 0x0103 0x01; R 0x0136 0x18; R 0x0137 0x00; R 0x38a8 0x1f
  ; R 0x38a9 0xff; R 0x38aa 0x1f; R 0x38ab 0xff; R 0x55d4 0x00
  ; R 0x55d5 0x00; R 0x55d6 0x07; R 0x55d7 0xff; R 0x55e8 0x07
  ; R 0x55e9 0xff; R 0x55ea 0x00; R 0x55eb 0x00; R 0x575c 0x07
  ; R 0x575d 0xff; R 0x575e 0x00; R 0x575f 0x00; R 0x5764 0x00
  ; R 0x5765 0x00; R 0x5766 0x07; R 0x5767 0xff; R 0x5974 0x04
  ; R 0x5975 0x01; R 0x5f10 0x09; R 0x5f11 0x92; R 0x5f12 0x32
  ; R 0x5f13 0x72; R 0x5f14 0x16; R 0x5f15 0xba; R 0x5f17 0x13
  ; R 0x5f18 0x24; R 0x5f19 0x60; R 0x5f1a 0xe3; R 0x5f1b 0xad
  ; R 0x5f1c 0x74; R 0x5f2d 0x25; R 0x5f5c 0xd0; R 0x6a22 0x00
  ; R 0x6a23 0x1d; R 0x7ba8 0x00; R 0x7ba9 0x00; R 0x886b 0x00
  ; R 0x9002 0x0a; R 0x9004 0x1a; R 0x9214 0x93; R 0x9215 0x69
  ; R 0x9216 0x93; R 0x9217 0x6b; R 0x9218 0x93; R 0x9219 0x6d
  ; R 0x921a 0x57; R 0x921b 0x58; R 0x921c 0x57; R 0x921d 0x59
  ; R 0x921e 0x57; R 0x921f 0x5a; R 0x9220 0x57; R 0x9221 0x5b
  ; R 0x9222 0x93; R 0x9223 0x02; R 0x9224 0x93; R 0x9225 0x03
  ; R 0x9226 0x93; R 0x9227 0x04; R 0x9228 0x93; R 0x9229 0x05
  ; R 0x922a 0x98; R 0x922b 0x21; R 0x922c 0xb2; R 0x922d 0xdb
  ; R 0x922e 0xb2; R 0x922f 0xdc; R 0x9230 0xb2; R 0x9231 0xdd
  ; R 0x9232 0xb2; R 0x9233 0xe1; R 0x9234 0xb2; R 0x9235 0xe2
  ; R 0x9236 0xb2; R 0x9237 0xe3; R 0x9238 0xb7; R 0x9239 0xb9
  ; R 0x923a 0xb7; R 0x923b 0xbb; R 0x923c 0xb7; R 0x923d 0xbc
  ; R 0x923e 0xb7; R 0x923f 0xc5; R 0x9240 0xb7; R 0x9241 0xc7
  ; R 0x9242 0xb7; R 0x9243 0xc9; R 0x9244 0x98; R 0x9245 0x56
  ; R 0x9246 0x98; R 0x9247 0x55; R 0x9380 0x00; R 0x9381 0x62
  ; R 0x9382 0x00; R 0x9383 0x56; R 0x9384 0x00; R 0x9385 0x52
  ; R 0x9388 0x00; R 0x9389 0x55; R 0x938a 0x00; R 0x938b 0x55
  ; R 0x938c 0x00; R 0x938d 0x41; R 0x5078 0x01; R 0x0112 0x0a
  ; R 0x0113 0x0a; R 0x0114 0x01 ].

Definition mode_4056x3040_regs : list imx477_reg :=
  [ R 0x0342 0x49; R 0x0343 0xa8; R 0x0350 0x00; R 0x0340 0x0c
  ; R 0x0341 0x1e; R 0x3210 0x00; R 0x0344 0x00; R 0x0345 0x00
  ; R 0x0346 0x00; R 0x0347 0x00; R 0x0348 0x0f; R 0x0349 0xd7
  ; R 0x034a 0x0b; R 0x034b 0xdf; R 0x0220 0x00; R 0x0221 0x11
  ; R 0x0381 0x01; R 0x0383 0x01; R 0x0385 0x01; R 0x0387 0x01
  ; R 0x0900 0x00; R 0x0901 0x11; R 0x0902 0x00; R 0x3140 0x02
  ; R 0x0401 0x00; R 0x0404 0x00; R 0x0405 0x10; R 0x0408 0x00
  ; R 0x0409 0x00; R 0x040a 0x00; R 0x040b 0x00; R 0x040c 0x0f
  ; R 0x040d 0xd8; R 0x040e 0x0b; R 0x040f 0xe0; R 0x034c 0x0f
  ; R 0x034d 0xd8; R 0x034e 0x0b; R 0x034f 0xe0; R 0x0301 0x05
  ; R 0x0303 0x02; R 0x0305 0x04; R 0x0306 0x01; R 0x0307 0x00
  ; R 0x0309 0x08; R 0x030b 0x02; R 0x030d 0x02; R 0x030e 0x00
  ; R 0x030f 0x98; R 0x0310 0x01; R 0x0820 0x20; R 0x0821 0xd0
  ; R 0x0822 0x00; R 0x0823 0x00; R 0x3e20 0x01; R 0x3e37 0x00
  ; R 0x3f50 0x00; R 0x3f56 0x00; R 0x3f57 0x82; R 0x0202 0x0c
  ; R 0x0203 0x08; R 0x0204 0x00; R 0x0205 0x00; R 0x020e 0x01
  ; R 0x020f 0x00; R 0x0210 0x01; R 0x0211 0x00; R 0x0212 0x01
  ; R 0x0213 0x00; R 0x0214 0x01; R 0x0215 0x00; R 0x0100 0x01 ].

Definition mode_3840x2160_regs : list imx477_reg :=
  [ R 0x0342 0x34; R 0x0343 0x80; R 0x0350 0x00; R 0x0340 0x08
  ; R 0x0341 0xed; R 0x3210 0x00; R 0x0344 0x00; R 0x0345 0x6c
  ; R 0x0346 0x01; R 0x0347 0xb8; R 0x0348 0x0f; R 0x0349 0x6b
  ; R 0x034a 0x0a; R 0x034b 0x27; R 0x0220 0x00; R 0x0221 0x11
  ; R 0x0381 0x01; R 0x0383 0x01; R 0x0385 0x01; R 0x0387 0x01
  ; R 0x0900 0x00; R 0x0901 0x11; R 0x0902 0x00; R 0x3140 0x02
  ; R 0x0401 0x00; R 0x0404 0x00; R 0x0405 0x10; R 0x0408 0x00
  ; R 0x0409 0x00; R 0x040a 0x00; R 0x040b 0x00; R 0x040c 0x0f
  ; R 0x040d 0x00; R 0x040e 0x08; R 0x040f 0x70; R 0x034c 0x0f
  ; R 0x034d 0x00; R 0x034e 0x08; R 0x034f 0x70; R 0x0301 0x05
  ; R 0x0303 0x02; R 0x0305 0x04; R 0x0306 0x01; R 0x0307 0x00
  ; R 0x0309 0x08; R 0x030b 0x02; R 0x030d 0x02; R 0x030e 0x00
  ; R 0x030f 0x98; R 0x0310 0x01; R 0x0820 0x20; R 0x0821 0xd0
  ; R 0x0822 0x00; R 0x0823 0x00; R 0x3e20 0x01; R 0x3e37 0x00
  ; R 0x3f50 0x00; R 0x3f56 0x00; R 0x3f57 0x82; R 0x0202 0x08
  ; R 0x0203 0xec; R 0x0204 0x00; R 0x0205 0x00; R 0x020e 0x01
  ; R 0x020f 0x00; R 0x0210 0x01; R 0x0211 0x00; R 0x0212 0x01
  ; R 0x0213 0x00; R 0x0214 0x01; R 0x0215 0x00; R 0x0100 0x01 ].

Definition mode_1920x1080_regs : list imx477_reg :=
  [ R 0x0342 0x20; R 0x0343 0x70; R 0x0350 0x00; R 0x0340 0x04
  ; R 0x0341 0xd0; R 0x3210 0x00; R 0x0344 0x00; R 0x0345 0x60
  ; R 0x0346 0x01; R 0x0347 0xb8; R 0x0348 0x0f; R 0x0349 0xcb
  ; R 0x034a 0x0b; R 0x034b 0xdf; R 0x00e3 0x00; R 0x00e4 0x00
  ; R 0x00e5 0x01; R 0x00fc 0x0a; R 0x00fd 0x0a; R 0x00fe 0x0a
  ; R 0x00ff 0x0a; R 0xe013 0x00; R 0x0220 0x00; R 0x0221 0x11
  ; R 0x0381 0x01; R 0x0383 0x01; R 0x0385 0x01; R 0x0387 0x01
  ; R 0x0900 0x01; R 0x0901 0x22; R 0x0902 0x02; R 0x3140 0x02
  ; R 0x3241 0x11; R 0x3250 0x03; R 0x3e10 0x00; R 0x3e11 0x00
  ; R 0x3f0d 0x00; R 0x3f42 0x00; R 0x3f43 0x00; R 0x0401 0x00
  ; R 0x0404 0x00; R 0x0405 0x10; R 0x0408 0x00; R 0x0409 0x00
  ; R 0x040a 0x00; R 0x040b 0x00; R 0x040c 0x07; R 0x040d 0x80
  ; R 0x040e 0x04; R 0x040f 0x38; R 0x034c 0x07; R 0x034d 0x80
  ; R 0x034e 0x04; R 0x034f 0x38; R 0x0301 0x05; R 0x0303 0x02
  ; R 0x0305 0x04; R 0x0306 0x01; R 0x0307 0x00; R 0x0309 0x08
  ; R 0x030b 0x02; R 0x030d 0x02; R 0x030e 0x00; R 0x030f 0x98
  ; R 0x0310 0x01; R 0x0820 0x20; R 0x0821 0xd0; R 0x0822 0x00
  ; R 0x0823 0x00; R 0x3e20 0x01; R 0x3e37 0x00 ].

Definition supported_modes : list imx477_mode :=
  [ (* 12MPix 10fps mode *)
    {| bus_fmt := MEDIA_BUS_FMT_SRGGB10_1X10;
       width := 4056; height := 3040; line_length_pix := 0x49a8;
       max_fps := {| numerator := 100; denominator := 1000 |};
       timeperframe_default := {| numerator := 100; denominator := 1000 |};
       reg_list := {| regs := mode_4056x3040_regs |} |}
  ; (* 4K 20fps mode *)
    {| bus_fmt := MEDIA_BUS_FMT_SRGGB10_1X10;
       width := 3840; height := 2160; line_length_pix := 0x3480;
       max_fps := {| numerator := 100; denominator := 2000 |};
       timeperframe_default := {| numerator := 100; denominator := 2000 |};
       reg_list := {| regs := mode_3840x2160_regs |} |}
  ; (* 1080p 50fps cropped mode *)
    {| bus_fmt := MEDIA_BUS_FMT_SRGGB10_1X10;
       width := 1920; height := 1080; line_length_pix := 0x2070;
       max_fps := {| numerator := 100; denominator := 6000 |};
       timeperframe_default := {| numerator := 100; denominator := 6000 |};
       reg_list := {| regs := mode_1920x1080_regs |} |} ].

(** [supported_modes[i]]; the catalog is never empty, and an index past
    its end (which the driver never forms) reads the first entry here. *)
Definition mode_at (i : Z) : imx477_mode :=
  nth (Z.to_nat i) supported_modes
      {| bus_fmt := MEDIA_BUS_FMT_SRGGB10_1X10;
         width := 4056; height := 3040; line_length_pix := 0x49a8;
         max_fps := {| numerator := 100; denominator := 1000 |};
         timeperframe_default := {| numerator := 100; denominator := 1000 |};
         reg_list := {| regs := mode_4056x3040_regs |} |}.

Definition imx477_test_pattern_val : list Z :=
  [ IMX477_TEST_PATTERN_DISABLE;
    IMX477_TEST_PATTERN_COLOR_BARS;
    IMX477_TEST_PATTERN_SOLID_COLOR;
    IMX477_TEST_PATTERN_GREY_COLOR;
    IMX477_TEST_PATTERN_PN9 ].

Record imx477_compatible_data := {
  chip_id : Z;
  extra_regs : imx477_reg_list
}.

Definition imx477_compatible : imx477_compatible_data :=
  {| chip_id := IMX477_CHIP_ID; extra_regs := {| regs := [] |} |}.

(** ** The I2C bus

    The adapter is an external collaborator.  Every exchange the driver
    starts is appended to [xfers]; what the adapter answers to the n-th
    exchange (its return value and, for a read, the bytes it delivers) is
    given by [adapter], about which nothing is assumed. *)

Inductive i2c_xfer :=
| I2cSend (buf : list Z)
| I2cTransfer (wr : list Z) (rd_len : Z).

Record i2c_client := {
  xfers : list i2c_xfer;
  adapter : nat -> i2c_xfer -> Z * list Z
}.

Definition i2c_exchange (c : i2c_client) (x : i2c_xfer) : (Z * list Z) * i2c_client :=
  (adapter c (length (xfers c)) x,
   {| xfers := xfers c ++ [x]; adapter := adapter c |}).

(** [i2c_master_send(client, buf, count)]: offers the first [count] bytes
    of [buf]; returns the number of bytes written or a negative errno. *)
Definition i2c_master_send (c : i2c_client) (buf : list Z) (count : Z)
  : Z * i2c_client :=
  let '(r, c') := i2c_exchange c (I2cSend (firstn (Z.to_nat count) buf)) in
  (fst r, c').

(** [i2c_transfer] of the two messages of a register read: the register
    address written, then [rd_len] bytes read back. *)
Definition i2c_transfer (c : i2c_client) (wr : list Z) (rd_len : Z)
  : (Z * list Z) * i2c_client :=
  i2c_exchange c (I2cTransfer wr rd_len).

Definition put_unaligned_be16 (v : Z) : list Z :=
  [ Z.land (Z.shiftr v 8) 0xff; Z.land v 0xff ].

Definition put_unaligned_be32 (v : Z) : list Z :=
  [ Z.land (Z.shiftr v 24) 0xff; Z.land (Z.shiftr v 16) 0xff;
    Z.land (Z.shiftr v 8) 0xff; Z.land v 0xff ].

Definition get_unaligned_be32 (b : list Z) : Z :=
  Z.lor (Z.lor (Z.shiftl (nth 0 b 0) 24) (Z.shiftl (nth 1 b 0) 16))
        (Z.lor (Z.shiftl (nth 2 b 0) 8) (nth 3 b 0)).

(** ** V4L2 controls

    The controls the driver registers in [imx477_init_controls], in the
    order it creates them.  The handler owns the controls; the pointers
    kept in [struct imx477] ([exposure], [vblank], ...) alias entries of
    the handler, so they are modelled as lookups in it. *)

Inductive v4l2_cid :=
| V4L2_CID_LINK_FREQ
| V4L2_CID_PIXEL_RATE
| V4L2_CID_VBLANK
| V4L2_CID_HBLANK
| V4L2_CID_EXPOSURE
| V4L2_CID_ANALOGUE_GAIN
| V4L2_CID_DIGITAL_GAIN
| V4L2_CID_HFLIP
| V4L2_CID_VFLIP
| V4L2_CID_TEST_PATTERN
| V4L2_CID_TEST_PATTERN_RED
| V4L2_CID_TEST_PATTERN_GREENR
| V4L2_CID_TEST_PATTERN_BLUE
| V4L2_CID_TEST_PATTERN_GREENB.

Definition v4l2_cid_eq_dec (a b : v4l2_cid) : {a = b} + {a <> b}.
Proof. decide equality. Defined.

Record v4l2_ctrl := {
  minimum : Z;
  maximum : Z;
  step : Z;
  default_value : Z;
  val : Z;
  grabbed : bool          (* V4L2_CTRL_FLAG_GRABBED *)
}.

Definition v4l2_ctrl_handler := v4l2_cid -> v4l2_ctrl.

Definition handler_update (h : v4l2_ctrl_handler) (id : v4l2_cid) (c : v4l2_ctrl)
  : v4l2_ctrl_handler :=
  fun id' => if v4l2_cid_eq_dec id id' then c else h id'.

(** ** External power and runtime-PM collaborators

    Regulators, clock and runtime PM live outside the driver; their
    answers are taken from the environment (indexed by the number of
    earlier calls) and only the calls the driver makes are recorded.

    The runtime-PM core keeps the device's status to itself.  When
    [pm_runtime_get_sync] finds the device suspended it runs the resume
    callback the driver registered ([imx477_resume], through
    [imx477_pm_ops]); [runtime_suspended] says for each call whether it
    does, and [get_sync_reply] what the core answers when it does not
    (1 for a device already active, a negative errno when runtime PM
    cannot be used). *)

Record runtime_pm := {
  usage_count : Z;
  get_sync_calls : nat;
  get_sync_reply : nat -> Z;
  runtime_suspended : nat -> bool
}.

(** [regulator_bulk_enable] and [clk_prepare_enable] return 0 or a
    negative errno: [regulator_errno] and [clk_errno] give the errno, 0
    for success. *)
Record power_rails := {
  supplies_enabled : bool;
  xclk_enabled : bool;
  reset_gpio_valid : bool;     (* !IS_ERR(imx477->reset_gpio) *)
  reset_gpio_value : Z;
  enable_calls : nat;
  regulator_errno : nat -> N;
  clk_errno : nat -> N
}.

Definition regulator_bulk_enable (r : power_rails) : Z :=
  - Z.of_N (regulator_errno r (enable_calls r)).

Definition clk_prepare_enable (r : power_rails) : Z :=
  - Z.of_N (clk_errno r (enable_calls r)).

(** ** [struct imx477] *)

Record imx477 := {
  client : i2c_client;
  rails : power_rails;
  pm : runtime_pm;
  ctrl_handler : v4l2_ctrl_handler;
  mutex : bool;                (* true while the mutex is held *)
  streaming : bool;
  power_on : bool;
  cur_mode : Z;                (* index of the current mode in supported_modes *)
  cfg_num : Z;
  common_regs_written : bool;
  long_exp_shift : Z;
  compatible_data : imx477_compatible_data
}.

Definition exposure (x : imx477) : v4l2_ctrl := ctrl_handler x V4L2_CID_EXPOSURE.
Definition vblank (x : imx477) : v4l2_ctrl := ctrl_handler x V4L2_CID_VBLANK.
Definition hblank (x : imx477) : v4l2_ctrl := ctrl_handler x V4L2_CID_HBLANK.
Definition hflip (x : imx477) : v4l2_ctrl := ctrl_handler x V4L2_CID_HFLIP.
Definition vflip (x : imx477) : v4l2_ctrl := ctrl_handler x V4L2_CID_VFLIP.

Definition set_client (c : i2c_client) (x : imx477) : imx477 :=
  {| client := c; rails := rails x; pm := pm x;
     ctrl_handler := ctrl_handler x; mutex := mutex x;
     streaming := streaming x; power_on := power_on x;
     cur_mode := cur_mode x; cfg_num := cfg_num x;
     common_regs_written := common_regs_written x;
     long_exp_shift := long_exp_shift x;
     compatible_data := compatible_data x |}.

Definition set_rails (r : power_rails) (x : imx477) : imx477 :=
  {| client := client x; rails := r; pm := pm x;
     ctrl_handler := ctrl_handler x; mutex := mutex x;
     streaming := streaming x; power_on := power_on x;
     cur_mode := cur_mode x; cfg_num := cfg_num x;
     common_regs_written := common_regs_written x;
     long_exp_shift := long_exp_shift x;
     compatible_data := compatible_data x |}.

Definition set_pm (p : runtime_pm) (x : imx477) : imx477 :=
  {| client := client x; rails := rails x; pm := p;
     ctrl_handler := ctrl_handler x; mutex := mutex x;
     streaming := streaming x; power_on := power_on x;
     cur_mode := cur_mode x; cfg_num := cfg_num x;
     common_regs_written := common_regs_written x;
     long_exp_shift := long_exp_shift x;
     compatible_data := compatible_data x |}.

Definition set_ctrl_handler (h : v4l2_ctrl_handler) (x : imx477) : imx477 :=
  {| client := client x; rails := rails x; pm := pm x;
     ctrl_handler := h; mutex := mutex x;
     streaming := streaming x; power_on := power_on x;
     cur_mode := cur_mode x; cfg_num := cfg_num x;
     common_regs_written := common_regs_written x;
     long_exp_shift := long_exp_shift x;
     compatible_data := compatible_data x |}.

Definition set_mutex (b : bool) (x : imx477) : imx477 :=
  {| client := client x; rails := rails x; pm := pm x;
     ctrl_handler := ctrl_handler x; mutex := b;
     streaming := streaming x; power_on := power_on x;
     cur_mode := cur_mode x; cfg_num := cfg_num x;
     common_regs_written := common_regs_written x;
     long_exp_shift := long_exp_shift x;
     compatible_data := compatible_data x |}.

Definition set_streaming (b : bool) (x : imx477) : imx477 :=
  {| client := client x; rails := rails x; pm := pm x;
     ctrl_handler := ctrl_handler x; mutex := mutex x;
     streaming := b; power_on := power_on x;
     cur_mode := cur_mode x; cfg_num := cfg_num x;
     common_regs_written := common_regs_written x;
     long_exp_shift := long_exp_shift x;
     compatible_data := compatible_data x |}.

Definition set_power_on (b : bool) (x : imx477) : imx477 :=
  {| client := client x; rails := rails x; pm := pm x;
     ctrl_handler := ctrl_handler x; mutex := mutex x;
     streaming := streaming x; power_on := b;
     cur_mode := cur_mode x; cfg_num := cfg_num x;
     common_regs_written := common_regs_written x;
     long_exp_shift := long_exp_shift x;
     compatible_data := compatible_data x |}.

Definition set_cur_mode (m : Z) (x : imx477) : imx477 :=
  {| client := client x; rails := rails x; pm := pm x;
     ctrl_handler := ctrl_handler x; mutex := mutex x;
     streaming := streaming x; power_on := power_on x;
     cur_mode := m; cfg_num := cfg_num x;
     common_regs_written := common_regs_written x;
     long_exp_shift := long_exp_shift x;
     compatible_data := compatible_data x |}.

Definition set_common_regs_written (b : bool) (x : imx477) : imx477 :=
  {| client := client x; rails := rails x; pm := pm x;
     ctrl_handler := ctrl_handler x; mutex := mutex x;
     streaming := streaming x; power_on := power_on x;
     cur_mode := cur_mode x; cfg_num := cfg_num x;
     common_regs_written := b;
     long_exp_shift := long_exp_shift x;
     compatible_data := compatible_data x |}.

Definition set_long_exp_shift (s : Z) (x : imx477) : imx477 :=
  {| client := client x; rails := rails x; pm := pm x;
     ctrl_handler := ctrl_handler x; mutex := mutex x;
     streaming := streaming x; power_on := power_on x;
     cur_mode := cur_mode x; cfg_num := cfg_num x;
     common_regs_written := common_regs_written x;
     long_exp_shift := s;
     compatible_data := compatible_data x |}.

Definition set_ctrl_of (id : v4l2_cid) (c : v4l2_ctrl) (x : imx477) : imx477 :=
  set_ctrl_handler (handler_update (ctrl_handler x) id c) x.

(** ** A state monad over the driver object *)

Definition M (A : Type) : Type := imx477 -> A * imx477.

Definition pure {A} (a : A) : M A := fun x => (a, x).

Definition bind {A B} (m : M A) (k : A -> M B) : M B :=
  fun x => let '(a, x') := m x in k a x'.

Definition get : M imx477 := fun x => (x, x).

Definition modify (f : imx477 -> imx477) : M unit := fun x => (tt, f x).

Declare Scope drv_scope.
Delimit Scope drv_scope with drv.
Notation "v <- m ;; k" := (bind m (fun v => k))
  (at level 61, m at next level, right associativity) : drv_scope.
Notation "m ;;; k" := (bind m (fun _ => k))
  (at level 61, right associativity) : drv_scope.
Open Scope drv_scope.

Definition mutex_lock : M unit := modify (set_mutex true).
Definition mutex_unlock : M unit := modify (set_mutex false).

(** ** Register transport *)

(** Read registers up to 2 at a time.  The value read is returned next to
    the status; on failure [*val] keeps what it held ([val0]). *)
Definition imx477_read_reg (reg len val0 : Z) : M (Z * Z) :=
  let reg := u16 reg in
  let len := u32 len in
  let addr_buf := [ u8 (Z.shiftr reg 8); u8 (Z.land reg 0xff) ] in
  if len >? 4 then pure (- EINVAL, val0)
  else
    x <- get ;;
    let '((ret, rd), c') := i2c_transfer (client x) addr_buf len in
    modify (set_client c') ;;;
    if negb (ret =? 2) then pure (- EIO, val0)
    else
      let data_buf :=
        repeat 0 (Z.to_nat (4 - len))
        ++ firstn (Z.to_nat len) (map u8 rd ++ repeat 0 (Z.to_nat len)) in
      pure (0, get_unaligned_be32 data_buf).

(** Write registers up to 2 at a time. *)
Definition imx477_write_reg (reg len val : Z) : M Z :=
  let reg := u16 reg in
  let len := u32 len in
  let val := u32 val in
  if len >? 4 then pure (- EINVAL)
  else
    let buf := put_unaligned_be16 reg
               ++ put_unaligned_be32 (u32 (Z.shiftl val (8 * (4 - len)))) in
    x <- get ;;
    let '(sent, c') := i2c_master_send (client x) buf (len + 2) in
    modify (set_client c') ;;;
    if negb (sent =? len + 2) then pure (- EIO) else pure 0.

(** Write a list of registers: the loop over [i < len], [len] being the
    number of entries the caller passes ([ARRAY_SIZE] or [num_of_regs]). *)
Fixpoint write_regs_loop (regs : list imx477_reg) : M Z :=
  match regs with
  | [] => pure 0
  | r :: rest =>
      ret <- imx477_write_reg (address r) 1 (reg_val r) ;;
      if truth ret then pure ret else write_regs_loop rest
  end.

Definition imx477_write_regs (regs : list imx477_reg) (len : Z) : M Z :=
  write_regs_loop (firstn (Z.to_nat len) regs).

(** ** Power and clock *)

(** Power/clock management functions.  The settle delay after releasing
    reset ([usleep_range]) is real time and leaves no trace in the state. *)
Definition __imx477_power_on : M Z :=
  x <- get ;;
  let r := rails x in
  let n := enable_calls r in
  let ret := regulator_bulk_enable r in
  if truth ret then
    modify (set_rails {| supplies_enabled := supplies_enabled r;
                         xclk_enabled := xclk_enabled r;
                         reset_gpio_valid := reset_gpio_valid r;
                         reset_gpio_value := reset_gpio_value r;
                         enable_calls := S n;
                         regulator_errno := regulator_errno r;
                         clk_errno := clk_errno r |}) ;;;
    pure ret
  else
    let ret := clk_prepare_enable r in
    if truth ret then
      (* reg_off *)
      modify (set_rails {| supplies_enabled := false;
                           xclk_enabled := xclk_enabled r;
                           reset_gpio_valid := reset_gpio_valid r;
                           reset_gpio_value := reset_gpio_value r;
                           enable_calls := S n;
                           regulator_errno := regulator_errno r;
                           clk_errno := clk_errno r |}) ;;;
      pure ret
    else
      modify (set_rails {| supplies_enabled := true;
                           xclk_enabled := true;
                           reset_gpio_valid := reset_gpio_valid r;
                           reset_gpio_value := 1;
                           enable_calls := S n;
                           regulator_errno := regulator_errno r;
                           clk_errno := clk_errno r |}) ;;;
      pure 0.

Definition __imx477_power_off : M Z :=
  modify (fun x =>
    let r := rails x in
    set_rails {| supplies_enabled := false;
                 xclk_enabled := false;
                 reset_gpio_valid := reset_gpio_valid r;
                 reset_gpio_value :=
                   if reset_gpio_valid r then 1 else reset_gpio_value r;
                 enable_calls := enable_calls r;
                 regulator_errno := regulator_errno r;
                 clk_errno := clk_errno r |} x) ;;;
  (* Force reprogramming of the common registers when powered up again. *)
  modify (set_common_regs_written false) ;;;
  pure 0.

(** Stop streaming *)
Definition __imx477_stop_streaming : M unit :=
  (* set stream off register; a failure is only logged *)
  _ <- imx477_write_reg IMX477_REG_MODE_SELECT IMX477_REG_VALUE_08BIT
                        IMX477_MODE_STANDBY ;;
  pure tt.

(** The runtime-PM callbacks the driver registers in [imx477_pm_ops]. *)
Definition imx477_suspend : M Z :=
  _ <- __imx477_power_off ;;
  pure 0.

Definition imx477_resume : M Z :=
  ret <- __imx477_power_on ;;
  if truth ret then
    (* error *)
    __imx477_stop_streaming ;;;
    modify (set_streaming false) ;;;
    pure ret
  else pure 0.

(** ** Runtime-PM calls made by the driver *)

(** [pm_runtime_get_sync] takes a reference and, when the core finds the
    device suspended, resumes it on the spot through the driver's
    callback, whose result it then returns (0, or the error that left
    the device suspended). *)
Definition pm_runtime_get_sync : M Z :=
  x <- get ;;
  let p := pm x in
  modify (set_pm {| usage_count := usage_count p + 1;
                    get_sync_calls := S (get_sync_calls p);
                    get_sync_reply := get_sync_reply p;
                    runtime_suspended := runtime_suspended p |}) ;;;
  if runtime_suspended p (get_sync_calls p)
  then imx477_resume
  else pure (get_sync_reply p (get_sync_calls p)).

(** [pm_runtime_put] drops a reference; the suspend it may lead to is
    queued and runs later, outside the call. *)
Definition pm_runtime_put : M unit :=
  modify (fun x =>
    let p := pm x in
    set_pm {| usage_count := usage_count p - 1;
              get_sync_calls := get_sync_calls p;
              get_sync_reply := get_sync_reply p;
              runtime_suspended := runtime_suspended p |} x).

Definition pm_runtime_put_noidle : M unit := pm_runtime_put.

(** ** Control framework entry points used by the driver *)

Definition with_range (mn mx st df v : Z) (c : v4l2_ctrl) : v4l2_ctrl :=
  {| minimum := mn; maximum := mx; step := st; default_value := df;
     val := v; grabbed := grabbed c |}.

Definition with_val (v : Z) (c : v4l2_ctrl) : v4l2_ctrl :=
  {| minimum := minimum c; maximum := maximum c; step := step c;
     default_value := default_value c; val := v; grabbed := grabbed c |}.

Definition with_grabbed (g : bool) (c : v4l2_ctrl) : v4l2_ctrl :=
  {| minimum := minimum c; maximum := maximum c; step := step c;
     default_value := default_value c; val := val c; grabbed := g |}.

Definition clamp (v lo hi : Z) : Z := Z.min (Z.max v lo) hi.

(** Modelled from the spec: [__v4l2_ctrl_modify_range] of the V4L2
    control framework, which is not part of the driver file.  It
    republishes a control's bounds, step and default, and the control's
    current value is clamped into the new bounds (spec 4.4: "exposure
    default/current clamped").  What else the framework does when the
    clamping changes the value is not described by the spec and is not
    modelled. *)
Definition __v4l2_ctrl_modify_range (id : v4l2_cid) (mn mx st df : Z) : M unit :=
  modify (fun x =>
    let c := ctrl_handler x id in
    set_ctrl_of id (with_range mn mx st df (clamp (val c) mn mx) c) x).

(** Modelled from the spec: [__v4l2_ctrl_grab] of the control framework
    sets or clears the control's grabbed flag. *)
Definition __v4l2_ctrl_grab (id : v4l2_cid) (g : bool) : M unit :=
  modify (fun x => set_ctrl_of id (with_grabbed g (ctrl_handler x id)) x).

Definition imx477_adjust_exposure_range : M unit :=
  x <- get ;;
  (* Honour the VBLANK limits when setting exposure. *)
  let exposure_max :=
    s32 (u32 (height (mode_at (cur_mode x)) + u32 (val (vblank x))
              - IMX477_EXPOSURE_OFFSET)) in
  let exposure_def := Z.min exposure_max (val (exposure x)) in
  __v4l2_ctrl_modify_range V4L2_CID_EXPOSURE (minimum (exposure x))
                           exposure_max (step (exposure x)) exposure_def.

(** The loop of [imx477_set_frame_length]:
    [while (val > IMX477_FRAME_LENGTH_MAX) { long_exp_shift++; val >>= 1; }].
    [val] is a 32-bit unsigned value, so 32 halvings empty it; the
    recursion is on that bound ([frame_length_loop_fuel] below shows that
    the loop always leaves through its condition). *)
Fixpoint frame_length_loop (fuel : nat) (shift val : Z) : Z * Z :=
  match fuel with
  | O => (shift, val)
  | S fuel' =>
      if val >? IMX477_FRAME_LENGTH_MAX
      then frame_length_loop fuel' (u32 (shift + 1)) (Z.shiftr val 1)
      else (shift, val)
  end.

Definition imx477_set_frame_length (val : Z) : M Z :=
  let val := u32 val in
  let '(shift, val) := frame_length_loop 32 0 val in
  modify (set_long_exp_shift shift) ;;;
  ret <- imx477_write_reg IMX477_REG_FRAME_LENGTH IMX477_REG_VALUE_16BIT val ;;
  if truth ret then pure ret
  else
    x <- get ;;
    imx477_write_reg IMX477_LONG_EXP_SHIFT_REG IMX477_REG_VALUE_08BIT
                     (long_exp_shift x).

(** The [s_ctrl] callback.  [ctrl->val] already holds the value being
    applied when the framework calls it. *)
Definition imx477_set_ctrl (id : v4l2_cid) : M Z :=
  (* The VBLANK control may change the limits of usable exposure, so check
     and adjust if necessary. *)
  (if v4l2_cid_eq_dec id V4L2_CID_VBLANK
   then imx477_adjust_exposure_range else pure tt) ;;;
  x <- get ;;
  let ctrl := ctrl_handler x id in
  ret <-
    match id with
    | V4L2_CID_ANALOGUE_GAIN =>
        imx477_write_reg IMX477_REG_ANALOG_GAIN IMX477_REG_VALUE_16BIT (val ctrl)
    | V4L2_CID_EXPOSURE =>
        imx477_write_reg IMX477_REG_EXPOSURE IMX477_REG_VALUE_16BIT
                         (Z.shiftr (val ctrl) (long_exp_shift x))
    | V4L2_CID_DIGITAL_GAIN =>
        imx477_write_reg IMX477_REG_DIGITAL_GAIN IMX477_REG_VALUE_16BIT (val ctrl)
    | V4L2_CID_TEST_PATTERN =>
        imx477_write_reg IMX477_REG_TEST_PATTERN IMX477_REG_VALUE_16BIT
                         (nth (Z.to_nat (val ctrl)) imx477_test_pattern_val 0)
    | V4L2_CID_TEST_PATTERN_RED =>
        imx477_write_reg IMX477_REG_TEST_PATTERN_R IMX477_REG_VALUE_16BIT (val ctrl)
    | V4L2_CID_TEST_PATTERN_GREENR =>
        imx477_write_reg IMX477_REG_TEST_PATTERN_GR IMX477_REG_VALUE_16BIT (val ctrl)
    | V4L2_CID_TEST_PATTERN_BLUE =>
        imx477_write_reg IMX477_REG_TEST_PATTERN_B IMX477_REG_VALUE_16BIT (val ctrl)
    | V4L2_CID_TEST_PATTERN_GREENB =>
        imx477_write_reg IMX477_REG_TEST_PATTERN_GB IMX477_REG_VALUE_16BIT (val ctrl)
    | V4L2_CID_HFLIP
    | V4L2_CID_VFLIP =>
        imx477_write_reg IMX477_REG_ORIENTATION 1
                         (Z.lor (val (hflip x)) (Z.shiftl (val (vflip x)) 1))
    | V4L2_CID_VBLANK =>
        imx477_set_frame_length (height (mode_at (cur_mode x)) + val ctrl)
    | V4L2_CID_HBLANK =>
        imx477_write_reg IMX477_REG_LINE_LENGTH 2
                         (width (mode_at (cur_mode x)) + val ctrl)
    | _ => pure (- EINVAL)
    end ;;
  pm_runtime_put ;;;
  pure ret.

(** Whether the control was created with [imx477_ctrl_ops]; the
    link-frequency menu is created with no ops. *)
Definition has_ops (id : v4l2_cid) : bool :=
  match id with V4L2_CID_LINK_FREQ => false | _ => true end.

(** Modelled from the spec: [__v4l2_ctrl_s_ctrl] of the control
    framework (spec 6, "set_control(id, value)", and 7, "InvalidArgument:
    out-of-range control value, rejected before any I/O, no partial state
    change").  A grabbed control cannot be set (the framework answers
    -EBUSY); a value inside the published bounds becomes the control's
    value and the driver's [s_ctrl] callback applies it. *)
Definition __v4l2_ctrl_s_ctrl (id : v4l2_cid) (v : Z) : M Z :=
  x <- get ;;
  let c := ctrl_handler x id in
  if grabbed c then pure (- EBUSY)
  else if (v <? minimum c) || (maximum c <? v) then pure (- EINVAL)
  else
    modify (set_ctrl_of id (with_val v c)) ;;;
    (if has_ops id then imx477_set_ctrl id else pure 0).

(** The controls whose values the spec lists as device state (3,
    "control_values"), in the order [imx477_init_controls] creates them. *)
Definition replayed_ctrls : list v4l2_cid :=
  [ V4L2_CID_VBLANK; V4L2_CID_HBLANK; V4L2_CID_EXPOSURE;
    V4L2_CID_ANALOGUE_GAIN; V4L2_CID_DIGITAL_GAIN;
    V4L2_CID_HFLIP; V4L2_CID_VFLIP; V4L2_CID_TEST_PATTERN;
    V4L2_CID_TEST_PATTERN_RED; V4L2_CID_TEST_PATTERN_GREENR;
    V4L2_CID_TEST_PATTERN_BLUE; V4L2_CID_TEST_PATTERN_GREENB ].

Fixpoint handler_setup_loop (ids : list v4l2_cid) : M Z :=
  match ids with
  | [] => pure 0
  | id :: rest =>
      ret <- imx477_set_ctrl id ;;
      if truth ret then pure ret else handler_setup_loop rest
  end.

(** Modelled from the spec: [__v4l2_ctrl_handler_setup] of the control
    framework (spec 4.5: "replay all control values (every control's
    current value is re-applied as if freshly set)"; "any step failing
    aborts the whole sequence").  Each control's callback is invoked with
    the control's current value, and the first error ends the replay. *)
Definition __v4l2_ctrl_handler_setup : M Z := handler_setup_loop replayed_ctrls.

(** ** Timing engine *)

(** [do_div(n, base)] is a kernel macro ([include/asm-generic/div64.h])
    that is not part of the driver file.  It divides the 64-bit [n] in
    place by [base] taken as a 32-bit value:
    [uint32_t __base = (base); ... (n) = ((uint64_t)(n)) / __base;]
    so only the low 32 bits of the divisor expression take part.  A zero
    base is a division by zero in C; no catalog entry produces one, and
    the quotient is 0 here as for [Z.div]. *)
Definition do_div (n base : Z) : Z := u64 n / u32 base.

Definition imx477_get_frame_length (mode : imx477_mode) (timeperframe : v4l2_fract) : Z :=
  let frame_length := u64 (u64 (numerator timeperframe) * IMX477_PIXEL_RATE) in
  let frame_length :=
    do_div frame_length
           (u64 (u64 (denominator timeperframe) * line_length_pix mode)) in
  let frame_length :=
    if frame_length >? IMX477_FRAME_LENGTH_MAX
    then IMX477_FRAME_LENGTH_MAX else frame_length in
  Z.max (u32 frame_length) (u32 (height mode)).

Definition imx477_set_framing_limits : M unit :=
  x <- get ;;
  let mode := mode_at (cur_mode x) in
  let frm_length_min := imx477_get_frame_length mode (max_fps mode) in
  let frm_length_default :=
    imx477_get_frame_length mode (timeperframe_default mode) in
  (* Default to no long exposure multiplier. *)
  modify (set_long_exp_shift 0) ;;;
  (* Update limits and set FPS to default *)
  __v4l2_ctrl_modify_range V4L2_CID_VBLANK
    (u32 (frm_length_min - height mode))
    (u32 (Z.shiftl 1 IMX477_LONG_EXP_SHIFT_MAX * IMX477_FRAME_LENGTH_MAX
          - height mode))
    1 (u32 (frm_length_default - height mode)) ;;;
  (* Setting this will adjust the exposure limits as well. *)
  _ <- __v4l2_ctrl_s_ctrl V4L2_CID_VBLANK
         (s32 (frm_length_default - height mode)) ;;
  let hblank_min := u32 (line_length_pix mode - width mode) in
  __v4l2_ctrl_modify_range V4L2_CID_HBLANK hblank_min
                           IMX477_LINE_LENGTH_MAX 1 hblank_min ;;;
  _ <- __v4l2_ctrl_s_ctrl V4L2_CID_HBLANK (s32 hblank_min) ;;
  _ <- __v4l2_ctrl_s_ctrl V4L2_CID_PIXEL_RATE IMX477_PIXEL_RATE ;;
  pure tt.

(** ** Mode negotiation *)

Record v4l2_mbus_framefmt := {
  fmt_width : Z;
  fmt_height : Z;
  code : Z
}.

(** [abs()] is the kernel macro of [include/linux/kernel.h], not part of
    the driver file: an operand of unsigned type is converted to the
    signed type of the same width first
    ([({ signed type __x = (x); __x < 0 ? -__x : __x; })]).  Its operands
    here are differences of [unsigned int] fields ([mode->width],
    [framefmt->width] and the two heights), computed modulo 2^32. *)
Definition abs (x : Z) : Z :=
  let __x := s32 x in s32 (if __x <? 0 then - __x else __x).

(** The two differences are taken in [unsigned int]; the sum is an
    [int], which wraps (the kernel is built with [-fno-strict-overflow]). *)
Definition imx477_get_reso_dist (mode : imx477_mode) (framefmt : v4l2_mbus_framefmt) : Z :=
  s32 (abs (u32 (width mode - u32 (fmt_width framefmt)))
       + abs (u32 (height mode - u32 (fmt_height framefmt)))).

(** The loop of [imx477_find_best_fit], with [n] iterations left, [i] the
    loop index and the two locals. *)
Fixpoint find_best_fit_loop (n : nat) (i : Z) (framefmt : v4l2_mbus_framefmt)
         (cur_best_fit cur_best_fit_dist : Z) : Z :=
  match n with
  | O => cur_best_fit
  | S n' =>
      let dist := imx477_get_reso_dist (mode_at i) framefmt in
      if ((cur_best_fit_dist =? -1) || (dist <? cur_best_fit_dist))
         && (bus_fmt (mode_at i) =? u32 (code framefmt))
      then find_best_fit_loop n' (i + 1) framefmt i dist
      else find_best_fit_loop n' (i + 1) framefmt cur_best_fit cur_best_fit_dist
  end.

(** Returns [&supported_modes[cur_best_fit]] as the index it points to. *)
Definition imx477_find_best_fit (x : imx477) (framefmt : v4l2_mbus_framefmt) : Z :=
  find_best_fit_loop (Z.to_nat (cfg_num x)) 0 framefmt 0 (-1).

Inductive v4l2_subdev_format_whence :=
| V4L2_SUBDEV_FORMAT_TRY
| V4L2_SUBDEV_FORMAT_ACTIVE.

Section Kconfig.

(** Whether the kernel is built with [CONFIG_VIDEO_V4L2_SUBDEV_API]. *)
Variable CONFIG_VIDEO_V4L2_SUBDEV_API : bool.

(** [try_fmt] is the pad's stored try format, which belongs to the
    caller. *)
Definition imx477_set_fmt (which : v4l2_subdev_format_whence)
           (try_fmt format : v4l2_mbus_framefmt)
  : M (Z * v4l2_mbus_framefmt) :=
  mutex_lock ;;;
  x <- get ;;
  let mode := imx477_find_best_fit x format in
  let format := {| fmt_width := width (mode_at mode);
                   fmt_height := height (mode_at mode);
                   code := bus_fmt (mode_at mode) |} in
  match which with
  | V4L2_SUBDEV_FORMAT_TRY =>
      if CONFIG_VIDEO_V4L2_SUBDEV_API
      then mutex_unlock ;;; pure (0, try_fmt)
      else mutex_unlock ;;; pure (- ENOTTY, format)
  | V4L2_SUBDEV_FORMAT_ACTIVE =>
      (if negb (cur_mode x =? mode)
       then modify (set_cur_mode mode) ;;; imx477_set_framing_limits
       else pure tt) ;;;
      mutex_unlock ;;; pure (0, format)
  end.

End Kconfig.

(** ** Streaming *)

(** Start streaming *)
Definition __imx477_start_streaming : M Z :=
  x <- get ;;
  ret <-
    (if negb (common_regs_written x) then
       ret <- imx477_write_regs mode_common_regs
                                (Z.of_nat (length mode_common_regs)) ;;
       ret <- (if negb (truth ret)
               then let extra := extra_regs (compatible_data x) in
                    imx477_write_regs (regs extra) (num_of_regs extra)
               else pure ret) ;;
       if truth ret then pure ret
       else modify (set_common_regs_written true) ;;; pure 0
     else pure 0) ;;
  if truth ret then pure ret
  else
    (* Apply default values of current mode *)
    x <- get ;;
    let reg_list := reg_list (mode_at (cur_mode x)) in
    ret <- imx477_write_regs (regs reg_list) (num_of_regs reg_list) ;;
    if truth ret then pure ret
    else
      (* Apply customized values from user *)
      ret <- __v4l2_ctrl_handler_setup ;;
      if truth ret then pure ret
      else
        (* set stream on register *)
        imx477_write_reg IMX477_REG_MODE_SELECT IMX477_REG_VALUE_08BIT
                         IMX477_MODE_STREAMING.

Definition imx477_s_stream (enable : Z) : M Z :=
  mutex_lock ;;;
  x <- get ;;
  if of_bool (streaming x) =? enable then mutex_unlock ;;; pure 0
  else
    let done (ret : Z) : M Z :=
      modify (set_streaming (truth enable)) ;;;
      (* vflip and hflip cannot change during streaming *)
      __v4l2_ctrl_grab V4L2_CID_VFLIP (truth enable) ;;;
      __v4l2_ctrl_grab V4L2_CID_HFLIP (truth enable) ;;;
      mutex_unlock ;;; pure ret in
    let err_unlock (ret : Z) : M Z := mutex_unlock ;;; pure ret in
    let err_rpm_put (ret : Z) : M Z := pm_runtime_put ;;; err_unlock ret in
    if truth enable then
      ret <- pm_runtime_get_sync ;;
      if ret <? 0 then pm_runtime_put_noidle ;;; err_unlock ret
      else
        (* Apply default & customized values and then start streaming. *)
        ret <- __imx477_start_streaming ;;
        if truth ret then err_rpm_put ret else done ret
    else
      __imx477_stop_streaming ;;; pm_runtime_put ;;; done 0.

(** The spec's names for the two directions of [imx477_s_stream]. *)
Definition start_streaming : M Z := imx477_s_stream 1.
Definition stop_streaming : M Z := imx477_s_stream 0.

(** ** Power *)

Definition imx477_s_power (on : Z) : M Z :=
  mutex_lock ;;;
  x <- get ;;
  if Bool.eqb (power_on x) (truth on) then mutex_unlock ;;; pure 0
  else if truth on then
    ret <- pm_runtime_get_sync ;;
    if ret <? 0 then pm_runtime_put_noidle ;;; mutex_unlock ;;; pure ret
    else modify (set_power_on true) ;;; mutex_unlock ;;; pure ret
  else
    pm_runtime_put ;;; modify (set_power_on false) ;;; mutex_unlock ;;; pure 0.

(** ** Module identification *)

(** Verify chip ID.  The local [val] is uninitialised in C; it is only
    read after a successful read has stored into it, and starts as 0
    here. *)
Definition imx477_identify_module (expected_id : Z) : M Z :=
  r <- imx477_read_reg IMX477_REG_CHIP_ID IMX477_REG_VALUE_16BIT 0 ;;
  let ret := fst r in
  let val := snd r in
  if truth ret then pure ret
  else if negb (val =? u32 expected_id) then pure (- EIO)
  else pure 0.

(** ** Format enumeration and queries *)

(** [imx477_enum_mbus_code]: the status and [code->code], which keeps its
    value [code0] when the index is refused. *)
Definition imx477_enum_mbus_code (x : imx477) (index code0 : Z) : Z * Z :=
  if u32 index >=? cfg_num x then (- EINVAL, code0)
  else (0, bus_fmt (mode_at (u32 index))).

Record v4l2_subdev_frame_size_enum := {
  fse_index : Z;
  fse_code : Z;
  min_width : Z;
  max_width : Z;
  min_height : Z;
  max_height : Z
}.

Definition imx477_enum_frame_size (x : imx477) (fse : v4l2_subdev_frame_size_enum)
  : Z * v4l2_subdev_frame_size_enum :=
  if u32 (fse_index fse) >=? cfg_num x then (- EINVAL, fse)
  else if negb (u32 (fse_code fse) =? bus_fmt (mode_at (u32 (fse_index fse))))
  then (- EINVAL, fse)
  else
    let mode := mode_at (u32 (fse_index fse)) in
    (0, {| fse_index := fse_index fse; fse_code := fse_code fse;
           min_width := width mode; max_width := width mode;
           min_height := height mode; max_height := height mode |}).

Section KconfigQueries.

Variable CONFIG_VIDEO_V4L2_SUBDEV_API : bool.

(** [mode] is read from [cur_mode] before the mutex is taken, as in the
    source. *)
Definition imx477_get_fmt (which : v4l2_subdev_format_whence)
           (try_fmt format : v4l2_mbus_framefmt)
  : M (Z * v4l2_mbus_framefmt) :=
  x <- get ;;
  let mode := mode_at (cur_mode x) in
  mutex_lock ;;;
  match which with
  | V4L2_SUBDEV_FORMAT_TRY =>
      if CONFIG_VIDEO_V4L2_SUBDEV_API
      then mutex_unlock ;;; pure (0, try_fmt)
      else mutex_unlock ;;; pure (- ENOTTY, format)
  | V4L2_SUBDEV_FORMAT_ACTIVE =>
      mutex_unlock ;;;
      pure (0, {| fmt_width := width mode; fmt_height := height mode;
                  code := bus_fmt mode |})
  end.

End KconfigQueries.

Definition im477_g_frame_interval : M (Z * v4l2_fract) :=
  x <- get ;;
  let mode := mode_at (cur_mode x) in
  mutex_lock ;;;
  mutex_unlock ;;;
  pure (0, timeperframe_default mode).

(** ** The end of [imx477_probe]

    The part of [imx477_probe] from [__imx477_power_on] to its return,
    with its three error labels.  The media-entity and async-registration
    calls are outside the driver; their return values are taken from the
    environment.  [v4l2_ctrl_handler_free] and [mutex_destroy] leave no
    trace in the modelled state.  The last step enables runtime PM and
    calls [pm_runtime_idle], which suspends a device it finds idle through
    the driver's callback [imx477_suspend] before it returns; whether it
    does is the core's decision. *)
Section ProbeEnvironment.

(** Whether the kernel is built with [CONFIG_MEDIA_CONTROLLER]. *)
Variable CONFIG_MEDIA_CONTROLLER : bool.

(** What [media_entity_pads_init] and
    [v4l2_async_register_subdev_sensor_common] return. *)
Variable pads_init_ret : Z.
Variable register_ret : Z.

(** Whether [pm_runtime_idle] suspends the device. *)
Variable idle_suspends : bool.

Definition imx477_probe_bringup : M Z :=
  (* The sensor must be powered for imx477_identify_module()
     to be able to read the CHIP_ID register *)
  ret <- __imx477_power_on ;;
  if truth ret then (* error_handler_free *) pure ret
  else
    x <- get ;;
    ret <- imx477_identify_module (chip_id (compatible_data x)) ;;
    if truth ret then (* error_power_off *) __imx477_power_off ;;; pure ret
    else
      let ret := if CONFIG_MEDIA_CONTROLLER then pads_init_ret else ret in
      if truth ret then (* error_power_off *) __imx477_power_off ;;; pure ret
      else
        let ret := register_ret in
        if ret <? 0
        then (* error_clean_entity *) __imx477_power_off ;;; pure ret
        else
          (* Enable runtime PM and turn off the device *)
          (if idle_suspends then _ <- imx477_suspend ;; pure tt else pure tt) ;;;
          pure 0.

End ProbeEnvironment.

(** ** Device bring-up

    The controls as [imx477_init_controls] creates them (bounds, step,
    default, with the value at its default), and the object once
    [imx477_probe] has initialised them. *)

Definition new_ctrl (mn mx st df : Z) : v4l2_ctrl :=
  {| minimum := mn; maximum := mx; step := st; default_value := df;
     val := df; grabbed := false |}.

Definition init_ctrls : v4l2_ctrl_handler :=
  fun id =>
    match id with
    | V4L2_CID_LINK_FREQ => new_ctrl 0 0 1 0
    | V4L2_CID_PIXEL_RATE =>
        new_ctrl IMX477_PIXEL_RATE IMX477_PIXEL_RATE 1 IMX477_PIXEL_RATE
    | V4L2_CID_VBLANK => new_ctrl 0 0xffff 1 0
    | V4L2_CID_HBLANK => new_ctrl 0 0xffff 1 0
    | V4L2_CID_EXPOSURE =>
        new_ctrl IMX477_EXPOSURE_MIN IMX477_EXPOSURE_MAX
                 IMX477_EXPOSURE_STEP IMX477_EXPOSURE_DEFAULT
    | V4L2_CID_ANALOGUE_GAIN =>
        new_ctrl IMX477_ANA_GAIN_MIN IMX477_ANA_GAIN_MAX
                 IMX477_ANA_GAIN_STEP IMX477_ANA_GAIN_DEFAULT
    | V4L2_CID_DIGITAL_GAIN =>
        new_ctrl IMX477_DGTL_GAIN_MIN IMX477_DGTL_GAIN_MAX
                 IMX477_DGTL_GAIN_STEP IMX477_DGTL_GAIN_DEFAULT
    | V4L2_CID_HFLIP => new_ctrl 0 1 1 0
    | V4L2_CID_VFLIP => new_ctrl 0 1 1 0
    | V4L2_CID_TEST_PATTERN =>
        new_ctrl 0 (Z.of_nat (length imx477_test_pattern_val) - 1) 1 0
    | V4L2_CID_TEST_PATTERN_RED
    | V4L2_CID_TEST_PATTERN_GREENR
    | V4L2_CID_TEST_PATTERN_BLUE
    | V4L2_CID_TEST_PATTERN_GREENB =>
        new_ctrl IMX477_TEST_PATTERN_COLOUR_MIN IMX477_TEST_PATTERN_COLOUR_MAX
                 IMX477_TEST_PATTERN_COLOUR_STEP IMX477_TEST_PATTERN_COLOUR_MAX
    end.

Definition imx477_init_controls : M unit :=
  modify (set_ctrl_handler init_ctrls) ;;;
  (* Setup exposure and frame/line length limits. *)
  imx477_set_framing_limits.

(** The zeroed object with the assignments of [imx477_probe], its
    controls initialised, on a bus driven by [adp].  Its environment is
    one where regulators and clock never fail and runtime PM, having
    suspended the device at the end of the probe, resumes it at the first
    [pm_runtime_get_sync] and finds it active at the later ones. *)
Definition probed (adp : nat -> i2c_xfer -> Z * list Z) : imx477 :=
  snd (imx477_init_controls
    {| client := {| xfers := []; adapter := adp |};
       rails := {| supplies_enabled := false; xclk_enabled := false;
                   reset_gpio_valid := true; reset_gpio_value := 0;
                   enable_calls := O;
                   regulator_errno := fun _ => 0%N;
                   clk_errno := fun _ => 0%N |};
       pm := {| usage_count := 0; get_sync_calls := O;
                get_sync_reply := fun _ => 1;
                runtime_suspended := fun n => Nat.eqb n 0 |};
       ctrl_handler := init_ctrls;
       mutex := false;
       streaming := false;
       power_on := false;
       cur_mode := 0;
       cfg_num := Z.of_nat (length supported_modes);
       common_regs_written := false;
       long_exp_shift := 0;
       compatible_data := imx477_compatible |}).

(** An adapter that takes every message in full. *)
Definition ack_all : nat -> i2c_xfer -> Z * list Z :=
  fun _ x =>
    match x with
    | I2cSend buf => (Z.of_nat (length buf), [])
    | I2cTransfer _ rd_len => (2, repeat 0 (Z.to_nat rd_len))
    end.

(** An adapter that fails the exchange number [k] with [-EREMOTEIO] and
    takes every other one. *)
Definition nak_at (k : nat) : nat -> i2c_xfer -> Z * list Z :=
  fun n x => if Nat.eqb n k then (-121, []) else ack_all n x.

(** ** The calls the surrounding frameworks make into the driver *)

(** Modelled from the spec: [v4l2_ctrl_s_ctrl], the locked entry of the
    control framework (spec 6, "set_control(id, value)"; spec 5, every
    control application runs under the device lock). *)
Definition v4l2_ctrl_s_ctrl (id : v4l2_cid) (v : Z) : M Z :=
  mutex_lock ;;;
  ret <- __v4l2_ctrl_s_ctrl id v ;;
  mutex_unlock ;;;
  pure ret.

Inductive call :=
| SetCtrl (id : v4l2_cid) (v : Z)
| SetFmt (which : v4l2_subdev_format_whence) (try_fmt format : v4l2_mbus_framefmt)
| SStream (enable : Z)
| SPower (on : Z)
| Suspend
| Resume.

Definition run_call (subdev_api : bool) (c : call) : M Z :=
  match c with
  | SetCtrl id v => v4l2_ctrl_s_ctrl id v
  | SetFmt which try_fmt format =>
      r <- imx477_set_fmt subdev_api which try_fmt format ;; pure (fst r)
  | SStream enable => imx477_s_stream enable
  | SPower on => imx477_s_power on
  | Suspend => imx477_suspend
  | Resume => imx477_resume
  end.

Fixpoint run_calls (subdev_api : bool) (cs : list call) (x : imx477) : imx477 :=
  match cs with
  | [] => x
  | c :: cs' => run_calls subdev_api cs' (snd (run_call subdev_api c x))
  end.

(** ** What the spec words say, for comparison with the code *)

(** Spec 4.2: [round_down(numerator * fixed_pixel_rate /
    (denominator * line_length_pixels))], clamped to
    [[mode.height, MAX_FRAME_LENGTH]]. *)
Definition frame_length_spec (mode : imx477_mode) (interval : v4l2_fract) : Z :=
  clamp (numerator interval * IMX477_PIXEL_RATE
         / (denominator interval * line_length_pix mode))
        (height mode) IMX477_FRAME_LENGTH_MAX.

(** Spec 4.1: Manhattan distance on resolution. *)
Definition manhattan (mode : imx477_mode) (framefmt : v4l2_mbus_framefmt) : Z :=
  Z.abs (width mode - fmt_width framefmt)
  + Z.abs (height mode - fmt_height framefmt).

(** The message [imx477_write_reg] puts on the bus. *)
Definition write_reg_msg (reg len val : Z) : i2c_xfer :=
  I2cSend (firstn (Z.to_nat (u32 len + 2))
                  (put_unaligned_be16 (u16 reg)
                   ++ put_unaligned_be32
                        (u32 (Z.shiftl (u32 val) (8 * (4 - u32 len)))))).

Definition program_msgs (regs : list imx477_reg) : list i2c_xfer :=
  map (fun r => write_reg_msg (address r) 1 (reg_val r)) regs.

(** Whether the adapter [adp] takes the message [m], offered as exchange
    number [n], in full. *)
Definition accepted (adp : nat -> i2c_xfer -> Z * list Z) (n : nat) (m : i2c_xfer) : bool :=
  match m with
  | I2cSend buf => fst (adp n m) =? Z.of_nat (length buf)
  | I2cTransfer _ _ => fst (adp n m) =? 2
  end.

Fixpoint all_accepted (adp : nat -> i2c_xfer -> Z * list Z) (n : nat)
         (ms : list i2c_xfer) : bool :=
  match ms with
  | [] => true
  | m :: ms' => accepted adp n m && all_accepted adp (S n) ms'
  end.

(** A bus on which every exchange succeeds. *)
Definition reliable (c : i2c_client) : Prop :=
  forall n m, accepted (adapter c) n m = true.

Unset Implicit Arguments.

(** ** Vocabulary of the properties

    Abbreviations used to state and prove the properties below: bus
    histories, stages of the start-streaming sequence and the relations
    between a device state and a later one. *)

(** The state after one more message was offered to the bus. *)
Definition push (m : i2c_xfer) (x : imx477) : imx477 :=
  set_client {| xfers := xfers (client x) ++ [m];
                adapter := adapter (client x) |} x.

(** Whether the adapter takes [m] as the next message. *)
Definition took (m : i2c_xfer) (x : imx477) : bool :=
  accepted (adapter (client x)) (length (xfers (client x))) m.

(** The state of the search loop of [imx477_find_best_fit] after the
    entries below [i] were examined. *)
Definition best_so_far (framefmt : v4l2_mbus_framefmt) (i fit dist : Z) : Prop :=
  (dist = -1 /\ fit = 0 /\
   forall j, 0 <= j < i -> bus_fmt (mode_at j) <> u32 (code framefmt))
  \/
  (0 <= fit < i /\
   bus_fmt (mode_at fit) = u32 (code framefmt) /\
   dist = manhattan (mode_at fit) framefmt /\
   forall j, 0 <= j < i -> bus_fmt (mode_at j) = u32 (code framefmt) ->
             dist <= manhattan (mode_at j) framefmt /\
             (j < fit -> dist < manhattan (mode_at j) framefmt)).

(** [quiet x x'] relates the device before and after code that only
    talks to the bus, adjusts runtime-PM counts, the long-exposure shift
    or the exposure range, and may mark the common registers written. *)
Record quiet (x x' : imx477) : Prop := {
  q_adapter : adapter (client x') = adapter (client x);
  q_xfers : exists T, xfers (client x') = xfers (client x) ++ T;
  q_rails : rails x' = rails x;
  q_mutex : mutex x' = mutex x;
  q_streaming : streaming x' = streaming x;
  q_power_on : power_on x' = power_on x;
  q_cur_mode : cur_mode x' = cur_mode x;
  q_cfg_num : cfg_num x' = cfg_num x;
  q_compat : compatible_data x' = compatible_data x;
  q_common : common_regs_written x = true -> common_regs_written x' = true;
  q_ctrl : forall id, id <> V4L2_CID_EXPOSURE ->
                      ctrl_handler x' id = ctrl_handler x id;
  q_grabbed : forall id, grabbed (ctrl_handler x' id) = grabbed (ctrl_handler x id)
}.

(** [roused x x'] relates the device before and after code that, besides
    what [quiet] allows, may have gone through the runtime-PM resume
    callback: the rails may have changed, with the reset line left as it
    was or set to 1, and [streaming] may have been cleared. *)
Record roused (x x' : imx477) : Prop := {
  w_adapter : adapter (client x') = adapter (client x);
  w_xfers : exists T, xfers (client x') = xfers (client x) ++ T;
  w_reset : reset_gpio_value (rails x') = reset_gpio_value (rails x)
            \/ reset_gpio_value (rails x') = 1;
  w_mutex : mutex x' = mutex x;
  w_streaming : streaming x' = streaming x \/ streaming x' = false;
  w_power_on : power_on x' = power_on x;
  w_cur_mode : cur_mode x' = cur_mode x;
  w_cfg_num : cfg_num x' = cfg_num x;
  w_compat : compatible_data x' = compatible_data x;
  w_common : common_regs_written x = true -> common_regs_written x' = true;
  w_ctrl : forall id, id <> V4L2_CID_EXPOSURE ->
                      ctrl_handler x' id = ctrl_handler x id;
  w_grabbed : forall id, grabbed (ctrl_handler x' id) = grabbed (ctrl_handler x id)
}.

(** The first block of [__imx477_start_streaming]: the common program
    and the variant's extra registers, written when the flag is clear. *)
Definition common_regs_stage : M Z :=
  fun x =>
    if common_regs_written x then (0, x)
    else
      let a := write_regs_loop mode_common_regs x in
      if truth (fst a) then a
      else
        let b := write_regs_loop (regs (extra_regs (compatible_data x))) (snd a) in
        if truth (fst b) then b
        else (0, set_common_regs_written true (snd b)).

(** [io_result c r c']: from bus state [c] the code attempted the
    messages [T] and returned [r]; either [r] is 0 and the adapter took
    every message, or [r] is [-EIO], the adapter refused the last message
    attempted and took all those before it. *)
Definition io_result (c : i2c_client) (r : Z) (c' : i2c_client) : Prop :=
  adapter c' = adapter c /\
  exists T,
    xfers c' = xfers c ++ T /\
    ((r = 0 /\ all_accepted (adapter c) (length (xfers c)) T = true)
     \/
     (r = - EIO /\
      exists T0 m,
        T = T0 ++ [m] /\
        all_accepted (adapter c) (length (xfers c)) T0 = true /\
        accepted (adapter c) (length (xfers c) + length T0) m = false)).

Definition io_ok (f : M Z) : Prop :=
  forall x, io_result (client x) (fst (f x)) (client (snd (f x))).

(** The register write that [imx477_set_ctrl] selects for a control:
    the [switch] of the callback. *)
Definition ctrl_write (id : v4l2_cid) : M Z :=
  fun x =>
    let ctrl := ctrl_handler x id in
    match id with
    | V4L2_CID_ANALOGUE_GAIN =>
        imx477_write_reg IMX477_REG_ANALOG_GAIN IMX477_REG_VALUE_16BIT (val ctrl)
    | V4L2_CID_EXPOSURE =>
        imx477_write_reg IMX477_REG_EXPOSURE IMX477_REG_VALUE_16BIT
                         (Z.shiftr (val ctrl) (long_exp_shift x))
    | V4L2_CID_DIGITAL_GAIN =>
        imx477_write_reg IMX477_REG_DIGITAL_GAIN IMX477_REG_VALUE_16BIT (val ctrl)
    | V4L2_CID_TEST_PATTERN =>
        imx477_write_reg IMX477_REG_TEST_PATTERN IMX477_REG_VALUE_16BIT
                         (nth (Z.to_nat (val ctrl)) imx477_test_pattern_val 0)
    | V4L2_CID_TEST_PATTERN_RED =>
        imx477_write_reg IMX477_REG_TEST_PATTERN_R IMX477_REG_VALUE_16BIT (val ctrl)
    | V4L2_CID_TEST_PATTERN_GREENR =>
        imx477_write_reg IMX477_REG_TEST_PATTERN_GR IMX477_REG_VALUE_16BIT (val ctrl)
    | V4L2_CID_TEST_PATTERN_BLUE =>
        imx477_write_reg IMX477_REG_TEST_PATTERN_B IMX477_REG_VALUE_16BIT (val ctrl)
    | V4L2_CID_TEST_PATTERN_GREENB =>
        imx477_write_reg IMX477_REG_TEST_PATTERN_GB IMX477_REG_VALUE_16BIT (val ctrl)
    | V4L2_CID_HFLIP
    | V4L2_CID_VFLIP =>
        imx477_write_reg IMX477_REG_ORIENTATION 1
                         (Z.lor (val (hflip x)) (Z.shiftl (val (vflip x)) 1))
    | V4L2_CID_VBLANK =>
        imx477_set_frame_length (height (mode_at (cur_mode x)) + val ctrl)
    | V4L2_CID_HBLANK =>
        imx477_write_reg IMX477_REG_LINE_LENGTH 2
                         (width (mode_at (cur_mode x)) + val ctrl)
    | _ => pure (- EINVAL)
    end x.

(** The tail of [imx477_s_stream] on its successful paths. *)
Definition stream_done (enable : Z) (x : imx477) : imx477 :=
  set_mutex false
    (snd (__v4l2_ctrl_grab V4L2_CID_HFLIP (truth enable)
       (snd (__v4l2_ctrl_grab V4L2_CID_VFLIP (truth enable)
          (set_streaming (truth enable) x))))).

(** Number of register writes a control costs when applied. *)
Definition ctrl_writes (id : v4l2_cid) : nat :=
  match id with V4L2_CID_VBLANK => 2 | _ => 1 end.

(** Everything after the first block of [__imx477_start_streaming]: the
    mode program, the control replay and the mode-select write. *)
Definition mode_stage (mode : imx477_mode) : M Z :=
  fun x =>
    let m := write_regs_loop (regs (reg_list mode)) x in
    if truth (fst m) then m
    else
      let h := handler_setup_loop replayed_ctrls (snd m) in
      if truth (fst h) then h
      else imx477_write_reg IMX477_REG_MODE_SELECT IMX477_REG_VALUE_08BIT
                            IMX477_MODE_STREAMING (snd h).

(** [keeps_flips x x']: the common-registers flag was not cleared, the
    two flip controls are untouched and so is the mutex. *)
Record keeps_flips (x x' : imx477) : Prop := {
  k_common : common_regs_written x = true -> common_regs_written x' = true;
  k_hflip : hflip x' = hflip x;
  k_vflip : vflip x' = vflip x;
  k_mutex : mutex x' = mutex x
}.

(** [lock; body; unlock]: what holds of the state once the mutex is
    released again, for a body that keeps the flip controls. *)
Record held_after (x x' : imx477) : Prop := {
  h_common : common_regs_written x = true -> common_regs_written x' = true;
  h_hflip : hflip x' = hflip x;
  h_vflip : vflip x' = vflip x;
  h_mutex : mutex x' = false
}.

(** The flip controls are held: both grabbed, with values [h] and [v],
    and the mutex free. *)
Definition flips_locked (h v : Z) (x : imx477) : Prop :=
  grabbed (hflip x) = true /\ grabbed (vflip x) = true /\
  val (hflip x) = h /\ val (vflip x) = v /\ mutex x = false.

(** The two messages of a register read, as [imx477_read_reg] hands
    them to [i2c_transfer]: the register address, then [len] bytes to
    read. *)
Definition read_reg_msg (reg len : Z) : i2c_xfer :=
  I2cTransfer [ u8 (Z.shiftr (u16 reg) 8); u8 (Z.land (u16 reg) 0xff) ] (u32 len).

(** What ends in [data_buf[4 - len ..]] when the adapter delivered [rd]:
    its first [len] bytes, the buffer's zeros where it delivered less. *)
Definition delivered (len : Z) (rd : list Z) : list Z :=
  firstn (Z.to_nat (u32 len)) (map u8 rd ++ repeat 0 (Z.to_nat (u32 len))).

(** The number a byte string denotes, most significant byte first. *)
Definition be_value (bs : list Z) : Z :=
  fold_left (fun acc b => acc * 256 + b) bs 0.

(** The bytes a message puts on the wire after the register address. *)
Definition payload (m : i2c_xfer) : list Z :=
  match m with
  | I2cSend buf => skipn 2 buf
  | I2cTransfer _ _ => []
  end.

(** The format [imx477_set_fmt] and [imx477_get_fmt] report for a mode. *)
Definition mode_format (mode : imx477_mode) : v4l2_mbus_framefmt :=
  {| fmt_width := width mode; fmt_height := height mode; code := bus_fmt mode |}.

(** [same_mode x x']: the current mode and the number of modes are the
    same in both states. *)
Record same_mode (x x' : imx477) : Prop := {
  m_cur : cur_mode x' = cur_mode x;
  m_cfg : cfg_num x' = cfg_num x
}.

(** * Properties *)

(** ** Integer conversions *)

Lemma u32_range x : 0 <= u32 x < 2 ^ 32.
Proof. unfold u32. apply Z.mod_pos_bound. lia. Qed.

Lemma u32_small x : 0 <= x < 2 ^ 32 -> u32 x = x.
Proof. intros H. unfold u32. apply Z.mod_small. exact H. Qed.


Lemma s32_small x : - 2 ^ 31 <= x < 2 ^ 31 -> s32 x = x.
Proof. intros H. unfold s32. rewrite Z.mod_small by lia. lia. Qed.

Lemma s32_u32 x : s32 (u32 x) = s32 x.
Proof. unfold s32, u32. rewrite Zplus_mod_idemp_l. reflexivity. Qed.

Lemma truth_0 : truth 0 = false.
Proof. reflexivity. Qed.

Lemma truth_nonzero r : r <> 0 -> truth r = true.
Proof. intros H. unfold truth. destruct (Z.eqb_spec r 0); [contradiction | reflexivity]. Qed.

Lemma truth_false r : truth r = false -> r = 0.
Proof. unfold truth. destruct (Z.eqb_spec r 0); [auto | discriminate]. Qed.

Lemma truth_true r : truth r = true -> r <> 0.
Proof. unfold truth. destruct (Z.eqb_spec r 0); [discriminate | auto]. Qed.

(** ** Bytes on the wire *)

Ltac byte_bits :=
  apply Z.bits_inj'; intros n Hn;
  rewrite !Z.land_spec; change 255 with (Z.ones 8);
  destruct (Z.ltb_spec n 8);
  [ rewrite Z.ones_spec_low by lia; rewrite !andb_true_r;
    rewrite !Z.shiftr_spec by lia; unfold u32;
    rewrite Z.mod_pow2_bits_low by lia;
    rewrite Z.shiftl_spec by lia;
    rewrite Z.mod_pow2_bits_low by lia;
    f_equal; lia
  | rewrite Z.ones_spec_high by lia; rewrite !andb_false_r; reflexivity ].

Lemma wire_hi_16 v :
  Z.land (Z.shiftr (u32 (Z.shiftl (u32 v) 16)) 24) 255 = Z.land (Z.shiftr v 8) 255.
Proof. byte_bits. Qed.

Lemma wire_lo_16 v :
  Z.land (Z.shiftr (u32 (Z.shiftl (u32 v) 16)) 16) 255 = Z.land v 255.
Proof. byte_bits. Qed.

Lemma wire_lo_8 v :
  Z.land (Z.shiftr (u32 (Z.shiftl (u32 v) 24)) 24) 255 = Z.land v 255.
Proof. byte_bits. Qed.

Lemma u16_reg_bytes reg :
  put_unaligned_be16 (u16 reg) = put_unaligned_be16 reg.
Proof.
  unfold put_unaligned_be16, u16. f_equal; [| f_equal].
  - apply Z.bits_inj'; intros n Hn.
    rewrite !Z.land_spec; change 255 with (Z.ones 8).
    destruct (Z.ltb_spec n 8).
    + rewrite !Z.shiftr_spec by lia.
      rewrite Z.mod_pow2_bits_low by lia. reflexivity.
    + rewrite Z.ones_spec_high by lia. rewrite !andb_false_r. reflexivity.
  - apply Z.bits_inj'; intros n Hn.
    rewrite !Z.land_spec; change 255 with (Z.ones 8).
    destruct (Z.ltb_spec n 8).
    + rewrite Z.mod_pow2_bits_low by lia. reflexivity.
    + rewrite Z.ones_spec_high by lia. rewrite !andb_false_r. reflexivity.
Qed.

(** A 16-bit register write carries the register address and the low 16
    bits of the value, most significant byte first. *)
Lemma write_reg_msg_16 reg v :
  write_reg_msg reg 2 v = I2cSend (put_unaligned_be16 reg ++ put_unaligned_be16 v).
Proof.
  unfold write_reg_msg. rewrite u16_reg_bytes.
  change (u32 2) with 2. change (8 * (4 - 2)) with 16.
  change (Z.to_nat (2 + 2)) with 4%nat.
  unfold put_unaligned_be16 at 1, put_unaligned_be32. cbn [app firstn].
  rewrite wire_hi_16, wire_lo_16. reflexivity.
Qed.

(** An 8-bit register write carries the address and the low byte. *)
Lemma write_reg_msg_8 reg v :
  write_reg_msg reg 1 v = I2cSend (put_unaligned_be16 reg ++ [Z.land v 0xff]).
Proof.
  unfold write_reg_msg. rewrite u16_reg_bytes.
  change (u32 1) with 1. change (8 * (4 - 1)) with 24.
  change (Z.to_nat (1 + 2)) with 3%nat.
  unfold put_unaligned_be16 at 1, put_unaligned_be32. cbn [app firstn].
  rewrite wire_lo_8. reflexivity.
Qed.

(** ** Running the state monad *)

Lemma bind_run {A B} (m : M A) (k : A -> M B) x :
  bind m k x = k (fst (m x)) (snd (m x)).
Proof. unfold bind. destruct (m x). reflexivity. Qed.

Lemma write_reg_msg_length reg len v :
  u32 len <= 4 ->
  match write_reg_msg reg len v with
  | I2cSend buf => Z.of_nat (length buf) = u32 len + 2
  | I2cTransfer _ _ => False
  end.
Proof.
  intros H. unfold write_reg_msg.
  rewrite length_firstn. cbn [put_unaligned_be16 put_unaligned_be32 app length].
  pose proof (u32_range len). lia.
Qed.

Lemma write_reg_run reg len v x :
  u32 len <= 4 ->
  imx477_write_reg reg len v x =
  (if took (write_reg_msg reg len v) x then 0 else - EIO,
   push (write_reg_msg reg len v) x).
Proof.
  intros Hlen. unfold imx477_write_reg.
  destruct (Z.gtb_spec (u32 len) 4) as [Hgt | _]; [lia |].
  pose proof (write_reg_msg_length reg len v Hlen) as Hl.
  unfold write_reg_msg in *.
  unfold bind, get, modify, pure, i2c_master_send, i2c_exchange, took, push, accepted.
  cbn [fst snd]. rewrite Hl.
  destruct (fst _ =? u32 len + 2); reflexivity.
Qed.

Lemma write_reg_wide reg len v x :
  4 < u32 len -> imx477_write_reg reg len v x = (- EINVAL, x).
Proof.
  intros H. unfold imx477_write_reg.
  destruct (Z.gtb_spec (u32 len) 4); [reflexivity | lia].
Qed.

Lemma read_reg_wide reg len v0 x :
  4 < u32 len -> imx477_read_reg reg len v0 x = (- EINVAL, v0, x).
Proof.
  intros H. unfold imx477_read_reg.
  destruct (Z.gtb_spec (u32 len) 4); [reflexivity | lia].
Qed.

(** ** The long-exposure loop *)

Lemma frame_length_loop_shape fuel :
  forall s0 v0,
    0 <= s0 -> s0 + Z.of_nat fuel < 2 ^ 32 ->
    exists k,
      0 <= k <= Z.of_nat fuel /\
      frame_length_loop fuel s0 v0 = (s0 + k, Z.shiftr v0 k) /\
      (forall j, 0 <= j < k -> Z.shiftr v0 j > IMX477_FRAME_LENGTH_MAX) /\
      (k < Z.of_nat fuel -> Z.shiftr v0 k <= IMX477_FRAME_LENGTH_MAX).
Proof.
  induction fuel as [| fuel IH]; intros s0 v0 Hs Hb.
  - exists 0. cbn [frame_length_loop]. rewrite Z.add_0_r, Z.shiftr_0_r.
    repeat split; try lia.
  - cbn [frame_length_loop].
    destruct (Z.gtb_spec v0 IMX477_FRAME_LENGTH_MAX) as [Hgt | Hle].
    + rewrite u32_small by lia.
      destruct (IH (s0 + 1) (Z.shiftr v0 1)) as (k & Hk & Heq & Hmin & Hex); try lia.
      exists (k + 1). rewrite Heq.
      rewrite Z.shiftr_shiftr by lia.
      replace (s0 + 1 + k) with (s0 + (k + 1)) by lia.
      replace (1 + k) with (k + 1) by lia.
      repeat split; try lia.
      * intros j Hj. destruct (Z.eq_dec j 0) as [-> | Hj0].
        -- rewrite Z.shiftr_0_r. lia.
        -- replace j with (1 + (j - 1)) by lia.
           rewrite <- Z.shiftr_shiftr by lia. apply Hmin. lia.
      * intros Hlt. replace (k + 1) with (1 + k) by lia.
        rewrite <- Z.shiftr_shiftr by lia. apply Hex. lia.
    + exists 0. rewrite Z.add_0_r, Z.shiftr_0_r. repeat split; try lia.
Qed.

Lemma shiftr_31_small v0 : 0 <= v0 < 2 ^ 32 -> Z.shiftr v0 31 <= 1.
Proof.
  intros H. rewrite Z.shiftr_div_pow2 by lia.
  assert (v0 / 2 ^ 31 < 2) by (apply Z.div_lt_upper_bound; lia). lia.
Qed.

Lemma frame_length_loop_more fuel :
  forall s v,
    snd (frame_length_loop fuel s v) <= IMX477_FRAME_LENGTH_MAX ->
    frame_length_loop (S fuel) s v = frame_length_loop fuel s v.
Proof.
  induction fuel as [| fuel IH]; intros s v H.
  - cbn [frame_length_loop snd] in *.
    destruct (Z.gtb_spec v IMX477_FRAME_LENGTH_MAX); [lia | reflexivity].
  - cbn [frame_length_loop] in H.
    change (frame_length_loop (S (S fuel)) s v)
      with (if v >? IMX477_FRAME_LENGTH_MAX
            then frame_length_loop (S fuel) (u32 (s + 1)) (Z.shiftr v 1)
            else (s, v)).
    cbn [frame_length_loop].
    destruct (v >? IMX477_FRAME_LENGTH_MAX); [| reflexivity].
    apply IH in H. exact H.
Qed.

(** The loop leaves through its condition: on 32-bit values the bound of
    32 iterations is never what ends it, and more iterations change
    nothing. *)
Lemma frame_length_loop_fuel v0 n :
  0 <= v0 < 2 ^ 32 ->
  snd (frame_length_loop 32 0 v0) <= IMX477_FRAME_LENGTH_MAX /\
  frame_length_loop (n + 32) 0 v0 = frame_length_loop 32 0 v0.
Proof.
  intros Hv.
  assert (Hexit : snd (frame_length_loop 32 0 v0) <= IMX477_FRAME_LENGTH_MAX).
  { destruct (frame_length_loop_shape 32 0 v0) as (k & Hk & Heq & Hmin & Hex);
      [lia | cbn; lia |].
    rewrite Heq. cbn [snd].
    destruct (Z_le_gt_dec k 31) as [Hk31 | Hk32].
    - apply Hex. change (Z.of_nat 32) with 32. lia.
    - pose proof (shiftr_31_small v0 Hv) as H31.
      specialize (Hmin 31). unfold IMX477_FRAME_LENGTH_MAX in *. lia. }
  split; [exact Hexit |].
  induction n as [| n IHn]; [reflexivity |].
  change (S n + 32)%nat with (S (n + 32)).
  rewrite frame_length_loop_more; [exact IHn |].
  rewrite IHn. exact Hexit.
Qed.

Lemma frame_length_loop_bounded v0 :
  0 <= v0 <= 2 ^ 7 * IMX477_FRAME_LENGTH_MAX ->
  exists s,
    frame_length_loop 32 0 v0 = (s, Z.shiftr v0 s) /\
    0 <= s <= 7 /\
    Z.shiftr v0 s <= IMX477_FRAME_LENGTH_MAX /\
    (forall j, 0 <= j < s -> Z.shiftr v0 j > IMX477_FRAME_LENGTH_MAX).
Proof.
  intros Hv.
  destruct (frame_length_loop_shape 32 0 v0) as (k & Hk & Heq & Hmin & Hex);
    [lia | cbn; lia |].
  assert (H7 : Z.shiftr v0 7 <= IMX477_FRAME_LENGTH_MAX).
  { rewrite Z.shiftr_div_pow2 by lia.
    apply Z.lt_succ_r. apply Z.div_lt_upper_bound; lia. }
  assert (Hk7 : k <= 7).
  { destruct (Z_le_gt_dec k 7); [assumption |]. specialize (Hmin 7). lia. }
  exists k. rewrite Heq.
  split; [reflexivity |]. split; [lia |]. split; [| exact Hmin].
  apply Hex. change (Z.of_nat 32) with 32. lia.
Qed.

(** ** Frame length and exposure writes *)

Lemma set_frame_length_run v x :
  imx477_set_frame_length v x =
  let s := fst (frame_length_loop 32 0 (u32 v)) in
  let v' := snd (frame_length_loop 32 0 (u32 v)) in
  let x1 := set_long_exp_shift s x in
  let m1 := write_reg_msg IMX477_REG_FRAME_LENGTH IMX477_REG_VALUE_16BIT v' in
  let m2 := write_reg_msg IMX477_LONG_EXP_SHIFT_REG IMX477_REG_VALUE_08BIT s in
  if took m1 x1
  then (if took m2 (push m1 x1) then 0 else - EIO, push m2 (push m1 x1))
  else (- EIO, push m1 x1).
Proof.
  unfold imx477_set_frame_length.
  destruct (frame_length_loop 32 0 (u32 v)) as [s v'].
  cbn [fst snd]. cbv zeta.
  unfold bind at 1. unfold modify at 1.
  unfold bind at 1.
  rewrite write_reg_run by (cbv; discriminate).
  destruct (took _ (set_long_exp_shift s x)) eqn:Ht.
  - rewrite truth_0. unfold bind, get.
    rewrite write_reg_run by (cbv; discriminate).
    reflexivity.
  - reflexivity.
Qed.

Lemma exposure_ctrl_run x :
  imx477_set_ctrl V4L2_CID_EXPOSURE x =
  let m := write_reg_msg IMX477_REG_EXPOSURE IMX477_REG_VALUE_16BIT
                         (Z.shiftr (val (exposure x)) (long_exp_shift x)) in
  (if took m x then 0 else - EIO, snd (pm_runtime_put (push m x))).
Proof.
  unfold imx477_set_ctrl.
  destruct (v4l2_cid_eq_dec V4L2_CID_EXPOSURE V4L2_CID_VBLANK) as [E | _];
    [discriminate E |].
  unfold bind at 1. unfold pure at 1.
  unfold bind at 1. unfold get at 1.
  unfold bind at 1.
  rewrite write_reg_run by (cbv; discriminate).
  unfold bind, pm_runtime_put, modify, pure. reflexivity.
Qed.

(** The shift stored by [imx477_set_frame_length] and the first message
    it puts on the bus. *)
Lemma set_frame_length_shift x req :
  0 <= req <= 2 ^ 7 * IMX477_FRAME_LENGTH_MAX ->
  let x1 := snd (imx477_set_frame_length req x) in
  let s := long_exp_shift x1 in
  0 <= s <= 7 /\
  Z.shiftr req s <= IMX477_FRAME_LENGTH_MAX /\
  (forall j, 0 <= j < s -> Z.shiftr req j > IMX477_FRAME_LENGTH_MAX) /\
  (exists rest,
      xfers (client x1) =
      xfers (client x)
      ++ I2cSend (put_unaligned_be16 IMX477_REG_FRAME_LENGTH
                  ++ put_unaligned_be16 (Z.shiftr req s))
         :: rest).
Proof.
  intros Hreq.
  assert (Hu : u32 req = req).
  { apply u32_small. unfold IMX477_FRAME_LENGTH_MAX in Hreq. lia. }
  destruct (frame_length_loop_bounded req Hreq) as (s & Heq & Hs & Hle & Hmin).
  cbv zeta. rewrite set_frame_length_run, Hu, Heq. cbn [fst snd].
  set (m1 := write_reg_msg IMX477_REG_FRAME_LENGTH IMX477_REG_VALUE_16BIT
                           (Z.shiftr req s)).
  set (m2 := write_reg_msg IMX477_LONG_EXP_SHIFT_REG IMX477_REG_VALUE_08BIT s).
  set (x0 := set_long_exp_shift s x).
  assert (Hm1 : m1 = I2cSend (put_unaligned_be16 IMX477_REG_FRAME_LENGTH
                              ++ put_unaligned_be16 (Z.shiftr req s)))
    by apply write_reg_msg_16.
  assert (Hshift :
    long_exp_shift
      (snd (if took m1 x0
            then (if took m2 (push m1 x0) then 0 else - EIO,
                  push m2 (push m1 x0))
            else (- EIO, push m1 x0))) = s)
    by (destruct (took m1 x0); reflexivity).
  rewrite Hshift.
  split; [exact Hs |]. split; [exact Hle |]. split; [exact Hmin |].
  rewrite <- Hm1. destruct (took m1 x0); cbn [snd].
  - exists [m2]. unfold push. cbn [set_client client xfers].
    rewrite <- app_assoc. reflexivity.
  - exists []. reflexivity.
Qed.

(** C1. For every requested total number of lines up to 2^7 times the
    maximum frame length, [imx477_set_frame_length] stores a shift [s]
    between 0 and 7 with [requested >> s <= IMX477_FRAME_LENGTH_MAX] (the
    least such shift), offers the frame-length register the value
    [requested >> s], and while that shift is in the device state an
    exposure value [e] applied through the control callback goes on the
    wire as the 16-bit value [e >> s], the control's in-memory value
    staying [e]. *)
Theorem long_exposure_shift_symmetry :
  forall (x : imx477) (requested_total_lines : Z),
    0 <= requested_total_lines <= 2 ^ 7 * IMX477_FRAME_LENGTH_MAX ->
    let x1 := snd (imx477_set_frame_length requested_total_lines x) in
    let s := long_exp_shift x1 in
    0 <= s <= 7 /\
    Z.shiftr requested_total_lines s <= IMX477_FRAME_LENGTH_MAX /\
    (forall j, 0 <= j < s ->
               Z.shiftr requested_total_lines j > IMX477_FRAME_LENGTH_MAX) /\
    (exists rest,
        xfers (client x1) =
        xfers (client x)
        ++ I2cSend (put_unaligned_be16 IMX477_REG_FRAME_LENGTH
                    ++ put_unaligned_be16 (Z.shiftr requested_total_lines s))
           :: rest) /\
    forall x2 : imx477,
      long_exp_shift x2 = s ->
      let e := val (exposure x2) in
      let x3 := snd (imx477_set_ctrl V4L2_CID_EXPOSURE x2) in
      xfers (client x3) =
      xfers (client x2)
      ++ [I2cSend (put_unaligned_be16 IMX477_REG_EXPOSURE
                   ++ put_unaligned_be16 (Z.shiftr e s))] /\
      val (exposure x3) = e.
Proof.
  intros x req Hreq. cbv zeta.
  destruct (set_frame_length_shift x req Hreq) as (Hs & Hle & Hmin & Hfirst).
  split; [exact Hs |]. split; [exact Hle |]. split; [exact Hmin |].
  split; [exact Hfirst |].
  intros x2 Hx2. rewrite exposure_ctrl_run. cbv zeta. cbn [snd].
  rewrite Hx2. change IMX477_REG_VALUE_16BIT with 2. rewrite write_reg_msg_16.
  split; reflexivity.
Qed.

(** At 100000 requested lines on a freshly probed device. *)
Lemma long_exposure_shift_symmetry_witness :
  0 <= 100000 <= 2 ^ 7 * IMX477_FRAME_LENGTH_MAX /\
  0 <= long_exp_shift (snd (imx477_set_frame_length 100000 (probed ack_all))) <= 7.
Proof.
  assert (Hr : 0 <= 100000 <= 2 ^ 7 * IMX477_FRAME_LENGTH_MAX)
    by (cbv; split; discriminate).
  split; [exact Hr |].
  exact (proj1 (long_exposure_shift_symmetry (probed ack_all) 100000 Hr)).
Defined.

(** ** Register width and value *)

Lemma write_reg_msg_low_bytes reg len v :
  u32 len <= 4 ->
  write_reg_msg reg len v = write_reg_msg reg len (v mod 2 ^ (8 * u32 len)).
Proof.
  intros Hlen. pose proof (u32_range len) as Hl.
  unfold write_reg_msg. generalize dependent (u32 len). intros L HL HL0.
  do 4 f_equal.
  apply Z.bits_inj'; intros n Hn. unfold u32.
  destruct (Z.ltb_spec n 32) as [Hn32 | Hn32].
  - rewrite !Z.mod_pow2_bits_low by lia.
    rewrite !Z.shiftl_spec by lia.
    destruct (Z.ltb_spec (n - 8 * (4 - L)) 0) as [Hneg | Hpos].
    + rewrite !Z.testbit_neg_r by lia. reflexivity.
    + rewrite !Z.mod_pow2_bits_low by lia. reflexivity.
  - rewrite !Z.mod_pow2_bits_high by lia. reflexivity.
Qed.

(** C9 (as the code has it). A width above 4 bytes is refused with
    [-EINVAL] by both the read and the write helper before anything is
    put on the bus.  A width of at most 4 is never refused because of the
    value: the write goes to the bus carrying only the low [len] bytes of
    the value, and its status depends on the adapter alone. *)
Theorem reg_width_checked_value_truncated :
  forall (reg len v v0 : Z) (x : imx477),
    (4 < u32 len ->
     imx477_write_reg reg len v x = (- EINVAL, x) /\
     imx477_read_reg reg len v0 x = (- EINVAL, v0, x)) /\
    (u32 len <= 4 ->
     let m := write_reg_msg reg len (v mod 2 ^ (8 * u32 len)) in
     imx477_write_reg reg len v x =
     (if took m x then 0 else - EIO, push m x)).
Proof.
  intros reg len v v0 x. split.
  - intros H. split; [apply write_reg_wide | apply read_reg_wide]; exact H.
  - intros H. cbv zeta. rewrite <- write_reg_msg_low_bytes by exact H.
    apply write_reg_run. exact H.
Qed.

Lemma reg_width_checked_value_truncated_witness :
  (4 < u32 5 /\ u32 2 <= 4) /\
  imx477_write_reg IMX477_REG_LINE_LENGTH 5 0x1234 (probed ack_all)
  = (- EINVAL, probed ack_all) /\
  fst (imx477_write_reg IMX477_REG_LINE_LENGTH 2 0x1234 (probed ack_all)) = 0.
Proof.
  assert (H5 : 4 < u32 5) by reflexivity.
  assert (H2 : u32 2 <= 4) by (cbv; discriminate).
  split; [split; assumption |]. split.
  - exact (proj1 (proj1 (reg_width_checked_value_truncated
                           IMX477_REG_LINE_LENGTH 5 0x1234 0 (probed ack_all)) H5)).
  - rewrite (proj2 (reg_width_checked_value_truncated
                      IMX477_REG_LINE_LENGTH 2 0x1234 0 (probed ack_all)) H2).
    reflexivity.
Defined.

(** C9, counterexample to the claim as stated.  HBLANK may be set to its
    published maximum 0xfff0; the driver then writes
    [width + hblank = 0x10fc8] to the 16-bit line-length register.  The
    write is not refused: it succeeds with bytes 0x0f 0xc8 on the wire. *)
Lemma write_reg_value_not_rejected :
  let v := width (mode_at 0) + 0xfff0 in
  0xffff < v /\
  fst (v4l2_ctrl_s_ctrl V4L2_CID_HBLANK 0xfff0 (probed ack_all)) = 0 /\
  (let x' := snd (imx477_write_reg IMX477_REG_LINE_LENGTH 2 v (probed ack_all)) in
   fst (imx477_write_reg IMX477_REG_LINE_LENGTH 2 v (probed ack_all)) = 0 /\
   xfers (client x') =
   xfers (client (probed ack_all)) ++ [I2cSend [0x03; 0x42; 0x0f; 0xc8]]) /\
  xfers (client (snd (v4l2_ctrl_s_ctrl V4L2_CID_HBLANK 0xfff0 (probed ack_all)))) =
  xfers (client (probed ack_all)) ++ [I2cSend [0x03; 0x42; 0x0f; 0xc8]].
Proof. vm_compute. repeat split; reflexivity. Qed.

(** ** Timing engine *)

Lemma mode_at_cases i :
  mode_at i = mode_at 0 \/ mode_at i = mode_at 1 \/ mode_at i = mode_at 2.
Proof.
  unfold mode_at.
  destruct (Z.to_nat i) as [| [| [| n]]]; cbn [nth supported_modes]; auto.
  destruct n; auto.
Qed.

Lemma mode_at_In i : In (mode_at i) supported_modes.
Proof.
  destruct (mode_at_cases i) as [-> | [-> | ->]]; cbn; auto.
Qed.

Lemma catalog_height_bounds m :
  In m supported_modes -> 1080 <= height m <= 3040 /\ 1920 <= width m <= 4056.
Proof.
  cbn [In supported_modes].
  intros [<- | [<- | [<- | []]]]; cbn [height width]; lia.
Qed.



(** The bound on the divisor above is the one [do_div] imposes.  A divisor
    of 2^32 or more, which no call in the driver forms, would be cut to its
    low 32 bits: at 100000/300000 on the 4056x3040 mode the divisor is
    [300000 * 0x49a8] and the function yields 45115 lines where the
    truncated quotient is 10861. *)
Lemma frame_length_wide_divisor :
  let interval := {| numerator := 100000; denominator := 300000 |} in
  imx477_get_frame_length (mode_at 0) interval = 45115 /\
  frame_length_spec (mode_at 0) interval = 10861.
Proof. vm_compute. split; reflexivity. Qed.

(** ** Mode negotiation *)

Lemma find_best_fit_loop_no_match framefmt n :
  forall i fit dist,
    (forall j, i <= j < i + Z.of_nat n ->
               bus_fmt (mode_at j) <> u32 (code framefmt)) ->
    find_best_fit_loop n i framefmt fit dist = fit.
Proof.
  induction n as [| n IH]; intros i fit dist H; [reflexivity |].
  cbn [find_best_fit_loop].
  destruct (Z.eqb_spec (bus_fmt (mode_at i)) (u32 (code framefmt))) as [E | _].
  - exfalso. apply (H i); [lia | exact E].
  - rewrite andb_false_r. apply IH. intros j Hj. apply H. lia.
Qed.

(** C5 (as the code has it).  When no catalog entry has the requested
    pixel format, [imx477_find_best_fit] does not fail: it returns the
    first catalog entry, whose pixel format is not the requested one. *)
Theorem find_best_fit_no_match_first_mode :
  forall (x : imx477) (framefmt : v4l2_mbus_framefmt),
    0 < cfg_num x ->
    (forall i, 0 <= i < cfg_num x ->
               bus_fmt (mode_at i) <> u32 (code framefmt)) ->
    imx477_find_best_fit x framefmt = 0 /\
    bus_fmt (mode_at (imx477_find_best_fit x framefmt)) <> u32 (code framefmt).
Proof.
  intros x framefmt Hn H.
  assert (E : imx477_find_best_fit x framefmt = 0).
  { unfold imx477_find_best_fit. apply find_best_fit_loop_no_match.
    intros j Hj. apply H. lia. }
  rewrite E. split; [reflexivity |]. apply H. lia.
Qed.

Lemma find_best_fit_no_match_first_mode_witness :
  let framefmt := {| fmt_width := 1920; fmt_height := 1080; code := 0x3007 |} in
  0 < cfg_num (probed ack_all) /\
  imx477_find_best_fit (probed ack_all) framefmt = 0.
Proof.
  cbv zeta.
  assert (Hn : 0 < cfg_num (probed ack_all)) by reflexivity.
  split; [exact Hn |].
  refine (proj1 (find_best_fit_no_match_first_mode (probed ack_all) _ Hn _)).
  intros i _. destruct (mode_at_cases i) as [-> | [-> | ->]]; vm_compute; discriminate.
Defined.

(** C5, counterexample to the claim as stated.  A request for 1920x1080 in
    the format 0x3007 (10-bit BGGR), which the catalog does not have, is
    answered with the 4056x3040 RGGB mode and status 0. *)
Lemma find_best_fit_unknown_format_no_error :
  let framefmt := {| fmt_width := 1920; fmt_height := 1080; code := 0x3007 |} in
  (forall m, In m supported_modes -> bus_fmt m <> code framefmt) /\
  imx477_find_best_fit (probed ack_all) framefmt = 0 /\
  bus_fmt (mode_at 0) = MEDIA_BUS_FMT_SRGGB10_1X10 /\
  fst (imx477_set_fmt true V4L2_SUBDEV_FORMAT_ACTIVE framefmt framefmt
                      (probed ack_all))
  = (0, {| fmt_width := 4056; fmt_height := 3040;
           code := MEDIA_BUS_FMT_SRGGB10_1X10 |}).
Proof.
  cbv zeta. split.
  - cbn [In supported_modes].
    intros m [<- | [<- | [<- | []]]]; vm_compute; discriminate.
  - vm_compute. repeat split; reflexivity.
Qed.

Lemma abs_small x : - 2 ^ 31 < x < 2 ^ 31 -> abs (u32 x) = Z.abs x.
Proof.
  intros H. unfold abs. rewrite s32_u32, (s32_small x) by lia.
  destruct (Z.ltb_spec x 0); rewrite s32_small by lia; lia.
Qed.

(** For requested sizes that fit a signed 32-bit difference the driver's
    distance is the Manhattan distance. *)
Lemma reso_dist_manhattan framefmt i :
  0 <= fmt_width framefmt < 2 ^ 30 ->
  0 <= fmt_height framefmt < 2 ^ 30 ->
  imx477_get_reso_dist (mode_at i) framefmt = manhattan (mode_at i) framefmt /\
  0 <= manhattan (mode_at i) framefmt.
Proof.
  intros Hw Hh.
  destruct (catalog_height_bounds (mode_at i) (mode_at_In i)) as [Hmh Hmw].
  unfold imx477_get_reso_dist, manhattan.
  rewrite (u32_small (fmt_width framefmt)) by lia.
  rewrite (u32_small (fmt_height framefmt)) by lia.
  rewrite !abs_small by lia.
  rewrite s32_small by lia. lia.
Qed.

Lemma find_best_fit_loop_inv framefmt n :
  0 <= fmt_width framefmt < 2 ^ 30 ->
  0 <= fmt_height framefmt < 2 ^ 30 ->
  forall i fit dist,
    0 <= i ->
    best_so_far framefmt i fit dist ->
    exists dist',
      best_so_far framefmt (i + Z.of_nat n)
                  (find_best_fit_loop n i framefmt fit dist) dist'.
Proof.
  intros Hw Hh.
  induction n as [| n IH]; intros i fit dist Hi Hinv.
  - exists dist. cbn [find_best_fit_loop]. rewrite Z.add_0_r. exact Hinv.
  - cbn [find_best_fit_loop].
    destruct (reso_dist_manhattan framefmt i Hw Hh) as [Hd Hd0].
    rewrite Hd.
    replace (i + Z.of_nat (S n)) with (i + 1 + Z.of_nat n) by lia.
    destruct (Z.eqb_spec (bus_fmt (mode_at i)) (u32 (code framefmt))) as [Hm | Hm].
    + rewrite andb_true_r.
      destruct (Z.eqb_spec dist (-1)) as [Hs | Hs];
        [| destruct (Z.ltb_spec (manhattan (mode_at i) framefmt) dist) as [Hlt | Hge]];
        cbn [orb].
      * apply IH; [lia |]. right.
        split; [lia |]. split; [assumption |]. split; [reflexivity |].
        intros j Hj Hjm.
        destruct (Z.eq_dec j i) as [-> | Hji]; [lia |].
        exfalso.
        destruct Hinv as [(_ & _ & Hno) | (_ & _ & Hdist & _)].
        -- apply (Hno j); [lia | assumption].
        -- unfold manhattan in Hdist. lia.
      * apply IH; [lia |]. right.
        split; [lia |]. split; [assumption |]. split; [reflexivity |].
        intros j Hj Hjm.
        destruct (Z.eq_dec j i) as [-> | Hji]; [lia |].
        destruct Hinv as [(Hneg & _) | (Hfit & Hfm & Hdist & Hall)]; [lia |].
        destruct (Hall j) as [Hle _]; [lia | assumption |]. lia.
      * apply IH; [lia |].
        destruct Hinv as [(Hneg & _) | (Hfit & Hfm & Hdist & Hall)]; [lia |].
        right. split; [lia |]. split; [assumption |]. split; [assumption |].
        intros j Hj Hjm.
        destruct (Z.eq_dec j i) as [-> | Hji]; [lia |].
        apply Hall; [lia | assumption].
    + rewrite andb_false_r. apply IH; [lia |].
      destruct Hinv as [(Hneg & Hf0 & Hno) | (Hfit & Hfm & Hdist & Hall)].
      * left. split; [assumption |]. split; [assumption |].
        intros j Hj. destruct (Z.eq_dec j i) as [-> | Hji]; [assumption |].
        apply Hno. lia.
      * right. split; [lia |]. split; [assumption |]. split; [assumption |].
        intros j Hj Hjm.
        destruct (Z.eq_dec j i) as [-> | Hji]; [contradiction |].
        apply Hall; [lia | assumption].
Qed.

(** Within the signed 32-bit range the search is what the spec describes:
    among the entries of the requested format it returns the one nearest
    in Manhattan distance, the lowest index winning ties. *)
Lemma find_best_fit_nearest x framefmt :
  0 <= cfg_num x ->
  0 <= fmt_width framefmt < 2 ^ 30 ->
  0 <= fmt_height framefmt < 2 ^ 30 ->
  (exists j, 0 <= j < cfg_num x /\ bus_fmt (mode_at j) = u32 (code framefmt)) ->
  let best := imx477_find_best_fit x framefmt in
  0 <= best < cfg_num x /\
  bus_fmt (mode_at best) = u32 (code framefmt) /\
  forall j, 0 <= j < cfg_num x -> bus_fmt (mode_at j) = u32 (code framefmt) ->
            manhattan (mode_at best) framefmt <= manhattan (mode_at j) framefmt /\
            (j < best ->
             manhattan (mode_at best) framefmt < manhattan (mode_at j) framefmt).
Proof.
  intros Hn Hw Hh (j0 & Hj0 & Hm0). cbv zeta. unfold imx477_find_best_fit.
  destruct (find_best_fit_loop_inv framefmt (Z.to_nat (cfg_num x)) Hw Hh 0 0 (-1))
    as (dist' & Hinv); [lia | |].
  { left. split; [reflexivity |]. split; [reflexivity |]. intros j Hj. lia. }
  rewrite Z2Nat.id, Z.add_0_l in Hinv by lia.
  destruct Hinv as [(_ & _ & Hno) | (Hfit & Hfm & Hdist & Hall)].
  - exfalso. apply (Hno j0); assumption.
  - split; [exact Hfit |]. split; [exact Hfm |].
    intros j Hj Hjm. rewrite <- Hdist. apply Hall; assumption.
Qed.

(** Requesting exactly a catalog mode's format and size returns it. *)
Lemma find_best_fit_exact x k :
  cfg_num x = Z.of_nat (length supported_modes) ->
  0 <= k < cfg_num x ->
  imx477_find_best_fit x {| fmt_width := width (mode_at k);
                            fmt_height := height (mode_at k);
                            code := bus_fmt (mode_at k) |} = k.
Proof.
  intros Hc Hk. rewrite Hc in Hk. cbn in Hk.
  unfold imx477_find_best_fit. rewrite Hc.
  assert (k = 0 \/ k = 1 \/ k = 2) as [-> | [-> | ->]] by lia;
    vm_compute; reflexivity.
Qed.

(** C2, the code at the failing input.  For a request of the catalog's
    format with width and height 0xffffffff the unsigned differences wrap
    ([4056 - 0xffffffff] is 4057 in 32 bits), so the search returns the
    1920x1080 entry, although the 4056x3040 entry has the same format and
    is strictly nearer in Manhattan distance. *)
Theorem find_best_fit_wraps_on_huge_request :
  let framefmt := {| fmt_width := 0xffffffff; fmt_height := 0xffffffff;
                     code := MEDIA_BUS_FMT_SRGGB10_1X10 |} in
  imx477_find_best_fit (probed ack_all) framefmt = 2 /\
  imx477_get_reso_dist (mode_at 0) framefmt = 4057 + 3041 /\
  imx477_get_reso_dist (mode_at 2) framefmt = 1921 + 1081 /\
  bus_fmt (mode_at 0) = code framefmt /\
  manhattan (mode_at 0) framefmt < manhattan (mode_at 2) framefmt.
Proof. vm_compute. repeat split; reflexivity. Qed.

(** ** VBLANK and the exposure range *)

Lemma set_frame_length_handler v x :
  ctrl_handler (snd (imx477_set_frame_length v x)) = ctrl_handler x /\
  cur_mode (snd (imx477_set_frame_length v x)) = cur_mode x.
Proof.
  rewrite set_frame_length_run. cbv zeta.
  destruct (took _ (set_long_exp_shift _ x)); split; reflexivity.
Qed.

Lemma vblank_ctrl_run x :
  imx477_set_ctrl V4L2_CID_VBLANK x =
  let x_adj := snd (imx477_adjust_exposure_range x) in
  let r := imx477_set_frame_length
             (height (mode_at (cur_mode x)) + val (vblank x)) x_adj in
  (fst r, snd (pm_runtime_put (snd r))).
Proof.
  unfold imx477_set_ctrl.
  destruct (v4l2_cid_eq_dec V4L2_CID_VBLANK V4L2_CID_VBLANK) as [_ | N];
    [| contradiction N; reflexivity].
  unfold bind at 1.
  destruct (imx477_adjust_exposure_range x) as [[] x_adj] eqn:Hadj.
  assert (Hx : x_adj = snd (imx477_adjust_exposure_range x)) by (rewrite Hadj; reflexivity).
  unfold bind at 1. unfold get at 1.
  unfold bind at 1.
  assert (Hv : val (ctrl_handler x_adj V4L2_CID_VBLANK) = val (vblank x)
               /\ cur_mode x_adj = cur_mode x).
  { rewrite Hx. unfold imx477_adjust_exposure_range, bind, get,
      __v4l2_ctrl_modify_range, modify. cbn. split; reflexivity. }
  destruct Hv as [Hv Hm]. rewrite Hv, Hm. cbv zeta. cbn [snd].
  destruct (imx477_set_frame_length _ x_adj) as [r x_fl].
  unfold bind, pm_runtime_put, modify, pure. reflexivity.
Qed.

(** C4. When the control callback applies the VBLANK value [vb] (within
    the published VBLANK bounds of the current mode), the exposure
    control's maximum becomes exactly [height + vb - 22], its default
    becomes the smaller of that maximum and the exposure value, an
    exposure value above the new maximum is clamped down to it, and the
    VBLANK write itself is the frame-length write of [height + vb]: the
    callback's status and everything after the range adjustment are those
    of [imx477_set_frame_length (height + vb)], whose first message offers
    [(height + vb) >> shift] to the frame-length register. *)
Theorem vblank_adjusts_exposure_range :
  forall (x : imx477) (vb : Z),
    val (vblank x) = vb ->
    0 <= vb <= 2 ^ 7 * IMX477_FRAME_LENGTH_MAX - height (mode_at (cur_mode x)) ->
    let h := height (mode_at (cur_mode x)) in
    let exposure_max := h + vb - IMX477_EXPOSURE_OFFSET in
    let x' := snd (imx477_set_ctrl V4L2_CID_VBLANK x) in
    maximum (exposure x') = exposure_max /\
    default_value (exposure x') = Z.min exposure_max (val (exposure x)) /\
    val (exposure x') =
      clamp (val (exposure x)) (minimum (exposure x)) exposure_max /\
    (exposure_max < val (exposure x) -> val (exposure x') = exposure_max) /\
    (let x_adj := snd (imx477_adjust_exposure_range x) in
     let r := imx477_set_frame_length (h + vb) x_adj in
     imx477_set_ctrl V4L2_CID_VBLANK x = (fst r, snd (pm_runtime_put (snd r)))) /\
    (exists rest,
        xfers (client x') =
        xfers (client x)
        ++ I2cSend (put_unaligned_be16 IMX477_REG_FRAME_LENGTH
                    ++ put_unaligned_be16
                         (Z.shiftr (h + vb) (long_exp_shift x')))
           :: rest).
Proof.
  intros x vb Hvb Hrange. cbv zeta.
  destruct (catalog_height_bounds _ (mode_at_In (cur_mode x))) as [Hh _].
  rewrite vblank_ctrl_run. cbv zeta. rewrite Hvb. cbn [snd fst].
  set (h := height (mode_at (cur_mode x))) in *.
  set (x_adj := snd (imx477_adjust_exposure_range x)).
  assert (Hmax : s32 (u32 (h + u32 vb - IMX477_EXPOSURE_OFFSET))
                 = h + vb - IMX477_EXPOSURE_OFFSET).
  { unfold IMX477_EXPOSURE_OFFSET, IMX477_FRAME_LENGTH_MAX in *.
    rewrite (u32_small vb) by lia.
    rewrite s32_u32. apply s32_small. lia. }
  assert (Hexp : exposure x_adj =
                 with_range (minimum (exposure x))
                            (h + vb - IMX477_EXPOSURE_OFFSET)
                            (step (exposure x))
                            (Z.min (h + vb - IMX477_EXPOSURE_OFFSET) (val (exposure x)))
                            (clamp (val (exposure x)) (minimum (exposure x))
                                   (h + vb - IMX477_EXPOSURE_OFFSET))
                            (exposure x)).
  { unfold x_adj, imx477_adjust_exposure_range, bind, get,
      __v4l2_ctrl_modify_range, modify.
    cbn [snd]. unfold exposure at 1, set_ctrl_of, set_ctrl_handler, handler_update.
    cbn [ctrl_handler].
    destruct (v4l2_cid_eq_dec V4L2_CID_EXPOSURE V4L2_CID_EXPOSURE) as [_ | N];
      [| contradiction N; reflexivity].
    fold h. rewrite Hvb, Hmax. reflexivity. }
  destruct (set_frame_length_handler (h + vb) x_adj) as [Hhdl _].
  assert (Hexp' :
    exposure (snd (pm_runtime_put (snd (imx477_set_frame_length (h + vb) x_adj))))
    = exposure x_adj).
  { unfold exposure, pm_runtime_put, modify. cbn [snd set_pm ctrl_handler].
    rewrite Hhdl. reflexivity. }
  rewrite Hexp', Hexp. cbn [maximum default_value val with_range].
  split; [reflexivity |]. split; [reflexivity |]. split; [reflexivity |].
  split; [unfold clamp; lia |]. split; [reflexivity |].
  (* the frame-length write *)
  assert (Hreq : 0 <= h + vb <= 2 ^ 7 * IMX477_FRAME_LENGTH_MAX) by lia.
  destruct (set_frame_length_shift x_adj (h + vb) Hreq) as (_ & _ & _ & rest & Ht).
  exists rest.
  unfold pm_runtime_put, modify. cbn [snd set_pm client long_exp_shift].
  rewrite Ht. reflexivity.
Qed.

(** A freshly probed device in which the framework has stored the VBLANK
    value 1000. *)
Lemma vblank_adjusts_exposure_range_witness :
  let x := set_ctrl_of V4L2_CID_VBLANK
                       (with_val 1000 (vblank (probed ack_all)))
                       (probed ack_all) in
  (val (vblank x) = 1000 /\
   0 <= 1000 <= 2 ^ 7 * IMX477_FRAME_LENGTH_MAX - height (mode_at (cur_mode x))) /\
  maximum (exposure (snd (imx477_set_ctrl V4L2_CID_VBLANK x)))
  = height (mode_at (cur_mode x)) + 1000 - IMX477_EXPOSURE_OFFSET.
Proof.
  cbv zeta.
  set (x := set_ctrl_of V4L2_CID_VBLANK
                        (with_val 1000 (vblank (probed ack_all)))
                        (probed ack_all)).
  assert (H1 : val (vblank x) = 1000) by reflexivity.
  assert (H2 : 0 <= 1000 <= 2 ^ 7 * IMX477_FRAME_LENGTH_MAX
                           - height (mode_at (cur_mode x)))
    by (vm_compute; split; discriminate).
  split; [split; assumption |].
  exact (proj1 (vblank_adjusts_exposure_range x 1000 H1 H2)).
Defined.

(** ** What register and control writes leave alone *)

Lemma quiet_refl x : quiet x x.
Proof.
  constructor; try reflexivity; auto.
  exists []. rewrite app_nil_r. reflexivity.
Qed.

Lemma quiet_trans x y z : quiet x y -> quiet y z -> quiet x z.
Proof.
  intros [a1 [T1 b1] c1 d1 e1 f1 g1 h1 i1 j1 k1 l1]
         [a2 [T2 b2] c2 d2 e2 f2 g2 h2 i2 j2 k2 l2].
  constructor; try congruence; auto.
  - exists (T1 ++ T2). rewrite b2, b1, app_assoc. reflexivity.
  - intros id Hid. rewrite k2, k1 by exact Hid. reflexivity.
Qed.

Lemma quiet_push m x : quiet x (push m x).
Proof.
  constructor; try reflexivity; auto.
  exists [m]. reflexivity.
Qed.

Lemma quiet_set_pm p x : quiet x (set_pm p x).
Proof.
  constructor; try reflexivity; auto.
  exists []. cbn. rewrite app_nil_r. reflexivity.
Qed.

Lemma quiet_set_long_exp_shift s x : quiet x (set_long_exp_shift s x).
Proof.
  constructor; try reflexivity; auto.
  exists []. cbn. rewrite app_nil_r. reflexivity.
Qed.

Lemma quiet_set_common x : quiet x (set_common_regs_written true x).
Proof.
  constructor; try reflexivity; auto.
  exists []. cbn. rewrite app_nil_r. reflexivity.
Qed.

Lemma quiet_pm_put x : quiet x (snd (pm_runtime_put x)).
Proof. unfold pm_runtime_put, modify. cbn [snd]. apply quiet_set_pm. Qed.

Lemma quiet_modify_exposure mn mx st df x :
  quiet x (snd (__v4l2_ctrl_modify_range V4L2_CID_EXPOSURE mn mx st df x)).
Proof.
  unfold __v4l2_ctrl_modify_range, modify. cbn [snd].
  constructor; try reflexivity; auto.
  - exists []. cbn. rewrite app_nil_r. reflexivity.
  - intros id Hid. cbn. unfold handler_update.
    destruct (v4l2_cid_eq_dec V4L2_CID_EXPOSURE id) as [E | _];
      [congruence | reflexivity].
  - intros id. cbn. unfold handler_update.
    destruct (v4l2_cid_eq_dec V4L2_CID_EXPOSURE id) as [<- | _]; reflexivity.
Qed.

Lemma quiet_write_reg reg len v x :
  quiet x (snd (imx477_write_reg reg len v x)).
Proof.
  destruct (Z_le_gt_dec (u32 len) 4) as [H | H].
  - rewrite write_reg_run by exact H. apply quiet_push.
  - rewrite write_reg_wide by lia. apply quiet_refl.
Qed.

Lemma quiet_write_regs_loop regs :
  forall x, quiet x (snd (write_regs_loop regs x)).
Proof.
  induction regs as [| r regs IH]; intros x; cbn [write_regs_loop].
  - apply quiet_refl.
  - rewrite bind_run.
    destruct (truth (fst (imx477_write_reg (address r) 1 (reg_val r) x))).
    + apply quiet_write_reg.
    + eapply quiet_trans; [apply quiet_write_reg | apply IH].
Qed.

Lemma quiet_set_frame_length v x :
  quiet x (snd (imx477_set_frame_length v x)).
Proof.
  rewrite set_frame_length_run. cbv zeta.
  destruct (took _ (set_long_exp_shift _ x)); cbn [snd].
  - eapply quiet_trans; [apply quiet_set_long_exp_shift |].
    eapply quiet_trans; apply quiet_push.
  - eapply quiet_trans; [apply quiet_set_long_exp_shift | apply quiet_push].
Qed.

Lemma quiet_adjust_exposure_range x :
  quiet x (snd (imx477_adjust_exposure_range x)).
Proof.
  unfold imx477_adjust_exposure_range. rewrite bind_run.
  unfold get at 2. cbn [snd]. apply quiet_modify_exposure.
Qed.

Lemma quiet_set_ctrl id x : quiet x (snd (imx477_set_ctrl id x)).
Proof.
  unfold imx477_set_ctrl. rewrite bind_run.
  set (x1 := snd ((if v4l2_cid_eq_dec id V4L2_CID_VBLANK
                   then imx477_adjust_exposure_range else pure tt) x)).
  assert (H1 : quiet x x1).
  { unfold x1. destruct (v4l2_cid_eq_dec id V4L2_CID_VBLANK).
    - apply quiet_adjust_exposure_range.
    - apply quiet_refl. }
  eapply quiet_trans; [exact H1 |].
  rewrite bind_run. unfold get at 2. cbn [snd]. unfold get at 1. cbn [fst].
  rewrite bind_run.
  match goal with
  | |- quiet x1 (snd (bind pm_runtime_put _ (snd ?w))) =>
      assert (H2 : quiet x1 (snd w))
  end.
  { destruct id; try apply quiet_write_reg; try apply quiet_set_frame_length;
      apply quiet_refl. }
  eapply quiet_trans; [exact H2 |].
  rewrite bind_run. unfold pure. cbn [snd]. apply quiet_pm_put.
Qed.

Lemma quiet_handler_setup_loop ids :
  forall x, quiet x (snd (handler_setup_loop ids x)).
Proof.
  induction ids as [| id ids IH]; intros x; cbn [handler_setup_loop].
  - apply quiet_refl.
  - rewrite bind_run.
    destruct (truth (fst (imx477_set_ctrl id x))).
    + apply quiet_set_ctrl.
    + eapply quiet_trans; [apply quiet_set_ctrl | apply IH].
Qed.

(** ** The start-streaming sequence, stage by stage *)

Lemma write_regs_all regs x :
  imx477_write_regs regs (Z.of_nat (length regs)) x = write_regs_loop regs x.
Proof.
  unfold imx477_write_regs. rewrite Nat2Z.id, firstn_all. reflexivity.
Qed.

Lemma bind_if_run (f g : M Z) x :
  bind f (fun ret => if truth ret then pure ret else g) x =
  let a := f x in if truth (fst a) then a else g (snd a).
Proof.
  rewrite bind_run. cbv zeta. destruct (f x) as [r x1]. cbn [fst snd].
  destruct (truth r); reflexivity.
Qed.

Lemma quiet_common_regs_stage x : quiet x (snd (common_regs_stage x)).
Proof.
  unfold common_regs_stage.
  destruct (common_regs_written x); [apply quiet_refl |]. cbv zeta.
  destruct (truth (fst (write_regs_loop mode_common_regs x)));
    [apply quiet_write_regs_loop |].
  eapply quiet_trans; [apply quiet_write_regs_loop |].
  destruct (truth (fst (write_regs_loop _ (snd (write_regs_loop mode_common_regs x)))));
    [apply quiet_write_regs_loop |].
  cbn [snd].
  eapply quiet_trans; [apply quiet_write_regs_loop | apply quiet_set_common].
Qed.

Lemma start_streaming_run x :
  __imx477_start_streaming x =
  let c := common_regs_stage x in
  if truth (fst c) then c
  else
    let m := write_regs_loop (regs (reg_list (mode_at (cur_mode x)))) (snd c) in
    if truth (fst m) then m
    else
      let h := handler_setup_loop replayed_ctrls (snd m) in
      if truth (fst h) then h
      else imx477_write_reg IMX477_REG_MODE_SELECT IMX477_REG_VALUE_08BIT
                            IMX477_MODE_STREAMING (snd h).
Proof.
  pose proof (q_cur_mode _ _ (quiet_common_regs_stage x)) as Hmode.
  unfold __imx477_start_streaming.
  rewrite bind_run.
  change (fst (get x)) with x. change (snd (get x)) with x. cbv zeta.
  assert (Hc : (if negb (common_regs_written x)
                then
                  bind (imx477_write_regs mode_common_regs
                                          (Z.of_nat (length mode_common_regs)))
                    (fun ret =>
                       bind (if negb (truth ret)
                             then imx477_write_regs
                                    (regs (extra_regs (compatible_data x)))
                                    (num_of_regs (extra_regs (compatible_data x)))
                             else pure ret)
                         (fun ret0 =>
                            if truth ret0 then pure ret0
                            else bind (modify (set_common_regs_written true))
                                      (fun _ => pure 0)))
                else pure 0) x = common_regs_stage x).
  { unfold common_regs_stage.
    destruct (common_regs_written x); [reflexivity |]. cbn [negb]. cbv zeta.
    rewrite bind_run, write_regs_all.
    destruct (write_regs_loop mode_common_regs x) as [ra xa]. cbn [fst snd].
    destruct (truth ra) eqn:E; cbn [negb].
    - rewrite bind_run. unfold pure. cbn [fst snd]. rewrite E. reflexivity.
    - rewrite bind_run. unfold num_of_regs. rewrite write_regs_all.
      destruct (write_regs_loop _ xa) as [rb xb]. cbn [fst snd].
      destruct (truth rb); reflexivity. }
  rewrite bind_run, Hc. cbv zeta.
  destruct (common_regs_stage x) as [rc xc]. cbn [fst snd] in *.
  destruct (truth rc); [reflexivity |].
  rewrite bind_run.
  change (fst (get xc)) with xc. change (snd (get xc)) with xc. cbv zeta.
  rewrite Hmode. unfold num_of_regs.
  rewrite bind_if_run. cbv zeta. rewrite write_regs_all.
  destruct (write_regs_loop _ xc) as [rm xm]. cbn [fst snd].
  destruct (truth rm); [reflexivity |].
  rewrite bind_if_run. cbv zeta. unfold __v4l2_ctrl_handler_setup.
  reflexivity.
Qed.

Lemma quiet_start_streaming x : quiet x (snd (__imx477_start_streaming x)).
Proof.
  rewrite start_streaming_run. cbv zeta.
  pose proof (quiet_common_regs_stage x) as Hc.
  destruct (truth (fst (common_regs_stage x))); [exact Hc |].
  eapply quiet_trans; [exact Hc |].
  set (xc := snd (common_regs_stage x)).
  pose proof (quiet_write_regs_loop
                (regs (reg_list (mode_at (cur_mode x)))) xc) as Hm.
  destruct (truth (fst (write_regs_loop _ xc))); [exact Hm |].
  eapply quiet_trans; [exact Hm |].
  set (xm := snd (write_regs_loop _ xc)).
  pose proof (quiet_handler_setup_loop replayed_ctrls xm) as Hh.
  destruct (truth (fst (handler_setup_loop replayed_ctrls xm))); [exact Hh |].
  eapply quiet_trans; [exact Hh | apply quiet_write_reg].
Qed.

(** ** Outcome of a sequence of register writes *)

Lemma all_accepted_app adp T1 :
  forall n T2,
    all_accepted adp n (T1 ++ T2)
    = all_accepted adp n T1 && all_accepted adp (n + length T1) T2.
Proof.
  induction T1 as [| m T1 IH]; intros n T2; cbn [app all_accepted length].
  - rewrite Nat.add_0_r. reflexivity.
  - rewrite IH, andb_assoc.
    replace (S n + length T1)%nat with (n + S (length T1))%nat by lia.
    reflexivity.
Qed.

Lemma io_refl c : io_result c 0 c.
Proof.
  split; [reflexivity |]. exists []. rewrite app_nil_r.
  split; [reflexivity |]. left. split; reflexivity.
Qed.

Lemma io_then c c1 c2 r :
  io_result c 0 c1 -> io_result c1 r c2 -> io_result c r c2.
Proof.
  intros (Ha1 & T1 & Hx1 & H1) (Ha2 & T2 & Hx2 & H2).
  destruct H1 as [(_ & Hacc1) | (E & _)]; [| discriminate E].
  split; [congruence |].
  exists (T1 ++ T2). split; [rewrite Hx2, Hx1, app_assoc; reflexivity |].
  rewrite Ha1, Hx1, length_app in H2.
  destruct H2 as [(Hr & Hacc2) | (Hr & T0 & m & HT & Hacc2 & Hrej)].
  - left. split; [exact Hr |].
    rewrite all_accepted_app, Hacc1, Hacc2. reflexivity.
  - right. split; [exact Hr |].
    exists (T1 ++ T0), m. split; [rewrite HT, app_assoc; reflexivity |].
    split.
    + rewrite all_accepted_app, Hacc1, Hacc2. reflexivity.
    + rewrite length_app, Nat.add_assoc. exact Hrej.
Qed.

Lemma io_nonzero c r c' : io_result c r c' -> r <> 0 -> r = - EIO.
Proof.
  intros (_ & T & _ & [(E & _) | (E & _)]) Hr; [contradiction | exact E].
Qed.

(** Two stages in sequence, the second entered only when the first
    returned 0. *)
Lemma io_ok_seq (f g : M Z) :
  io_ok f -> io_ok g ->
  io_ok (fun x => let a := f x in if truth (fst a) then a else g (snd a)).
Proof.
  intros Hf Hg x. cbv zeta. specialize (Hf x).
  destruct (truth (fst (f x))) eqn:E; [exact Hf |].
  apply truth_false in E. rewrite E in Hf.
  eapply io_then; [exact Hf | apply Hg].
Qed.

Lemma io_ok_ext (f g : M Z) : (forall x, f x = g x) -> io_ok g -> io_ok f.
Proof. intros E Hg x. rewrite E. apply Hg. Qed.

Lemma io_write_reg reg len v :
  u32 len <= 4 -> io_ok (imx477_write_reg reg len v).
Proof.
  intros Hlen x. rewrite write_reg_run by exact Hlen.
  unfold took, push. cbn [fst snd client set_client].
  split; [reflexivity |].
  exists [write_reg_msg reg len v]. split; [reflexivity |].
  destruct (accepted _ _ _) eqn:E.
  - left. split; [reflexivity |]. cbn [all_accepted]. rewrite E. reflexivity.
  - right. split; [reflexivity |].
    exists [], (write_reg_msg reg len v).
    split; [reflexivity |]. split; [reflexivity |].
    cbn [length]. rewrite Nat.add_0_r. exact E.
Qed.

Lemma io_write_regs_loop regs : io_ok (write_regs_loop regs).
Proof.
  induction regs as [| r regs IH]; cbn [write_regs_loop].
  - intros x. apply io_refl.
  - eapply io_ok_ext; [intros x; apply bind_if_run |].
    apply io_ok_seq; [| exact IH].
    apply io_write_reg. cbv. discriminate.
Qed.

Lemma io_set_frame_length v : io_ok (imx477_set_frame_length v).
Proof.
  intros x. rewrite set_frame_length_run. cbv zeta.
  set (s := fst (frame_length_loop 32 0 (u32 v))).
  set (v' := snd (frame_length_loop 32 0 (u32 v))).
  set (x0 := set_long_exp_shift s x).
  change (client x) with (client x0).
  pose proof (io_write_reg IMX477_REG_FRAME_LENGTH IMX477_REG_VALUE_16BIT v'
                ltac:(cbv; discriminate) x0) as H1.
  rewrite write_reg_run in H1 by (cbv; discriminate). cbn [fst snd] in H1.
  destruct (took _ x0).
  - pose proof (io_write_reg IMX477_LONG_EXP_SHIFT_REG IMX477_REG_VALUE_08BIT s
                  ltac:(cbv; discriminate)
                  (push (write_reg_msg IMX477_REG_FRAME_LENGTH
                                       IMX477_REG_VALUE_16BIT v') x0)) as H2.
    rewrite write_reg_run in H2 by (cbv; discriminate). cbn [fst snd] in H2.
    cbn [fst snd]. eapply io_then; [exact H1 | exact H2].
  - exact H1.
Qed.

Lemma set_ctrl_run id x :
  imx477_set_ctrl id x =
  let x1 := snd ((if v4l2_cid_eq_dec id V4L2_CID_VBLANK
                  then imx477_adjust_exposure_range else pure tt) x) in
  let w := ctrl_write id x1 in
  (fst w, snd (pm_runtime_put (snd w))).
Proof.
  unfold imx477_set_ctrl, ctrl_write. rewrite bind_run. cbv zeta.
  set (x1 := snd ((if v4l2_cid_eq_dec id V4L2_CID_VBLANK
                   then imx477_adjust_exposure_range else pure tt) x)).
  rewrite bind_run.
  change (fst (get x1)) with x1. change (snd (get x1)) with x1.
  rewrite bind_run. rewrite bind_run. reflexivity.
Qed.

Lemma adjust_keeps_client id x :
  client (snd ((if v4l2_cid_eq_dec id V4L2_CID_VBLANK
                then imx477_adjust_exposure_range else pure tt) x)) = client x.
Proof. destruct (v4l2_cid_eq_dec id V4L2_CID_VBLANK); reflexivity. Qed.

Lemma io_ctrl_write id : In id replayed_ctrls -> io_ok (ctrl_write id).
Proof.
  intros Hin x. unfold ctrl_write. cbv zeta.
  cbn [In replayed_ctrls] in Hin.
  repeat (destruct Hin as [<- | Hin]);
    try (apply io_write_reg; cbv; discriminate);
    try apply io_set_frame_length.
  contradiction.
Qed.

Lemma io_set_ctrl id : In id replayed_ctrls -> io_ok (imx477_set_ctrl id).
Proof.
  intros Hin x. rewrite set_ctrl_run. cbv zeta. cbn [fst snd].
  unfold pm_runtime_put, modify. cbn [snd set_pm client].
  rewrite <- (adjust_keeps_client id x).
  apply io_ctrl_write. exact Hin.
Qed.

Lemma io_handler_setup_loop ids :
  (forall id, In id ids -> In id replayed_ctrls) ->
  io_ok (handler_setup_loop ids).
Proof.
  induction ids as [| id ids IH]; intros Hin; cbn [handler_setup_loop].
  - intros x. apply io_refl.
  - eapply io_ok_ext; [intros x; apply bind_if_run |].
    apply io_ok_seq.
    + apply io_set_ctrl. apply Hin. left. reflexivity.
    + apply IH. intros id' H'. apply Hin. right. exact H'.
Qed.

Lemma io_common_regs_stage : io_ok common_regs_stage.
Proof.
  intros x. unfold common_regs_stage.
  destruct (common_regs_written x); [apply io_refl |]. cbv zeta.
  pose proof (io_write_regs_loop mode_common_regs x) as Ha.
  destruct (truth (fst (write_regs_loop mode_common_regs x))) eqn:Ea;
    [exact Ha |].
  apply truth_false in Ea. rewrite Ea in Ha.
  set (xa := snd (write_regs_loop mode_common_regs x)) in *.
  pose proof (io_write_regs_loop (regs (extra_regs (compatible_data x))) xa) as Hb.
  destruct (truth (fst (write_regs_loop _ xa))) eqn:Eb.
  - eapply io_then; [exact Ha | exact Hb].
  - apply truth_false in Eb. rewrite Eb in Hb. cbn [fst snd set_common_regs_written client].
    eapply io_then; [exact Ha | exact Hb].
Qed.

Lemma io_start_streaming : io_ok __imx477_start_streaming.
Proof.
  intros x. rewrite start_streaming_run.
  pose proof (io_ok_seq _ _ io_common_regs_stage
               (io_ok_seq _ _
                  (io_write_regs_loop (regs (reg_list (mode_at (cur_mode x)))))
                  (io_ok_seq _ _
                     (io_handler_setup_loop replayed_ctrls (fun _ H => H))
                     (io_write_reg IMX477_REG_MODE_SELECT IMX477_REG_VALUE_08BIT
                                   IMX477_MODE_STREAMING ltac:(cbv; discriminate))))
               x) as H.
  exact H.
Qed.

(** ** Power-up and the runtime-PM resume *)

Lemma regulator_bulk_enable_nonpos r : regulator_bulk_enable r <= 0.
Proof. unfold regulator_bulk_enable. lia. Qed.

Lemma clk_prepare_enable_nonpos r : clk_prepare_enable r <= 0.
Proof. unfold clk_prepare_enable. lia. Qed.

Lemma power_on_state x :
  exists r, snd (__imx477_power_on x) = set_rails r x.
Proof.
  unfold __imx477_power_on. rewrite bind_run.
  change (fst (get x)) with x. change (snd (get x)) with x. cbv zeta.
  destruct (truth (regulator_bulk_enable _)); [eexists; reflexivity |].
  destruct (truth (clk_prepare_enable _)); eexists; reflexivity.
Qed.

Lemma power_on_run x :
  let r := rails x in
  (regulator_bulk_enable r <> 0 /\
   fst (__imx477_power_on x) = regulator_bulk_enable r /\
   supplies_enabled (rails (snd (__imx477_power_on x))) = supplies_enabled r /\
   xclk_enabled (rails (snd (__imx477_power_on x))) = xclk_enabled r /\
   reset_gpio_value (rails (snd (__imx477_power_on x))) = reset_gpio_value r)
  \/
  (regulator_bulk_enable r = 0 /\ clk_prepare_enable r <> 0 /\
   fst (__imx477_power_on x) = clk_prepare_enable r /\
   supplies_enabled (rails (snd (__imx477_power_on x))) = false /\
   xclk_enabled (rails (snd (__imx477_power_on x))) = xclk_enabled r /\
   reset_gpio_value (rails (snd (__imx477_power_on x))) = reset_gpio_value r)
  \/
  (regulator_bulk_enable r = 0 /\ clk_prepare_enable r = 0 /\
   fst (__imx477_power_on x) = 0 /\
   supplies_enabled (rails (snd (__imx477_power_on x))) = true /\
   xclk_enabled (rails (snd (__imx477_power_on x))) = true /\
   reset_gpio_value (rails (snd (__imx477_power_on x))) = 1).
Proof.
  cbv zeta. unfold __imx477_power_on. rewrite bind_run.
  change (fst (get x)) with x. change (snd (get x)) with x. cbv zeta.
  destruct (truth (regulator_bulk_enable (rails x))) eqn:Hr.
  - apply truth_true in Hr. left. repeat split. exact Hr.
  - apply truth_false in Hr.
    destruct (truth (clk_prepare_enable (rails x))) eqn:Hc.
    + apply truth_true in Hc. right. left. repeat split; assumption.
    + apply truth_false in Hc. right. right. repeat split; assumption.
Qed.

Lemma power_on_nonpos x : fst (__imx477_power_on x) <= 0.
Proof.
  pose proof (regulator_bulk_enable_nonpos (rails x)).
  pose proof (clk_prepare_enable_nonpos (rails x)).
  destruct (power_on_run x) as [(_ & -> & _) | [(_ & _ & -> & _) | (_ & _ & -> & _)]];
    cbv zeta; lia.
Qed.

Lemma power_on_keeps x :
  client (snd (__imx477_power_on x)) = client x /\
  streaming (snd (__imx477_power_on x)) = streaming x /\
  common_regs_written (snd (__imx477_power_on x)) = common_regs_written x /\
  mutex (snd (__imx477_power_on x)) = mutex x /\
  ctrl_handler (snd (__imx477_power_on x)) = ctrl_handler x /\
  pm (snd (__imx477_power_on x)) = pm x /\
  cur_mode (snd (__imx477_power_on x)) = cur_mode x /\
  cfg_num (snd (__imx477_power_on x)) = cfg_num x /\
  power_on (snd (__imx477_power_on x)) = power_on x /\
  long_exp_shift (snd (__imx477_power_on x)) = long_exp_shift x /\
  compatible_data (snd (__imx477_power_on x)) = compatible_data x.
Proof.
  destruct (power_on_state x) as (r & ->). repeat split.
Qed.

Lemma power_off_state x :
  supplies_enabled (rails (snd (__imx477_power_off x))) = false /\
  xclk_enabled (rails (snd (__imx477_power_off x))) = false /\
  client (snd (__imx477_power_off x)) = client x.
Proof. repeat split. Qed.

Lemma standby_msg :
  write_reg_msg IMX477_REG_MODE_SELECT IMX477_REG_VALUE_08BIT IMX477_MODE_STANDBY
  = I2cSend [0x01; 0x00; 0x00].
Proof. reflexivity. Qed.

Lemma stop_streaming_run x :
  __imx477_stop_streaming x = (tt, push (I2cSend [0x01; 0x00; 0x00]) x).
Proof.
  unfold __imx477_stop_streaming. rewrite bind_run.
  rewrite write_reg_run by (vm_compute; discriminate).
  rewrite standby_msg. reflexivity.
Qed.

Lemma resume_run x :
  imx477_resume x =
  let p := __imx477_power_on x in
  if truth (fst p)
  then (fst p, set_streaming false (push (I2cSend [0x01; 0x00; 0x00]) (snd p)))
  else (0, snd p).
Proof.
  unfold imx477_resume. rewrite bind_run. cbv zeta.
  destruct (truth (fst (__imx477_power_on x))); [| reflexivity].
  rewrite bind_run, stop_streaming_run. reflexivity.
Qed.

(** The two ways [imx477_resume] can end: powered, with nothing else
    changed, or not, with a negative errno, the standby write offered to
    the bus and [streaming] cleared. *)
Lemma resume_cases x :
  exists r,
    (fst (imx477_resume x) = 0 /\ snd (imx477_resume x) = set_rails r x)
    \/
    (fst (imx477_resume x) < 0 /\
     snd (imx477_resume x)
     = set_streaming false (push (I2cSend [0x01; 0x00; 0x00]) (set_rails r x))).
Proof.
  rewrite resume_run. cbv zeta.
  pose proof (power_on_nonpos x) as Hn.
  destruct (power_on_state x) as (r & Hr). rewrite Hr. exists r.
  destruct (truth (fst (__imx477_power_on x))) eqn:Ht; cbn [fst snd].
  - apply truth_true in Ht. right. split; [lia | reflexivity].
  - left. split; reflexivity.
Qed.

Lemma reset_after_power_on x :
  reset_gpio_value (rails (snd (__imx477_power_on x))) = reset_gpio_value (rails x)
  \/ reset_gpio_value (rails (snd (__imx477_power_on x))) = 1.
Proof.
  destruct (power_on_run x) as [(_ & _ & _ & _ & H) | [(_ & _ & _ & _ & _ & H)
                               | (_ & _ & _ & _ & _ & H)]]; cbv zeta in H;
    [left | left | right]; exact H.
Qed.

Lemma quiet_roused x y : quiet x y -> roused x y.
Proof.
  intros [a b c d e f g h i j k l]. constructor; try assumption.
  - left. rewrite c. reflexivity.
  - left. exact e.
Qed.

Lemma roused_refl x : roused x x.
Proof. apply quiet_roused, quiet_refl. Qed.

Lemma roused_trans x y z : roused x y -> roused y z -> roused x z.
Proof.
  intros [a1 b1 c1 d1 e1 f1 g1 h1 i1 j1 k1 l1] [a2 b2 c2 d2 e2 f2 g2 h2 i2 j2 k2 l2].
  constructor; try congruence; auto;
    try (intros id Hid; rewrite k2, k1 by exact Hid; reflexivity);
    try (intros id; rewrite l2, l1; reflexivity);
    try (destruct b1 as (T1 & E1), b2 as (T2 & E2); exists (T1 ++ T2);
         rewrite E2, E1, app_assoc; reflexivity);
    try (destruct c2 as [E | E]; [rewrite E; exact c1 | right; exact E]);
    try (destruct e2 as [E | E]; [rewrite E; exact e1 | right; exact E]).
Qed.

Lemma roused_resume x : roused x (snd (imx477_resume x)).
Proof.
  rewrite resume_run. cbv zeta.
  pose proof (reset_after_power_on x) as Hreset.
  destruct (power_on_state x) as (r & Hr). rewrite Hr in *.
  destruct (truth (fst (__imx477_power_on x))); cbn [snd].
  - constructor; try reflexivity; try (intros; reflexivity).
    + eexists. reflexivity.
    + exact Hreset.
    + right. reflexivity.
    + auto.
  - constructor; try reflexivity; try (intros; reflexivity).
    + exists []. cbn. rewrite app_nil_r. reflexivity.
    + exact Hreset.
    + left. reflexivity.
    + auto.
Qed.

Lemma get_sync_run x :
  pm_runtime_get_sync x =
  let p := pm x in
  let x0 := set_pm {| usage_count := usage_count p + 1;
                      get_sync_calls := S (get_sync_calls p);
                      get_sync_reply := get_sync_reply p;
                      runtime_suspended := runtime_suspended p |} x in
  if runtime_suspended p (get_sync_calls p)
  then imx477_resume x0
  else (get_sync_reply p (get_sync_calls p), x0).
Proof.
  unfold pm_runtime_get_sync. rewrite bind_run.
  change (fst (get x)) with x. change (snd (get x)) with x. cbv zeta.
  rewrite bind_run. unfold modify. cbn [snd].
  destruct (runtime_suspended (pm x) (get_sync_calls (pm x))); reflexivity.
Qed.

Lemma roused_get_sync x : roused x (snd (pm_runtime_get_sync x)).
Proof.
  rewrite get_sync_run. cbv zeta.
  destruct (runtime_suspended (pm x) (get_sync_calls (pm x))).
  - eapply roused_trans; [| apply roused_resume].
    apply quiet_roused, quiet_set_pm.
  - apply quiet_roused, quiet_set_pm.
Qed.

(** A [pm_runtime_get_sync] that does not fail has touched the rails and
    the reference count at most. *)
Lemma get_sync_ok x :
  0 <= fst (pm_runtime_get_sync x) ->
  exists r p,
    snd (pm_runtime_get_sync x) = set_rails r (set_pm p x) /\
    get_sync_calls p = S (get_sync_calls (pm x)) /\
    usage_count p = usage_count (pm x) + 1.
Proof.
  rewrite get_sync_run. cbv zeta.
  destruct (runtime_suspended (pm x) (get_sync_calls (pm x))).
  - destruct (resume_cases (set_pm {| usage_count := usage_count (pm x) + 1;
                                      get_sync_calls := S (get_sync_calls (pm x));
                                      get_sync_reply := get_sync_reply (pm x);
                                      runtime_suspended := runtime_suspended (pm x) |} x))
      as (r & [(_ & ->) | (Hneg & _)]); intros H.
    + exists r. eexists. split; [reflexivity | split; reflexivity].
    + lia.
  - intros _. cbn [snd]. exists (rails x).
    exists {| usage_count := usage_count (pm x) + 1;
              get_sync_calls := S (get_sync_calls (pm x));
              get_sync_reply := get_sync_reply (pm x);
              runtime_suspended := runtime_suspended (pm x) |}.
    split; [| split; reflexivity]. destruct x. reflexivity.
Qed.

(** A [pm_runtime_get_sync] that fails has either left the device alone
    or gone through a failed resume. *)
Lemma get_sync_failed x :
  fst (pm_runtime_get_sync x) < 0 ->
  exists r p,
    get_sync_calls p = S (get_sync_calls (pm x)) /\
    usage_count p = usage_count (pm x) + 1 /\
    ((runtime_suspended (pm x) (get_sync_calls (pm x)) = false /\
      snd (pm_runtime_get_sync x) = set_pm p x)
     \/
     (runtime_suspended (pm x) (get_sync_calls (pm x)) = true /\
      snd (pm_runtime_get_sync x)
      = set_streaming false
          (push (I2cSend [0x01; 0x00; 0x00]) (set_rails r (set_pm p x))))).
Proof.
  rewrite get_sync_run. cbv zeta.
  destruct (runtime_suspended (pm x) (get_sync_calls (pm x))).
  - destruct (resume_cases (set_pm {| usage_count := usage_count (pm x) + 1;
                                      get_sync_calls := S (get_sync_calls (pm x));
                                      get_sync_reply := get_sync_reply (pm x);
                                      runtime_suspended := runtime_suspended (pm x) |} x))
      as (r & [(E0 & _) | (_ & ->)]); intros H.
    + lia.
    + exists r.
      exists {| usage_count := usage_count (pm x) + 1;
                get_sync_calls := S (get_sync_calls (pm x));
                get_sync_reply := get_sync_reply (pm x);
                runtime_suspended := runtime_suspended (pm x) |}.
      split; [reflexivity |]. split; [reflexivity |].
      right. split; reflexivity.
  - intros _. cbn [snd]. exists (rails x).
    exists {| usage_count := usage_count (pm x) + 1;
              get_sync_calls := S (get_sync_calls (pm x));
              get_sync_reply := get_sync_reply (pm x);
              runtime_suspended := runtime_suspended (pm x) |}.
    split; [reflexivity |]. split; [reflexivity |]. left. split; reflexivity.
Qed.

(** ** [imx477_s_stream], path by path *)

Lemma s_stream_same enable x :
  of_bool (streaming x) = enable ->
  imx477_s_stream enable x = (0, set_mutex false x).
Proof.
  intros H. unfold imx477_s_stream.
  rewrite bind_run. cbv beta.
  change (snd (mutex_lock x)) with (set_mutex true x).
  rewrite bind_run.
  change (fst (get (set_mutex true x))) with (set_mutex true x).
  change (snd (get (set_mutex true x))) with (set_mutex true x).
  change (streaming (set_mutex true x)) with (streaming x).
  rewrite H, Z.eqb_refl.
  reflexivity.
Qed.

Lemma s_stream_start enable x :
  of_bool (streaming x) <> enable ->
  enable <> 0 ->
  imx477_s_stream enable x =
  let g := pm_runtime_get_sync (set_mutex true x) in
  if fst g <? 0
  then (fst g, set_mutex false (snd (pm_runtime_put_noidle (snd g))))
  else
    let r := __imx477_start_streaming (snd g) in
    if truth (fst r)
    then (fst r, set_mutex false (snd (pm_runtime_put (snd r))))
    else (fst r, stream_done enable (snd r)).
Proof.
  intros Hne He. unfold imx477_s_stream.
  rewrite bind_run. cbv beta.
  change (snd (mutex_lock x)) with (set_mutex true x).
  rewrite bind_run.
  change (fst (get (set_mutex true x))) with (set_mutex true x).
  change (snd (get (set_mutex true x))) with (set_mutex true x).
  change (streaming (set_mutex true x)) with (streaming x).
  destruct (Z.eqb_spec (of_bool (streaming x)) enable) as [E | _];
    [contradiction |].
  cbv zeta. unfold stream_done. rewrite (truth_nonzero enable He).
  rewrite bind_run.
  destruct (pm_runtime_get_sync (set_mutex true x)) as [rg xg]. cbn [fst snd].
  destruct (rg <? 0).
  - reflexivity.
  - rewrite bind_run.
    destruct (__imx477_start_streaming xg) as [r xr]. cbn [fst snd].
    destruct (truth r); reflexivity.
Qed.

Lemma s_stream_stop x :
  streaming x = true ->
  imx477_s_stream 0 x =
  (0, stream_done 0
        (snd (pm_runtime_put (snd (__imx477_stop_streaming (set_mutex true x)))))).
Proof.
  intros Hs. unfold imx477_s_stream.
  rewrite bind_run. cbv beta.
  change (snd (mutex_lock x)) with (set_mutex true x).
  rewrite bind_run.
  change (fst (get (set_mutex true x))) with (set_mutex true x).
  change (snd (get (set_mutex true x))) with (set_mutex true x).
  change (streaming (set_mutex true x)) with (streaming x).
  rewrite Hs. cbn [of_bool Z.eqb]. cbv zeta. change (truth 0) with false.
  cbv iota.
  rewrite bind_run.
  destruct (__imx477_stop_streaming (set_mutex true x)) as [[] xs].
  cbn [fst snd]. reflexivity.
Qed.

Lemma set_mutex_idle x : mutex x = false -> set_mutex false x = x.
Proof. destruct x. cbn. intros ->. reflexivity. Qed.

Lemma power_on_answer x y :
  rails x = rails y -> fst (__imx477_power_on x) = fst (__imx477_power_on y).
Proof.
  intros E. unfold __imx477_power_on. rewrite !bind_run.
  change (fst (get x)) with x. change (snd (get x)) with x.
  change (fst (get y)) with y. change (snd (get y)) with y.
  cbv zeta. rewrite E.
  destruct (truth (regulator_bulk_enable (rails y))); [reflexivity |].
  destruct (truth (clk_prepare_enable (rails y))); reflexivity.
Qed.

(** What [pm_runtime_get_sync] answers depends on the runtime-PM core
    and the rails only, and not on the reference count. *)
Lemma get_sync_answer x y :
  get_sync_calls (pm x) = get_sync_calls (pm y) ->
  get_sync_reply (pm x) = get_sync_reply (pm y) ->
  runtime_suspended (pm x) = runtime_suspended (pm y) ->
  rails x = rails y ->
  fst (pm_runtime_get_sync x) = fst (pm_runtime_get_sync y).
Proof.
  intros Hc Hp Hu Hr. rewrite !get_sync_run. cbv zeta. rewrite Hc, Hp, Hu.
  destruct (runtime_suspended (pm y) (get_sync_calls (pm y))); [| reflexivity].
  rewrite !resume_run. cbv zeta.
  match goal with
  | |- context [__imx477_power_on (set_pm ?p x)] =>
      rewrite (power_on_answer (set_pm p x) y) by exact Hr
  end.
  match goal with
  | |- context [__imx477_power_on (set_pm ?p y)] =>
      rewrite (power_on_answer (set_pm p y) y) by reflexivity
  end.
  destruct (truth (fst (__imx477_power_on y))); reflexivity.
Qed.

Lemma power_on_rails x y :
  rails x = rails y ->
  rails (snd (__imx477_power_on x)) = rails (snd (__imx477_power_on y)).
Proof.
  intros E. unfold __imx477_power_on. rewrite !bind_run.
  change (fst (get x)) with x. change (snd (get x)) with x.
  change (fst (get y)) with y. change (snd (get y)) with y.
  cbv zeta. rewrite E.
  destruct (truth (regulator_bulk_enable (rails y))); [reflexivity |].
  destruct (truth (clk_prepare_enable (rails y))); reflexivity.
Qed.

(** Nor do the rails it leaves. *)
Lemma get_sync_rails x y :
  get_sync_calls (pm x) = get_sync_calls (pm y) ->
  get_sync_reply (pm x) = get_sync_reply (pm y) ->
  runtime_suspended (pm x) = runtime_suspended (pm y) ->
  rails x = rails y ->
  rails (snd (pm_runtime_get_sync x)) = rails (snd (pm_runtime_get_sync y)).
Proof.
  intros Hc Hp Hu Hr. rewrite !get_sync_run. cbv zeta. rewrite Hc, Hp, Hu.
  destruct (runtime_suspended (pm y) (get_sync_calls (pm y))); [| exact Hr].
  rewrite !resume_run. cbv zeta.
  match goal with
  | |- context [__imx477_power_on (set_pm ?p x)] =>
      rewrite (power_on_answer (set_pm p x) y) by exact Hr;
      pose proof (power_on_rails (set_pm p x) y Hr) as Ex
  end.
  match goal with
  | |- context [__imx477_power_on (set_pm ?p y)] =>
      rewrite (power_on_answer (set_pm p y) y) by reflexivity;
      pose proof (power_on_rails (set_pm p y) y eq_refl) as Ey
  end.
  destruct (truth (fst (__imx477_power_on y))); cbn [snd];
    (etransitivity; [exact Ex | symmetry; exact Ey]).
Qed.

(** A start, whatever its outcome, leaves the rails as
    [pm_runtime_get_sync] left them: no path of it powers the sensor
    off. *)
Lemma s_stream_start_rails enable x :
  of_bool (streaming x) <> enable ->
  enable <> 0 ->
  rails (snd (imx477_s_stream enable x)) = rails (snd (pm_runtime_get_sync x)).
Proof.
  intros Hne He. rewrite (s_stream_start enable x Hne He). cbv zeta.
  rewrite <- (get_sync_rails (set_mutex true x) x eq_refl eq_refl eq_refl eq_refl).
  set (g := pm_runtime_get_sync (set_mutex true x)).
  destruct (fst g <? 0); cbn [snd]; [reflexivity |].
  destruct (truth (fst (__imx477_start_streaming (snd g)))); cbn [snd].
  - change (rails (snd (__imx477_start_streaming (snd g))) = rails (snd g)).
    apply q_rails, quiet_start_streaming.
  - change (rails (snd (__imx477_start_streaming (snd g))) = rails (snd g)).
    apply q_rails, quiet_start_streaming.
Qed.

(** C8. [start_streaming] on a device that is not streaming always
    releases the mutex, leaves the power flag alone and leaves the rails
    as [pm_runtime_get_sync] left them: a failing step does not power the
    sensor off.  When the runtime-PM resume fails, its error is returned,
    no register of the sequence is written and the device is not
    streaming.  Otherwise the sequence offers the bus its messages one
    after the other, common and extra registers, mode registers, control
    replay and the mode-select write, and the first one the adapter
    refuses, whichever step it belongs to, ends it: nothing is offered
    after it, [-EIO] is returned and the device is not streaming.  Only
    when every message was taken does the call return 0 and set
    [streaming]. *)
Theorem start_streaming_failure_aborts :
  forall x : imx477,
    streaming x = false ->
    let answer := fst (pm_runtime_get_sync x) in
    let r := fst (start_streaming x) in
    let x' := snd (start_streaming x) in
    let adp := adapter (client x) in
    let n := length (xfers (client x)) in
    rails x' = rails (snd (pm_runtime_get_sync x)) /\
    mutex x' = false /\
    power_on x' = power_on x /\
    (answer < 0 ->
     r = answer /\
     streaming x' = false /\
     (xfers (client x') = xfers (client x)
      \/ xfers (client x') = xfers (client x) ++ [I2cSend [0x01; 0x00; 0x00]])) /\
    (0 <= answer ->
     exists T,
       xfers (client x') = xfers (client x) ++ T /\
       (all_accepted adp n T = false -> r = - EIO /\ streaming x' = false) /\
       ((r = 0 /\ all_accepted adp n T = true /\ streaming x' = true)
        \/
        (r = - EIO /\ streaming x' = false /\
         exists T0 m,
           T = T0 ++ [m] /\
           all_accepted adp n T0 = true /\
           accepted adp (n + length T0) m = false))).
Proof.
  intros x Hs. cbv zeta. unfold start_streaming.
  split;
    [apply s_stream_start_rails; [rewrite Hs |]; discriminate |].
  rewrite s_stream_start; [| rewrite Hs; discriminate | discriminate].
  cbv zeta.
  rewrite (get_sync_answer x (set_mutex true x) eq_refl eq_refl eq_refl eq_refl).
  set (g := pm_runtime_get_sync (set_mutex true x)).
  destruct (Z.ltb_spec (fst g) 0) as [Hneg | Hpos]; cbn [fst snd].
  - split; [reflexivity |].
    destruct (get_sync_failed (set_mutex true x) Hneg)
      as (rl & p & _ & _ & [(_ & E) | (_ & E)]); fold g in E; rewrite E;
      (split; [reflexivity |]); (split; [| intros H; lia]); intros _;
      (split; [reflexivity |]).
    + split; [exact Hs |]. left. reflexivity.
    + split; [reflexivity |]. right. reflexivity.
  - destruct (get_sync_ok (set_mutex true x) Hpos) as (rl & p & E & _).
    fold g in E. rewrite E.
    set (y := set_rails rl (set_pm p (set_mutex true x))).
    pose proof (quiet_start_streaming y) as Hq.
    pose proof (io_start_streaming y) as Hio.
    change (client y) with (client x) in Hio.
    assert (Hsy : streaming (snd (__imx477_start_streaming y)) = false)
      by (rewrite (q_streaming _ _ Hq); exact Hs).
    assert (Hpy : power_on (snd (__imx477_start_streaming y)) = power_on x)
      by (rewrite (q_power_on _ _ Hq); reflexivity).
    destruct (truth (fst (__imx477_start_streaming y))) eqn:Et; cbn [fst snd].
    + apply truth_true in Et.
      pose proof (io_nonzero _ _ _ Hio Et) as HEIO.
      split; [reflexivity |]. split; [exact Hpy |].
      split; [intros H; lia |]. intros _.
      destruct Hio as (Ha & T & Hx & [(E0 & _) | (_ & T0 & m & HT & Hacc & Hrej)]);
        [contradiction |].
      exists T. split; [exact Hx |].
      split; [intros _; split; [exact HEIO | exact Hsy] |].
      right. split; [exact HEIO |]. split; [exact Hsy |].
      exists T0, m. repeat split; assumption.
    + apply truth_false in Et.
      set (z := snd (__imx477_start_streaming y)) in *.
      assert (Hmu : mutex (stream_done 1 z) = false) by reflexivity.
      assert (Hst : streaming (stream_done 1 z) = true) by reflexivity.
      assert (Hcl : client (stream_done 1 z) = client z) by reflexivity.
      assert (Hpo : power_on (stream_done 1 z) = power_on z) by reflexivity.
      rewrite Hmu, Hpo, Hst, Hcl.
      split; [reflexivity |]. split; [exact Hpy |].
      split; [intros H; lia |]. intros _.
      destruct Hio as (Ha & T & Hx & [(_ & Hall) | (HEIO & _)]);
        [| rewrite Et in HEIO; discriminate HEIO].
      exists T. split; [exact Hx |].
      split; [intros Hf; rewrite Hall in Hf; discriminate Hf |].
      left. split; [exact Et |]. split; [exact Hall | reflexivity].
Qed.

(** The bus refuses the 151st message, which falls in the mode program;
    the device is found suspended and resumed without error before. *)
Lemma start_streaming_failure_aborts_witness :
  let x := probed (nak_at 150) in
  (streaming x = false /\ 0 <= fst (pm_runtime_get_sync x)) /\
  fst (start_streaming x) = - EIO /\
  streaming (snd (start_streaming x)) = false /\
  mutex (snd (start_streaming x)) = false /\
  length (xfers (client (snd (start_streaming x)))) = 151%nat.
Proof.
  cbv zeta.
  assert (H1 : streaming (probed (nak_at 150)) = false) by reflexivity.
  assert (H2 : 0 <= fst (pm_runtime_get_sync (probed (nak_at 150))))
    by (vm_compute; discriminate).
  split; [split; assumption |].
  pose proof (start_streaming_failure_aborts (probed (nak_at 150)) H1) as H.
  cbv zeta in H. destruct H as (_ & Hm & _ & _ & Hok).
  destruct (Hok H2) as (T & _ & _ & [(H0 & _) | (HE & Hst & _)]).
  - vm_compute in H0. discriminate H0.
  - split; [exact HE |]. split; [exact Hst |]. split; [exact Hm |].
    vm_compute. reflexivity.
Defined.

(** ** What a successful or failed program leaves on the bus *)

Lemma flag_write_regs_loop regs :
  forall x,
    common_regs_written (snd (write_regs_loop regs x)) = common_regs_written x.
Proof.
  induction regs as [| r regs IH]; intros x; cbn [write_regs_loop];
    [reflexivity |].
  rewrite bind_if_run. cbv zeta.
  rewrite write_reg_run by (cbv; discriminate). cbn [fst snd].
  destruct (took _ x).
  - rewrite truth_0. rewrite IH. reflexivity.
  - reflexivity.
Qed.

Lemma write_regs_loop_trace regs :
  forall x,
    exists k,
      (k <= length regs)%nat /\
      xfers (client (snd (write_regs_loop regs x)))
      = xfers (client x) ++ program_msgs (firstn k regs) /\
      (fst (write_regs_loop regs x) = 0 -> k = length regs) /\
      (fst (write_regs_loop regs x) <> 0 -> (k <= length regs)%nat) /\
      (regs <> [] -> (1 <= k)%nat).
Proof.
  induction regs as [| r regs IH]; intros x; cbn [write_regs_loop].
  - exists O. cbn. rewrite app_nil_r. repeat split; auto.
    intros H. contradiction H. reflexivity.
  - rewrite bind_if_run. cbv zeta.
    rewrite write_reg_run by (cbv; discriminate). cbn [fst snd].
    destruct (took _ x).
    + rewrite truth_0.
      destruct (IH (push (write_reg_msg (address r) 1 (reg_val r)) x))
        as (k & Hk & Hx & H0 & _ & _).
      exists (S k). cbn [length firstn program_msgs map].
      split; [lia |]. split.
      * rewrite Hx. unfold push. cbn [set_client client xfers].
        rewrite <- app_assoc. reflexivity.
      * split; [intros E; rewrite (H0 E); reflexivity |].
        split; intros _; lia.
    + change (truth (- EIO)) with true. cbv iota.
      exists 1%nat. cbn [length firstn program_msgs map fst snd].
      split; [lia |]. split; [reflexivity |].
      split; [intros E; discriminate E |]. split; intros _; lia.
Qed.

Lemma ctrl_write_trace id x :
  In id replayed_ctrls ->
  exists R,
    xfers (client (snd (ctrl_write id x))) = xfers (client x) ++ R /\
    (fst (ctrl_write id x) = 0 -> length R = ctrl_writes id).
Proof.
  intros Hin. unfold ctrl_write. cbv zeta. cbn [In replayed_ctrls] in Hin.
  repeat (destruct Hin as [<- | Hin]); try contradiction;
    try (rewrite write_reg_run by (cbv; discriminate);
         eexists; split; [reflexivity | intros _; reflexivity]).
  rewrite set_frame_length_run. cbv zeta.
  destruct (took _ (set_long_exp_shift _ x)); cbn [fst snd].
  - eexists. split.
    + unfold push. cbn [set_client client xfers set_long_exp_shift].
      rewrite <- app_assoc. reflexivity.
    + intros _. reflexivity.
  - eexists. split; [reflexivity |]. intros E. discriminate E.
Qed.

Lemma set_ctrl_trace id x :
  In id replayed_ctrls ->
  exists R,
    xfers (client (snd (imx477_set_ctrl id x))) = xfers (client x) ++ R /\
    (fst (imx477_set_ctrl id x) = 0 -> length R = ctrl_writes id).
Proof.
  intros Hin. rewrite set_ctrl_run. cbv zeta. cbn [fst snd].
  unfold pm_runtime_put, modify. cbn [snd set_pm client].
  rewrite <- (adjust_keeps_client id x).
  apply ctrl_write_trace. exact Hin.
Qed.

Lemma handler_setup_loop_trace ids :
  (forall id, In id ids -> In id replayed_ctrls) ->
  forall x,
    fst (handler_setup_loop ids x) = 0 ->
    exists R,
      xfers (client (snd (handler_setup_loop ids x))) = xfers (client x) ++ R /\
      length R = list_sum (map ctrl_writes ids).
Proof.
  induction ids as [| id ids IH]; intros Hin x; cbn [handler_setup_loop].
  - intros _. exists []. rewrite app_nil_r. split; reflexivity.
  - rewrite bind_if_run. cbv zeta.
    destruct (set_ctrl_trace id x (Hin id (or_introl eq_refl))) as (R1 & Hx1 & Hl1).
    destruct (truth (fst (imx477_set_ctrl id x))) eqn:E.
    + intros H0. apply truth_true in E. contradiction.
    + apply truth_false in E. intros H0.
      destruct (IH (fun i H => Hin i (or_intror H)) _ H0) as (R2 & Hx2 & Hl2).
      exists (R1 ++ R2). split.
      * rewrite Hx2, Hx1, app_assoc. reflexivity.
      * rewrite length_app, Hl2, (Hl1 E). reflexivity.
Qed.

Lemma start_streaming_stages x :
  __imx477_start_streaming x =
  let c := common_regs_stage x in
  if truth (fst c) then c else mode_stage (mode_at (cur_mode x)) (snd c).
Proof. rewrite start_streaming_run. reflexivity. Qed.

Lemma quiet_mode_stage mode x : quiet x (snd (mode_stage mode x)).
Proof.
  unfold mode_stage. cbv zeta.
  pose proof (quiet_write_regs_loop (regs (reg_list mode)) x) as Hm.
  destruct (truth (fst (write_regs_loop _ x))); [exact Hm |].
  eapply quiet_trans; [exact Hm |].
  set (xm := snd (write_regs_loop _ x)).
  pose proof (quiet_handler_setup_loop replayed_ctrls xm) as Hh.
  destruct (truth (fst (handler_setup_loop replayed_ctrls xm))); [exact Hh |].
  eapply quiet_trans; [exact Hh | apply quiet_write_reg].
Qed.

Lemma mode_stage_trace mode x :
  regs (reg_list mode) <> [] ->
  exists k R,
    (1 <= k <= length (regs (reg_list mode)))%nat /\
    xfers (client (snd (mode_stage mode x)))
    = xfers (client x) ++ program_msgs (firstn k (regs (reg_list mode))) ++ R /\
    ((k < length (regs (reg_list mode)))%nat ->
     R = [] /\ fst (mode_stage mode x) <> 0).
Proof.
  intros Hne. unfold mode_stage. cbv zeta.
  destruct (write_regs_loop_trace (regs (reg_list mode)) x)
    as (k & Hk & Hx & H0 & _ & H1).
  specialize (H1 Hne).
  destruct (truth (fst (write_regs_loop _ x))) eqn:E.
  - exists k, []. rewrite app_nil_r.
    split; [lia |]. split; [exact Hx |].
    intros _. split; [reflexivity |]. apply truth_true. exact E.
  - apply truth_false in E. specialize (H0 E).
    set (xm := snd (write_regs_loop _ x)) in *.
    assert (Hrest : quiet xm
              (snd (let h := handler_setup_loop replayed_ctrls xm in
                    if truth (fst h) then h
                    else imx477_write_reg IMX477_REG_MODE_SELECT
                           IMX477_REG_VALUE_08BIT IMX477_MODE_STREAMING (snd h)))).
    { cbv zeta.
      pose proof (quiet_handler_setup_loop replayed_ctrls xm) as Hh.
      destruct (truth (fst (handler_setup_loop replayed_ctrls xm))); [exact Hh |].
      eapply quiet_trans; [exact Hh | apply quiet_write_reg]. }
    destruct (q_xfers _ _ Hrest) as (R & HR). cbv zeta in HR.
    exists k, R. split; [lia |]. split.
    + rewrite HR, Hx, <- app_assoc. reflexivity.
    + intros Hlt. lia.
Qed.

Lemma mode_stage_success mode x :
  fst (mode_stage mode x) = 0 ->
  exists R,
    length R = 13%nat /\
    xfers (client (snd (mode_stage mode x)))
    = xfers (client x) ++ program_msgs (regs (reg_list mode)) ++ R
      ++ [write_reg_msg IMX477_REG_MODE_SELECT IMX477_REG_VALUE_08BIT
                        IMX477_MODE_STREAMING].
Proof.
  unfold mode_stage. cbv zeta.
  destruct (write_regs_loop_trace (regs (reg_list mode)) x)
    as (k & Hk & Hx & H0 & _ & _).
  destruct (truth (fst (write_regs_loop _ x))) eqn:E.
  { intros H. apply truth_true in E. contradiction. }
  apply truth_false in E. rewrite (H0 E), firstn_all in Hx.
  set (xm := snd (write_regs_loop _ x)) in *.
  destruct (truth (fst (handler_setup_loop replayed_ctrls xm))) eqn:Eh.
  { intros H. apply truth_true in Eh. contradiction. }
  apply truth_false in Eh.
  destruct (handler_setup_loop_trace replayed_ctrls (fun _ H => H) xm Eh)
    as (R & HR & HlR).
  rewrite write_reg_run by (cbv; discriminate). cbn [fst snd].
  intros _. exists R. split; [exact HlR |].
  unfold push. cbn [set_client client xfers].
  rewrite HR, Hx, <- !app_assoc. reflexivity.
Qed.

Lemma common_regs_stage_trace x :
  common_regs_written x = false ->
  let c := common_regs_stage x in
  let program := mode_common_regs ++ regs (extra_regs (compatible_data x)) in
  exists k,
    (1 <= k <= length program)%nat /\
    xfers (client (snd c)) = xfers (client x) ++ program_msgs (firstn k program) /\
    ((fst c = 0 /\ k = length program /\ common_regs_written (snd c) = true)
     \/ (fst c <> 0 /\ common_regs_written (snd c) = false)).
Proof.
  intros Hflag. cbv zeta. unfold common_regs_stage. rewrite Hflag. cbv zeta.
  set (extra := regs (extra_regs (compatible_data x))).
  assert (Hlc : (1 <= length mode_common_regs)%nat) by (cbn; lia).
  destruct (write_regs_loop_trace mode_common_regs x)
    as (k1 & Hk1 & Hx1 & H01 & _ & H11).
  assert (Hk1' : (1 <= k1)%nat) by (apply H11; discriminate).
  pose proof (flag_write_regs_loop mode_common_regs x) as Hf1.
  destruct (truth (fst (write_regs_loop mode_common_regs x))) eqn:E1.
  - exists k1. rewrite length_app. split; [lia |]. split.
    + rewrite firstn_app.
      replace (k1 - length mode_common_regs)%nat with O by lia.
      cbn [firstn]. rewrite app_nil_r. exact Hx1.
    + right. split; [apply truth_true; exact E1 |]. rewrite Hf1. exact Hflag.
  - apply truth_false in E1. specialize (H01 E1). subst k1.
    rewrite firstn_all in Hx1.
    set (xa := snd (write_regs_loop mode_common_regs x)) in *.
    destruct (write_regs_loop_trace extra xa) as (k2 & Hk2 & Hx2 & H02 & _ & _).
    pose proof (flag_write_regs_loop extra xa) as Hf2.
    exists (length mode_common_regs + k2)%nat.
    rewrite length_app. split; [lia |].
    rewrite firstn_app_2.
    unfold program_msgs in *. rewrite map_app.
    destruct (truth (fst (write_regs_loop extra xa))) eqn:E2.
    + split; [rewrite Hx2, Hx1, <- app_assoc; reflexivity |].
      right. split; [apply truth_true; exact E2 |].
      rewrite Hf2, Hf1. exact Hflag.
    + apply truth_false in E2. specialize (H02 E2). cbn [fst snd].
      split.
      * cbn [set_common_regs_written client].
        rewrite Hx2, Hx1, <- app_assoc. reflexivity.
      * left. split; [reflexivity |]. split; [lia | reflexivity].
Qed.

Lemma start_streaming_success x :
  fst (__imx477_start_streaming x) = 0 ->
  common_regs_written (snd (__imx477_start_streaming x)) = true /\
  exists R,
    length R = 13%nat /\
    xfers (client (snd (__imx477_start_streaming x)))
    = xfers (client x)
      ++ (if common_regs_written x then []
          else program_msgs mode_common_regs
               ++ program_msgs (regs (extra_regs (compatible_data x))))
      ++ program_msgs (regs (reg_list (mode_at (cur_mode x))))
      ++ R
      ++ [write_reg_msg IMX477_REG_MODE_SELECT IMX477_REG_VALUE_08BIT
                        IMX477_MODE_STREAMING].
Proof.
  rewrite start_streaming_stages. cbv zeta.
  destruct (truth (fst (common_regs_stage x))) eqn:Ec.
  { intros H. apply truth_true in Ec. contradiction. }
  apply truth_false in Ec. intros H.
  destruct (mode_stage_success _ _ H) as (R & HlR & HR).
  assert (Hc : common_regs_written (snd (common_regs_stage x)) = true
               /\ xfers (client (snd (common_regs_stage x)))
                  = xfers (client x)
                    ++ (if common_regs_written x then []
                        else program_msgs mode_common_regs
                             ++ program_msgs (regs (extra_regs (compatible_data x))))).
  { destruct (common_regs_written x) eqn:Hflag.
    - unfold common_regs_stage. rewrite Hflag. cbn [snd].
      rewrite app_nil_r. split; [exact Hflag | reflexivity].
    - destruct (common_regs_stage_trace x Hflag) as (k & Hk & Hx & Hcase).
      cbv zeta in *.
      destruct Hcase as [(_ & Hkl & Hf) | (Hne & _)]; [| contradiction].
      split; [exact Hf |].
      rewrite Hx, Hkl, firstn_all. unfold program_msgs. rewrite map_app.
      reflexivity. }
  destruct Hc as [Hf Hxc]. split.
  - apply (q_common _ _ (quiet_mode_stage _ _)). exact Hf.
  - exists R. split; [exact HlR |].
    rewrite HR, Hxc, <- !app_assoc. reflexivity.
Qed.

(** ** What the calls into the driver leave alone *)

Lemma snd_modify f x : snd (modify f x) = f x.
Proof. reflexivity. Qed.

Lemma snd_unlock x : snd (mutex_unlock x) = set_mutex false x.
Proof. reflexivity. Qed.

Lemma snd_pure {A} (a : A) x : snd (pure a x) = x.
Proof. reflexivity. Qed.

Lemma keeps_refl x : keeps_flips x x.
Proof. constructor; auto. Qed.

Lemma keeps_trans x y z : keeps_flips x y -> keeps_flips y z -> keeps_flips x z.
Proof.
  intros [a1 b1 c1 d1] [a2 b2 c2 d2]. constructor; try congruence. auto.
Qed.

Lemma quiet_keeps x x' : quiet x x' -> keeps_flips x x'.
Proof.
  intros Hq. constructor.
  - apply (q_common _ _ Hq).
  - apply (q_ctrl _ _ Hq). discriminate.
  - apply (q_ctrl _ _ Hq). discriminate.
  - apply (q_mutex _ _ Hq).
Qed.

Lemma keeps_set_ctrl_of id c x :
  id <> V4L2_CID_HFLIP -> id <> V4L2_CID_VFLIP ->
  keeps_flips x (set_ctrl_of id c x).
Proof.
  intros Hh Hv. constructor; auto; unfold hflip, vflip; cbn; unfold handler_update;
    destruct (v4l2_cid_eq_dec id _); congruence.
Qed.

Lemma keeps_modify_range id mn mx st df x :
  id <> V4L2_CID_HFLIP -> id <> V4L2_CID_VFLIP ->
  keeps_flips x (snd (__v4l2_ctrl_modify_range id mn mx st df x)).
Proof.
  intros Hh Hv. unfold __v4l2_ctrl_modify_range, modify. cbn [snd].
  apply keeps_set_ctrl_of; assumption.
Qed.

(** The three ways [__v4l2_ctrl_s_ctrl] can end. *)
Lemma s_ctrl_cases id v x :
  (__v4l2_ctrl_s_ctrl id v x = (- EBUSY, x)
   /\ grabbed (ctrl_handler x id) = true)
  \/ (__v4l2_ctrl_s_ctrl id v x = (- EINVAL, x)
      /\ grabbed (ctrl_handler x id) = false)
  \/ (grabbed (ctrl_handler x id) = false /\
      quiet (set_ctrl_of id (with_val v (ctrl_handler x id)) x)
            (snd (__v4l2_ctrl_s_ctrl id v x))).
Proof.
  unfold __v4l2_ctrl_s_ctrl. rewrite bind_run.
  change (fst (get x)) with x. change (snd (get x)) with x. cbv zeta.
  destruct (grabbed (ctrl_handler x id)) eqn:Hg.
  - left. split; reflexivity.
  - right.
    destruct ((v <? minimum (ctrl_handler x id))
              || (maximum (ctrl_handler x id) <? v)).
    + left. split; reflexivity.
    + right. split; [reflexivity |].
      rewrite bind_run, snd_modify.
      destruct (has_ops id).
      * apply quiet_set_ctrl.
      * apply quiet_refl.
Qed.

Lemma mono_s_ctrl id v x :
  common_regs_written x = true ->
  common_regs_written (snd (__v4l2_ctrl_s_ctrl id v x)) = true.
Proof.
  intros H.
  destruct (s_ctrl_cases id v x) as [(-> & _) | [(-> & _) | (_ & Hq)]];
    try exact H.
  apply (q_common _ _ Hq). exact H.
Qed.

Lemma keeps_s_ctrl id v x :
  (id <> V4L2_CID_HFLIP /\ id <> V4L2_CID_VFLIP)
  \/ grabbed (ctrl_handler x id) = true ->
  keeps_flips x (snd (__v4l2_ctrl_s_ctrl id v x)).
Proof.
  intros Hid.
  destruct (s_ctrl_cases id v x) as [(-> & _) | [(-> & _) | (Hg & Hq)]];
    try apply keeps_refl.
  destruct Hid as [(Hh & Hv) | Hgr]; [| congruence].
  apply (keeps_trans _ (set_ctrl_of id (with_val v (ctrl_handler x id)) x));
    [apply keeps_set_ctrl_of; assumption |].
  apply quiet_keeps. exact Hq.
Qed.

Lemma keeps_bind {A B} (m : M A) (k : A -> M B) x :
  keeps_flips x (snd (m x)) ->
  (forall a y, keeps_flips y (snd (k a y))) ->
  keeps_flips x (snd (bind m k x)).
Proof.
  intros Hm Hk. rewrite bind_run.
  eapply keeps_trans; [exact Hm | apply Hk].
Qed.

Lemma keeps_set_framing_limits x :
  keeps_flips x (snd (imx477_set_framing_limits x)).
Proof.
  unfold imx477_set_framing_limits.
  apply keeps_bind; [apply keeps_refl |]. intros x0 y0. cbv zeta.
  apply keeps_bind.
  { rewrite snd_modify. apply quiet_keeps, quiet_set_long_exp_shift. }
  intros _ y1.
  apply keeps_bind; [apply keeps_modify_range; discriminate |]. intros _ y2.
  apply keeps_bind; [apply keeps_s_ctrl; left; split; discriminate |].
  intros _ y3.
  apply keeps_bind; [apply keeps_modify_range; discriminate |]. intros _ y4.
  apply keeps_bind; [apply keeps_s_ctrl; left; split; discriminate |].
  intros _ y5.
  apply keeps_bind; [apply keeps_s_ctrl; left; split; discriminate |].
  intros _ y6. apply keeps_refl.
Qed.

Lemma keeps_setter (p : imx477 -> imx477) x :
  common_regs_written (p x) = common_regs_written x ->
  ctrl_handler (p x) = ctrl_handler x ->
  mutex (p x) = mutex x ->
  keeps_flips x (p x).
Proof.
  intros Hc Hh Hm. constructor; unfold hflip, vflip; try congruence.
Qed.

Lemma held_unlock x y :
  keeps_flips (set_mutex true x) y -> held_after x (set_mutex false y).
Proof.
  intros [a b c d]. constructor; auto.
Qed.

Lemma set_fmt_held api which try_fmt format x :
  held_after x (snd (imx477_set_fmt api which try_fmt format x)).
Proof.
  unfold imx477_set_fmt. rewrite bind_run. cbv beta.
  change (snd (mutex_lock x)) with (set_mutex true x).
  rewrite bind_run.
  change (fst (get (set_mutex true x))) with (set_mutex true x).
  change (snd (get (set_mutex true x))) with (set_mutex true x). cbv zeta.
  destruct which.
  - destruct api; apply held_unlock, keeps_refl.
  - rewrite bind_run. cbv beta. rewrite bind_run. cbv beta.
    rewrite snd_pure, snd_unlock.
    apply held_unlock.
    destruct (negb (cur_mode (set_mutex true x) =? _)).
    + rewrite bind_run, snd_modify.
      eapply keeps_trans; [| apply keeps_set_framing_limits].
      apply keeps_setter; reflexivity.
    + apply keeps_refl.
Qed.

Lemma v4l2_ctrl_s_ctrl_run id v x :
  v4l2_ctrl_s_ctrl id v x =
  (fst (__v4l2_ctrl_s_ctrl id v (set_mutex true x)),
   set_mutex false (snd (__v4l2_ctrl_s_ctrl id v (set_mutex true x)))).
Proof.
  unfold v4l2_ctrl_s_ctrl. rewrite bind_run. cbv beta.
  change (snd (mutex_lock x)) with (set_mutex true x).
  rewrite bind_run.
  destruct (__v4l2_ctrl_s_ctrl id v (set_mutex true x)) as [r y].
  reflexivity.
Qed.

(** A grabbed control cannot be set: the framework answers [-EBUSY] and
    nothing changes. *)
Lemma grabbed_ctrl_rejected id v x :
  mutex x = false ->
  grabbed (ctrl_handler x id) = true ->
  v4l2_ctrl_s_ctrl id v x = (- EBUSY, x).
Proof.
  intros Hm Hg. rewrite v4l2_ctrl_s_ctrl_run.
  destruct (s_ctrl_cases id v (set_mutex true x))
    as [(E & _) | [(_ & Hn) | (Hn & _)]].
  - rewrite E. cbn [fst snd].
    change (set_mutex false (set_mutex true x)) with (set_mutex false x).
    rewrite set_mutex_idle by exact Hm. reflexivity.
  - change (ctrl_handler (set_mutex true x) id) with (ctrl_handler x id) in Hn.
    congruence.
  - change (ctrl_handler (set_mutex true x) id) with (ctrl_handler x id) in Hn.
    congruence.
Qed.

(** ** Streaming and the flip controls *)

Lemma stream_done_state enable y :
  hflip (stream_done enable y) = with_grabbed (truth enable) (hflip y) /\
  vflip (stream_done enable y) = with_grabbed (truth enable) (vflip y) /\
  mutex (stream_done enable y) = false /\
  streaming (stream_done enable y) = truth enable /\
  common_regs_written (stream_done enable y) = common_regs_written y /\
  client (stream_done enable y) = client y /\
  power_on (stream_done enable y) = power_on y.
Proof. repeat split. Qed.

Lemma roused_keeps x x' : roused x x' -> keeps_flips x x'.
Proof.
  intros Hw. constructor.
  - apply (w_common _ _ Hw).
  - apply (w_ctrl _ _ Hw). discriminate.
  - apply (w_ctrl _ _ Hw). discriminate.
  - apply (w_mutex _ _ Hw).
Qed.

(** The states [imx477_s_stream] can end in. *)
Lemma s_stream_cases enable x :
  let x' := snd (imx477_s_stream enable x) in
  x' = set_mutex false x
  \/ (exists y, roused (set_mutex true x) y /\ x' = set_mutex false y)
  \/ (exists y, roused (set_mutex true x) y /\ x' = stream_done enable y /\
                of_bool (streaming x) <> enable /\
                (enable <> 0 -> fst (imx477_s_stream enable x) = 0)).
Proof.
  cbv zeta.
  destruct (Z.eq_dec (of_bool (streaming x)) enable) as [E | Hne].
  - left. rewrite s_stream_same by exact E. reflexivity.
  - destruct (Z.eq_dec enable 0) as [-> | He].
    + assert (Hs : streaming x = true).
      { destruct (streaming x); [reflexivity | contradiction Hne; reflexivity]. }
      right. right. rewrite s_stream_stop by exact Hs. cbn [fst snd].
      eexists. split; [| split; [reflexivity | split; [exact Hne | intros C; contradiction]]].
      apply quiet_roused.
      eapply quiet_trans; [| apply quiet_pm_put].
      unfold __imx477_stop_streaming. rewrite bind_run, snd_pure.
      apply quiet_write_reg.
    + rewrite s_stream_start by assumption. cbv zeta.
      pose proof (roused_get_sync (set_mutex true x)) as Hg.
      destruct (fst (pm_runtime_get_sync (set_mutex true x)) <? 0).
      * right. left. cbn [snd]. eexists. split; [| reflexivity].
        eapply roused_trans; [exact Hg | apply quiet_roused, quiet_pm_put].
      * pose proof (quiet_start_streaming
                      (snd (pm_runtime_get_sync (set_mutex true x)))) as Hq.
        destruct (truth (fst (__imx477_start_streaming _))) eqn:Et; cbn [fst snd].
        -- right. left. eexists. split; [| reflexivity].
           eapply roused_trans; [exact Hg |].
           apply quiet_roused.
           eapply quiet_trans; [exact Hq | apply quiet_pm_put].
        -- right. right. eexists.
           split; [eapply roused_trans; [exact Hg | apply quiet_roused; exact Hq] |].
           split; [reflexivity |]. split; [exact Hne |].
           intros _. apply truth_false. exact Et.
Qed.

Lemma s_power_cases on x :
  exists y, roused (set_mutex true x) y /\
            (snd (imx477_s_power on x) = set_mutex false y
             \/ exists b, snd (imx477_s_power on x)
                          = set_mutex false (set_power_on b y)).
Proof.
  unfold imx477_s_power. rewrite bind_run. cbv beta.
  change (snd (mutex_lock x)) with (set_mutex true x).
  rewrite bind_run.
  change (fst (get (set_mutex true x))) with (set_mutex true x).
  change (snd (get (set_mutex true x))) with (set_mutex true x).
  destruct (Bool.eqb _ _).
  - exists (set_mutex true x). split; [apply roused_refl |]. left. reflexivity.
  - destruct (truth on).
    + rewrite bind_run.
      pose proof (roused_get_sync (set_mutex true x)) as Hg.
      destruct (fst (pm_runtime_get_sync (set_mutex true x)) <? 0).
      * eexists. split; [| left; reflexivity].
        eapply roused_trans; [exact Hg | apply quiet_roused, quiet_pm_put].
      * eexists. split; [exact Hg |]. right. exists true. reflexivity.
    + eexists. split; [apply quiet_roused, quiet_pm_put |]. right. exists false.
      reflexivity.
Qed.

Lemma locked_of_keeps h v x y :
  flips_locked h v x -> keeps_flips x y -> flips_locked h v y.
Proof.
  intros (a & b & c & d & e) [_ kh kv km].
  unfold flips_locked. rewrite kh, kv, km. auto.
Qed.

Lemma locked_of_held h v x y :
  flips_locked h v x -> held_after x y -> flips_locked h v y.
Proof.
  intros (a & b & c & d & e) [_ kh kv km].
  unfold flips_locked. rewrite kh, kv, km. auto.
Qed.

Lemma call_keeps_locked api c x h v :
  c <> SStream 0 ->
  flips_locked h v x ->
  flips_locked h v (snd (run_call api c x)).
Proof.
  intros Hc Hl. destruct c as [id w | which tf f | enable | on | |]; cbn [run_call].
  - rewrite v4l2_ctrl_s_ctrl_run. cbn [snd].
    apply (locked_of_held h v x); [exact Hl |].
    apply held_unlock. apply keeps_s_ctrl.
    destruct Hl as (gh & gv & _).
    destruct (v4l2_cid_eq_dec id V4L2_CID_HFLIP) as [-> | Nh]; [right; exact gh |].
    destruct (v4l2_cid_eq_dec id V4L2_CID_VFLIP) as [-> | Nv]; [right; exact gv |].
    left. split; assumption.
  - rewrite bind_run, snd_pure.
    apply (locked_of_held h v x); [exact Hl |]. apply set_fmt_held.
  - assert (He : enable <> 0) by (intros ->; apply Hc; reflexivity).
    destruct (s_stream_cases enable x) as [E | [(y & Hq & E) | (y & Hq & E & _)]];
      cbv zeta in E; rewrite E.
    + destruct Hl as (gh & gv & vh & vv & m). repeat split; assumption.
    + apply (locked_of_held h v x); [exact Hl |].
      apply held_unlock, roused_keeps. exact Hq.
    + destruct (stream_done_state enable y) as (Sh & Sv & Sm & _).
      destruct (roused_keeps _ _ Hq) as [_ kh kv _].
      destruct Hl as (gh & gv & vh & vv & _).
      unfold flips_locked. rewrite Sh, Sv, Sm, kh, kv.
      change (hflip (set_mutex true x)) with (hflip x).
      change (vflip (set_mutex true x)) with (vflip x).
      rewrite (truth_nonzero enable He). cbn [with_grabbed grabbed val]. auto.
  - destruct (s_power_cases on x) as (y & Hq & [E | (b & E)]); rewrite E.
    + apply (locked_of_held h v x); [exact Hl |].
      apply held_unlock, roused_keeps. exact Hq.
    + apply (locked_of_held h v x); [exact Hl |].
      apply (held_unlock x (set_power_on b y)).
      eapply keeps_trans; [apply roused_keeps; exact Hq |].
      apply keeps_setter; reflexivity.
  - destruct Hl as (gh & gv & vh & vv & m). repeat split; assumption.
  - apply (locked_of_keeps h v x); [exact Hl |].
    apply roused_keeps, roused_resume.
Qed.

Lemma call_keeps_common api c x :
  c <> Suspend ->
  common_regs_written x = true ->
  common_regs_written (snd (run_call api c x)) = true.
Proof.
  intros Hc Hf. destruct c as [id w | which tf f | enable | on | |]; cbn [run_call].
  - rewrite v4l2_ctrl_s_ctrl_run. cbn [snd].
    change (common_regs_written (set_mutex false ?y)) with (common_regs_written y).
    apply mono_s_ctrl. exact Hf.
  - rewrite bind_run, snd_pure.
    apply (h_common _ _ (set_fmt_held api which tf f x)). exact Hf.
  - destruct (s_stream_cases enable x) as [E | [(y & Hq & E) | (y & Hq & E & _)]];
      cbv zeta in E; rewrite E.
    + exact Hf.
    + apply (w_common _ _ Hq). exact Hf.
    + apply (w_common _ _ Hq). exact Hf.
  - destruct (s_power_cases on x) as (y & Hq & [E | (b & E)]); rewrite E;
      apply (w_common _ _ Hq); exact Hf.
  - contradiction Hc. reflexivity.
  - apply (w_common _ _ (roused_resume x)). exact Hf.
Qed.

Lemma calls_keep_locked api cs :
  forall x h v,
    (forall c, In c cs -> c <> SStream 0) ->
    flips_locked h v x ->
    flips_locked h v (run_calls api cs x).
Proof.
  induction cs as [| c cs IH]; intros x h v Hcs Hl; cbn [run_calls].
  - exact Hl.
  - apply IH.
    + intros c' H'. apply Hcs. right. exact H'.
    + apply call_keeps_locked; [apply Hcs; left; reflexivity | exact Hl].
Qed.

(** ** The streaming state machine *)

Lemma start_success_state x :
  streaming x = false ->
  fst (start_streaming x) = 0 ->
  let g := snd (pm_runtime_get_sync (set_mutex true x)) in
  fst (__imx477_start_streaming g) = 0 /\
  snd (start_streaming x) = stream_done 1 (snd (__imx477_start_streaming g)) /\
  exists r p, g = set_rails r (set_pm p (set_mutex true x)).
Proof.
  intros Hs. unfold start_streaming.
  rewrite s_stream_start; [| rewrite Hs; discriminate | discriminate].
  cbv zeta.
  destruct (Z.ltb_spec (fst (pm_runtime_get_sync (set_mutex true x))) 0) as [Hn | Hp];
    cbn [fst snd].
  - intros E. lia.
  - destruct (get_sync_ok (set_mutex true x) Hp) as (r & p & Eg & _).
    destruct (truth (fst (__imx477_start_streaming _))) eqn:Et; cbn [fst snd].
    + intros E. apply truth_true in Et. contradiction.
    + intros E. split; [exact E |]. split; [reflexivity |].
      exists r, p. exact Eg.
Qed.

Lemma reliable_ok (f : M Z) x :
  io_ok f -> reliable (client x) -> fst (f x) = 0.
Proof.
  intros Hf Hrel.
  destruct (Hf x) as (_ & T & _ & [(E & _) | (_ & T0 & m & _ & _ & Hrej)]);
    [exact E |].
  rewrite Hrel in Hrej. discriminate Hrej.
Qed.

Lemma reliable_quiet x y : quiet x y -> reliable (client x) -> reliable (client y).
Proof. intros Hq Hr n m. rewrite (q_adapter _ _ Hq). apply Hr. Qed.

Lemma catalog_regs_nonempty i : regs (reg_list (mode_at i)) <> [].
Proof.
  destruct (mode_at_cases i) as [-> | [-> | ->]]; discriminate.
Qed.

(** C6. On an idle device (mutex free), [start_streaming] while
    streaming and [stop_streaming] while not streaming return 0 and
    leave the whole device state, bus history included, as it was.  So
    when a first [start_streaming] succeeds the device is streaming, a
    second call is such a no-op, and after both calls the bus has seen
    the common program (if it was pending), the mode program, the 13
    replayed control writes and the mode-select write exactly once. *)
Theorem s_stream_redundant_noop :
  (forall x : imx477,
      mutex x = false -> streaming x = true -> start_streaming x = (0, x)) /\
  (forall x : imx477,
      mutex x = false -> streaming x = false -> stop_streaming x = (0, x)) /\
  (forall x : imx477,
      mutex x = false -> streaming x = false ->
      fst (start_streaming x) = 0 ->
      let x1 := snd (start_streaming x) in
      streaming x1 = true /\
      start_streaming x1 = (0, x1) /\
      exists R,
        length R = 13%nat /\
        xfers (client (snd (start_streaming x1)))
        = xfers (client x)
          ++ (if common_regs_written x then []
              else program_msgs mode_common_regs
                   ++ program_msgs (regs (extra_regs (compatible_data x))))
          ++ program_msgs (regs (reg_list (mode_at (cur_mode x))))
          ++ R
          ++ [write_reg_msg IMX477_REG_MODE_SELECT IMX477_REG_VALUE_08BIT
                            IMX477_MODE_STREAMING]).
Proof.
  assert (Hon : forall x, mutex x = false -> streaming x = true ->
                          start_streaming x = (0, x)).
  { intros x Hm Hs. unfold start_streaming.
    rewrite s_stream_same by (rewrite Hs; reflexivity).
    rewrite set_mutex_idle by exact Hm. reflexivity. }
  split; [exact Hon |]. split.
  - intros x Hm Hs. unfold stop_streaming.
    rewrite s_stream_same by (rewrite Hs; reflexivity).
    rewrite set_mutex_idle by exact Hm. reflexivity.
  - intros x Hm Hs H0. cbv zeta.
    destruct (start_success_state x Hs H0) as (Hr & Hx1 & rl & p & Eg).
    cbv zeta in Hr, Hx1.
    set (g := snd (pm_runtime_get_sync (set_mutex true x))) in *.
    clearbody g. subst g.
    set (g := set_rails rl (set_pm p (set_mutex true x))) in *.
    destruct (stream_done_state 1 (snd (__imx477_start_streaming g)))
      as (_ & _ & Sm & Ss & _ & Sc & _).
    assert (Hs1 : streaming (snd (start_streaming x)) = true)
      by (rewrite Hx1, Ss; reflexivity).
    assert (Hm1 : mutex (snd (start_streaming x)) = false)
      by (rewrite Hx1; exact Sm).
    split; [exact Hs1 |]. split; [apply Hon; assumption |].
    rewrite (Hon _ Hm1 Hs1). cbn [snd].
    destruct (start_streaming_success g Hr) as (_ & R & HlR & HR).
    exists R. split; [exact HlR |].
    rewrite Hx1, Sc, HR. reflexivity.
Qed.

(** A freshly probed device on a bus that takes every message. *)
Lemma s_stream_redundant_noop_witness :
  (mutex (probed ack_all) = false /\ streaming (probed ack_all) = false /\
   fst (start_streaming (probed ack_all)) = 0) /\
  start_streaming (snd (start_streaming (probed ack_all)))
  = (0, snd (start_streaming (probed ack_all))).
Proof.
  assert (H1 : mutex (probed ack_all) = false) by reflexivity.
  assert (H2 : streaming (probed ack_all) = false) by reflexivity.
  assert (H3 : fst (start_streaming (probed ack_all)) = 0)
    by (vm_compute; reflexivity).
  split; [repeat split; assumption |].
  pose proof (proj2 (proj2 s_stream_redundant_noop) (probed ack_all) H1 H2 H3) as H.
  cbv zeta in H. exact (proj1 (proj2 H)).
Defined.

(** C7. [__imx477_power_off] clears [common_regs_written] whatever the
    state, and no call into the driver other than the suspend callback
    (which is that power-off) clears it.  [__imx477_start_streaming]
    with the flag clear begins with the common program followed by the
    variant's extra registers, and the flag is set exactly when all of
    them were written; with the flag set it begins with the mode program
    and the flag stays set.  Hence on a reliable bus, where
    [pm_runtime_get_sync] does not answer an error, stopping and
    restarting a streaming device whose common registers are written
    puts on the bus the standby write, the mode program, the 13 replayed
    control writes and the streaming write, and no common program. *)
Theorem common_regs_written_lifecycle :
  (forall x : imx477,
      common_regs_written (snd (__imx477_power_off x)) = false) /\
  (forall (api : bool) (c : call) (x : imx477),
      c <> Suspend ->
      common_regs_written x = true ->
      common_regs_written (snd (run_call api c x)) = true) /\
  (forall x : imx477,
      common_regs_written x = false ->
      let x' := snd (__imx477_start_streaming x) in
      let program := mode_common_regs ++ regs (extra_regs (compatible_data x)) in
      exists k R,
        (1 <= k <= length program)%nat /\
        xfers (client x')
        = xfers (client x) ++ program_msgs (firstn k program) ++ R /\
        ((common_regs_written x' = true /\ k = length program)
         \/ (common_regs_written x' = false /\ R = [] /\
             fst (__imx477_start_streaming x) <> 0))) /\
  (forall x : imx477,
      common_regs_written x = true ->
      let x' := snd (__imx477_start_streaming x) in
      let program := regs (reg_list (mode_at (cur_mode x))) in
      common_regs_written x' = true /\
      exists k R,
        (1 <= k <= length program)%nat /\
        xfers (client x')
        = xfers (client x) ++ program_msgs (firstn k program) ++ R /\
        ((k < length program)%nat ->
         R = [] /\ fst (__imx477_start_streaming x) <> 0)) /\
  (forall x : imx477,
      reliable (client x) ->
      mutex x = false ->
      streaming x = true ->
      common_regs_written x = true ->
      0 <= fst (pm_runtime_get_sync x) ->
      let x1 := snd (stop_streaming x) in
      let x2 := snd (start_streaming x1) in
      fst (stop_streaming x) = 0 /\
      streaming x1 = false /\
      fst (start_streaming x1) = 0 /\
      streaming x2 = true /\
      exists R,
        length R = 13%nat /\
        xfers (client x2)
        = xfers (client x)
          ++ [write_reg_msg IMX477_REG_MODE_SELECT IMX477_REG_VALUE_08BIT
                            IMX477_MODE_STANDBY]
          ++ program_msgs (regs (reg_list (mode_at (cur_mode x))))
          ++ R
          ++ [write_reg_msg IMX477_REG_MODE_SELECT IMX477_REG_VALUE_08BIT
                            IMX477_MODE_STREAMING]).
Proof.
  split; [intros x; reflexivity |].
  split; [intros api c x; apply call_keeps_common |].
  split; [| split].
  - (* flag clear *)
    intros x Hflag. cbv zeta. rewrite start_streaming_stages. cbv zeta.
    destruct (common_regs_stage_trace x Hflag) as (k & Hk & Hx & Hcase).
    cbv zeta in Hk, Hx, Hcase.
    destruct Hcase as [(Hc0 & Hkl & Hf) | (Hne & Hf)].
    + rewrite Hc0, truth_0.
      pose proof (quiet_mode_stage (mode_at (cur_mode x))
                                   (snd (common_regs_stage x))) as Hq.
      destruct (q_xfers _ _ Hq) as (R & HR).
      exists k, R. split; [exact Hk |]. split.
      * rewrite HR, Hx, <- app_assoc. reflexivity.
      * left. split; [apply (q_common _ _ Hq); exact Hf | exact Hkl].
    + rewrite (truth_nonzero _ Hne).
      exists k, []. rewrite app_nil_r. split; [exact Hk |].
      split; [exact Hx |]. right. split; [exact Hf |].
      split; [reflexivity | exact Hne].
  - (* flag set *)
    intros x Hflag. cbv zeta. rewrite start_streaming_stages. cbv zeta.
    unfold common_regs_stage. rewrite Hflag. cbn [fst snd]. rewrite truth_0.
    split.
    + apply (q_common _ _ (quiet_mode_stage _ _)). exact Hflag.
    + apply mode_stage_trace. apply catalog_regs_nonempty.
  - (* stop, then start, on a reliable bus *)
    intros x Hrel Hm Hs Hflag Hpm. cbv zeta.
    set (m := write_reg_msg IMX477_REG_MODE_SELECT IMX477_REG_VALUE_08BIT
                            IMX477_MODE_STANDBY).
    assert (Hstop : stop_streaming x
                    = (0, stream_done 0 (snd (pm_runtime_put
                                                (push m (set_mutex true x)))))).
    { unfold stop_streaming. rewrite s_stream_stop by exact Hs.
      unfold __imx477_stop_streaming. rewrite bind_run, snd_pure.
      rewrite write_reg_run by (cbv; discriminate). reflexivity. }
    rewrite Hstop. cbn [fst snd].
    set (x1 := stream_done 0 (snd (pm_runtime_put (push m (set_mutex true x))))).
    assert (Hs1 : streaming x1 = false) by reflexivity.
    split; [reflexivity |]. split; [exact Hs1 |].
    assert (Hg : 0 <= fst (pm_runtime_get_sync (set_mutex true x1))).
    { rewrite (get_sync_answer (set_mutex true x1) x); try reflexivity.
      exact Hpm. }
    destruct (get_sync_ok (set_mutex true x1) Hg) as (rl & p & Eg & _).
    set (y := set_rails rl (set_pm p (set_mutex true x1))) in *.
    assert (Hrely : reliable (client y)).
    { intros n msg. change (adapter (client y)) with (adapter (client x)).
      apply Hrel. }
    pose proof (reliable_ok __imx477_start_streaming y
                            io_start_streaming Hrely) as Hr.
    assert (Hstart : start_streaming x1
                     = (0, stream_done 1 (snd (__imx477_start_streaming y)))).
    { unfold start_streaming.
      rewrite s_stream_start; [| rewrite Hs1; discriminate | discriminate].
      cbv zeta.
      destruct (Z.ltb_spec (fst (pm_runtime_get_sync (set_mutex true x1))) 0)
        as [Hneg | _]; [lia |].
      rewrite Eg, Hr, truth_0. reflexivity. }
    rewrite Hstart. cbn [fst snd].
    split; [reflexivity |]. split; [reflexivity |].
    destruct (start_streaming_success y Hr) as (_ & R & HlR & HR).
    exists R. split; [exact HlR |].
    change (client (stream_done 1 (snd (__imx477_start_streaming y))))
      with (client (snd (__imx477_start_streaming y))).
    rewrite HR.
    change (common_regs_written y) with (common_regs_written x).
    rewrite Hflag.
    change (cur_mode y) with (cur_mode x).
    change (xfers (client y)) with (xfers (client x) ++ [m]).
    rewrite <- !app_assoc. reflexivity.
Qed.

(** A freshly probed device that has been started once. *)
Lemma common_regs_written_lifecycle_witness :
  let x := snd (start_streaming (probed ack_all)) in
  (reliable (client x) /\ mutex x = false /\ streaming x = true /\
   common_regs_written x = true /\
   0 <= fst (pm_runtime_get_sync x) /\
   Resume <> Suspend) /\
  fst (start_streaming (snd (stop_streaming x))) = 0 /\
  common_regs_written (snd (run_call true Resume x)) = true.
Proof.
  cbv zeta.
  set (x := snd (start_streaming (probed ack_all))).
  assert (H1 : reliable (client x)).
  { intros n m. change (adapter (client x)) with ack_all.
    destruct m; cbn; [apply Z.eqb_refl | reflexivity]. }
  assert (H2 : mutex x = false) by reflexivity.
  assert (H3 : streaming x = true) by (vm_compute; reflexivity).
  assert (H4 : common_regs_written x = true) by (vm_compute; reflexivity).
  assert (H5 : 0 <= fst (pm_runtime_get_sync x))
    by (vm_compute; discriminate).
  assert (H6 : Resume <> Suspend) by discriminate.
  split; [repeat split; assumption |].
  split.
  - pose proof (proj2 (proj2 (proj2 (proj2 common_regs_written_lifecycle)))
                  x H1 H2 H3 H4 H5) as H.
    cbv zeta in H. exact (proj1 (proj2 (proj2 H))).
  - exact (proj1 (proj2 common_regs_written_lifecycle) true Resume x H6 H4).
Defined.

(** C10. Once [start_streaming] has succeeded, HFLIP and VFLIP are
    grabbed with the values they had.  Whatever calls follow, short of
    [stop_streaming], both stay grabbed with those values, and an attempt
    to set either through the control framework is answered [-EBUSY]
    with the device state unchanged.  [stop_streaming] on a streaming
    device releases both grabs and leaves the values as they are. *)
Theorem flips_grabbed_while_streaming :
  forall (api : bool) (x : imx477),
    streaming x = false ->
    fst (start_streaming x) = 0 ->
    let x1 := snd (start_streaming x) in
    (forall cs : list call,
        (forall c, In c cs -> c <> SStream 0) ->
        let x2 := run_calls api cs x1 in
        grabbed (hflip x2) = true /\
        grabbed (vflip x2) = true /\
        val (hflip x2) = val (hflip x) /\
        val (vflip x2) = val (vflip x) /\
        forall v : Z,
          v4l2_ctrl_s_ctrl V4L2_CID_HFLIP v x2 = (- EBUSY, x2) /\
          v4l2_ctrl_s_ctrl V4L2_CID_VFLIP v x2 = (- EBUSY, x2)) /\
    (forall x2 : imx477,
        streaming x2 = true ->
        let x3 := snd (stop_streaming x2) in
        streaming x3 = false /\
        grabbed (hflip x3) = false /\
        grabbed (vflip x3) = false /\
        val (hflip x3) = val (hflip x2) /\
        val (vflip x3) = val (vflip x2)).
Proof.
  intros api x Hs H0. cbv zeta.
  destruct (start_success_state x Hs H0) as (Hr & Hx1 & rl & p & Eg).
  cbv zeta in Hr, Hx1.
  set (g := snd (pm_runtime_get_sync (set_mutex true x))) in *.
  clearbody g. subst g.
  set (g := set_rails rl (set_pm p (set_mutex true x))) in *.
  assert (Hl1 : flips_locked (val (hflip x)) (val (vflip x))
                             (snd (start_streaming x))).
  { rewrite Hx1.
    destruct (stream_done_state 1 (snd (__imx477_start_streaming g)))
      as (Sh & Sv & Sm & _).
    pose proof (quiet_keeps _ _ (quiet_start_streaming g)) as [_ kh kv _].
    unfold flips_locked. rewrite Sh, Sv, Sm, kh, kv.
    repeat split. }
  split.
  - intros cs Hcs. cbv zeta.
    destruct (calls_keep_locked api cs _ _ _ Hcs Hl1) as (gh & gv & vh & vv & m).
    split; [exact gh |]. split; [exact gv |].
    split; [exact vh |]. split; [exact vv |].
    intros v. split; apply grabbed_ctrl_rejected; assumption.
  - intros x2 Hs2. cbv zeta. unfold stop_streaming.
    rewrite s_stream_stop by exact Hs2. cbn [snd].
    set (y := snd (pm_runtime_put
                     (snd (__imx477_stop_streaming (set_mutex true x2))))).
    assert (Hq : quiet (set_mutex true x2) y).
    { unfold y. eapply quiet_trans; [| apply quiet_pm_put].
      unfold __imx477_stop_streaming. rewrite bind_run, snd_pure.
      apply quiet_write_reg. }
    destruct (stream_done_state 0 y) as (Sh & Sv & _ & Ss & _).
    pose proof (quiet_keeps _ _ Hq) as [_ kh kv _].
    rewrite Sh, Sv, Ss, kh, kv. repeat split.
Qed.

(** A freshly probed device on a bus that takes every message, with one
    HBLANK change made while it streams. *)
Lemma flips_grabbed_while_streaming_witness :
  let x1 := snd (start_streaming (probed ack_all)) in
  let cs := [SetCtrl V4L2_CID_HBLANK 15000] in
  (streaming (probed ack_all) = false /\
   fst (start_streaming (probed ack_all)) = 0 /\
   (forall c, In c cs -> c <> SStream 0)) /\
  v4l2_ctrl_s_ctrl V4L2_CID_HFLIP 1 (run_calls true cs x1)
  = (- EBUSY, run_calls true cs x1).
Proof.
  cbv zeta.
  assert (H1 : streaming (probed ack_all) = false) by reflexivity.
  assert (H2 : fst (start_streaming (probed ack_all)) = 0)
    by (vm_compute; reflexivity).
  assert (H3 : forall c, In c [SetCtrl V4L2_CID_HBLANK 15000] -> c <> SStream 0).
  { intros c [<- | []]. discriminate. }
  split; [repeat split; assumption |].
  pose proof (proj1 (flips_grabbed_while_streaming true (probed ack_all) H1 H2)
                [SetCtrl V4L2_CID_HBLANK 15000] H3) as H.
  cbv zeta in H.
  exact (proj1 (proj2 (proj2 (proj2 (proj2 H))) 1)).
Defined.

(** * Further properties of the driver *)

(** ** Register programs *)

Lemma write_regs_loop_outcome regs :
  forall x,
    adapter (client (snd (write_regs_loop regs x))) = adapter (client x) /\
    ((fst (write_regs_loop regs x) = 0 /\
      xfers (client (snd (write_regs_loop regs x)))
      = xfers (client x) ++ program_msgs regs /\
      all_accepted (adapter (client x)) (length (xfers (client x)))
                   (program_msgs regs) = true)
     \/
     (fst (write_regs_loop regs x) = - EIO /\
      exists k,
        (k < length regs)%nat /\
        xfers (client (snd (write_regs_loop regs x)))
        = xfers (client x) ++ program_msgs (firstn (S k) regs) /\
        all_accepted (adapter (client x)) (length (xfers (client x)))
                     (program_msgs (firstn k regs)) = true /\
        accepted (adapter (client x)) (length (xfers (client x)) + k)
                 (nth k (program_msgs regs) (I2cSend [])) = false)).
Proof.
  induction regs as [| r regs IH]; intros x; cbn [write_regs_loop].
  - split; [reflexivity |]. left. cbn. rewrite app_nil_r. repeat split.
  - rewrite bind_if_run. cbv zeta.
    rewrite write_reg_run by (cbv; discriminate). cbn [fst snd].
    set (m := write_reg_msg (address r) 1 (reg_val r)).
    unfold took. destruct (accepted _ _ m) eqn:Em.
    + rewrite truth_0.
      destruct (IH (push m x)) as (Ha & Hcase).
      change (adapter (client (push m x))) with (adapter (client x)) in *.
      change (xfers (client (push m x))) with (xfers (client x) ++ [m]) in *.
      rewrite length_app in Hcase. cbn [length] in Hcase.
      split; [exact Ha |].
      destruct Hcase as [(H0 & Hx & Hacc) | (He & k & Hk & Hx & Hacc & Hrej)].
      * left. split; [exact H0 |]. split.
        -- rewrite Hx, <- app_assoc. reflexivity.
        -- cbn [program_msgs map all_accepted]. fold m. rewrite Em.
           replace (S (length (xfers (client x))))
             with (length (xfers (client x)) + 1)%nat by lia.
           exact Hacc.
      * right. split; [exact He |]. exists (S k).
        split; [cbn [length]; lia |]. split.
        -- rewrite Hx, <- app_assoc. reflexivity.
        -- split.
           ++ cbn [firstn program_msgs map all_accepted]. fold m. rewrite Em.
              replace (S (length (xfers (client x))))
                with (length (xfers (client x)) + 1)%nat by lia.
              exact Hacc.
           ++ cbn [program_msgs map nth].
              replace (length (xfers (client x)) + S k)%nat
                with (length (xfers (client x)) + 1 + k)%nat by lia.
              exact Hrej.
    + change (truth (- EIO)) with true. cbv iota. cbn [fst snd].
      split; [reflexivity |]. right. split; [reflexivity |].
      exists O. split; [cbn [length]; lia |].
      split; [reflexivity |]. split; [reflexivity |].
      cbn [program_msgs map nth]. rewrite Nat.add_0_r. exact Em.
Qed.

(** X1. [imx477_write_regs] writes the first [len] entries of a table
    that has them, in order, and stops at the first write the adapter
    refuses: either it returns 0,
    every one of them is on the bus and was taken, or it returns [-EIO],
    the bus holds the entries up to and including the refused one (all
    before it taken) and none after it. *)
Theorem write_regs_stops_at_first_failure :
  forall (regs : list imx477_reg) (len : Z) (x : imx477),
    0 <= len <= Z.of_nat (length regs) ->
    let program := firstn (Z.to_nat len) regs in
    let r := fst (imx477_write_regs regs len x) in
    let x' := snd (imx477_write_regs regs len x) in
    let adp := adapter (client x) in
    let n := length (xfers (client x)) in
    (r = 0 /\
     xfers (client x') = xfers (client x) ++ program_msgs program /\
     all_accepted adp n (program_msgs program) = true)
    \/
    (r = - EIO /\
     exists k,
       (k < length program)%nat /\
       xfers (client x') = xfers (client x) ++ program_msgs (firstn (S k) program) /\
       all_accepted adp n (program_msgs (firstn k program)) = true /\
       accepted adp (n + k) (nth k (program_msgs program) (I2cSend [])) = false).
Proof.
  intros regs len x _. cbv zeta. unfold imx477_write_regs.
  exact (proj2 (write_regs_loop_outcome (firstn (Z.to_nat len) regs) x)).
Qed.

Lemma write_regs_stops_at_first_failure_witness :
  let len := Z.of_nat (length mode_common_regs) in
  0 <= len <= Z.of_nat (length mode_common_regs) /\
  fst (imx477_write_regs mode_common_regs len (probed (nak_at 3))) = - EIO /\
  length (xfers (client (snd (imx477_write_regs mode_common_regs len
                                                (probed (nak_at 3))))))
  = 4%nat.
Proof.
  cbv zeta. split; [vm_compute; split; discriminate |].
  destruct (write_regs_stops_at_first_failure mode_common_regs
              (Z.of_nat (length mode_common_regs)) (probed (nak_at 3))
              ltac:(vm_compute; split; discriminate))
    as [(H0 & _) | (He & _)].
  - vm_compute in H0. discriminate H0.
  - split; [exact He | vm_compute; reflexivity].
Defined.

(** ** Frame length for any request *)

(** X2. Whatever 32-bit total is requested, [imx477_set_frame_length]
    offers the frame-length register a value that does not exceed
    [IMX477_FRAME_LENGTH_MAX]: the request shifted right by the stored
    shift.  Nothing in the function bounds the shift by
    [IMX477_LONG_EXP_SHIFT_MAX]: it is at most 7 exactly for requests
    below [2^7 * (IMX477_FRAME_LENGTH_MAX + 1)], and at most 17 always. *)
Theorem set_frame_length_any_request :
  forall (x : imx477) (val : Z),
    let req := u32 val in
    let x1 := snd (imx477_set_frame_length val x) in
    let s := long_exp_shift x1 in
    0 <= s <= 17 /\
    Z.shiftr req s <= IMX477_FRAME_LENGTH_MAX /\
    (s <= IMX477_LONG_EXP_SHIFT_MAX
     <-> req < 2 ^ 7 * (IMX477_FRAME_LENGTH_MAX + 1)) /\
    exists rest,
      xfers (client x1)
      = xfers (client x)
        ++ I2cSend (put_unaligned_be16 IMX477_REG_FRAME_LENGTH
                    ++ put_unaligned_be16 (Z.shiftr req s))
           :: rest.
Proof.
  intros x val. cbv zeta.
  pose proof (u32_range val) as Hr.
  destruct (frame_length_loop_shape 32 0 (u32 val)) as (k & Hk & Heq & Hmin & Hex);
    [lia | cbn; lia |].
  rewrite Z.add_0_l in Heq.
  assert (H17 : Z.shiftr (u32 val) 17 <= IMX477_FRAME_LENGTH_MAX).
  { rewrite Z.shiftr_div_pow2 by lia. unfold IMX477_FRAME_LENGTH_MAX.
    assert (u32 val / 2 ^ 17 < 2 ^ 15) by (apply Z.div_lt_upper_bound; lia). lia. }
  assert (Hk17 : k <= 17).
  { destruct (Z_le_gt_dec k 17); [assumption |]. specialize (Hmin 17). lia. }
  assert (Hle : Z.shiftr (u32 val) k <= IMX477_FRAME_LENGTH_MAX)
    by (apply Hex; change (Z.of_nat 32) with 32; lia).
  rewrite set_frame_length_run. cbv zeta. rewrite Heq. cbn [fst snd].
  set (m1 := write_reg_msg IMX477_REG_FRAME_LENGTH IMX477_REG_VALUE_16BIT
                           (Z.shiftr (u32 val) k)).
  set (m2 := write_reg_msg IMX477_LONG_EXP_SHIFT_REG IMX477_REG_VALUE_08BIT k).
  set (x0 := set_long_exp_shift k x).
  assert (Hm1 : m1 = I2cSend (put_unaligned_be16 IMX477_REG_FRAME_LENGTH
                              ++ put_unaligned_be16 (Z.shiftr (u32 val) k)))
    by apply write_reg_msg_16.
  assert (Hshift :
    long_exp_shift
      (snd (if took m1 x0
            then (if took m2 (push m1 x0) then 0 else - EIO,
                  push m2 (push m1 x0))
            else (- EIO, push m1 x0))) = k)
    by (destruct (took m1 x0); reflexivity).
  rewrite Hshift.
  split; [lia |]. split; [exact Hle |]. split.
  - unfold IMX477_LONG_EXP_SHIFT_MAX. split.
    + intros Hk7.
      assert (H7 : Z.shiftr (u32 val) 7 <= IMX477_FRAME_LENGTH_MAX).
      { rewrite !Z.shiftr_div_pow2 in * by lia.
        etransitivity; [| exact Hle].
        apply Z.div_le_compat_l; [lia |].
        split; [apply Z.pow_pos_nonneg; lia |].
        apply Z.pow_le_mono_r; lia. }
      rewrite Z.shiftr_div_pow2 in H7 by lia.
      unfold IMX477_FRAME_LENGTH_MAX in *.
      destruct (Z_lt_ge_dec (u32 val) (2 ^ 7 * (65500 + 1))) as [Hlt | Hge];
        [exact Hlt |].
      assert (65500 + 1 <= u32 val / 2 ^ 7)
        by (apply Z.div_le_lower_bound; lia).
      lia.
    + intros Hlt.
      destruct (Z_le_gt_dec k 7) as [Hk7 | Hk8]; [exact Hk7 |].
      specialize (Hmin 7 ltac:(lia)).
      rewrite Z.shiftr_div_pow2 in Hmin by lia.
      unfold IMX477_FRAME_LENGTH_MAX in *.
      assert (u32 val / 2 ^ 7 < 65500 + 1)
        by (apply Z.div_lt_upper_bound; lia).
      lia.
  - rewrite <- Hm1. destruct (took m1 x0); cbn [snd].
    + exists [m2]. unfold push. cbn [set_client client xfers].
      rewrite <- app_assoc. reflexivity.
    + exists []. reflexivity.
Qed.

(** ** Negotiation never leaves the catalog *)

Lemma Z2Nat_nonpos (z : Z) : z <= 0 -> Z.to_nat z = O.
Proof. intros H. destruct z; try reflexivity. lia. Qed.

Lemma find_best_fit_loop_range framefmt n :
  forall i fit dist,
    let best := find_best_fit_loop n i framefmt fit dist in
    best = fit
    \/ (i <= best < i + Z.of_nat n
        /\ bus_fmt (mode_at best) = u32 (code framefmt)).
Proof.
  induction n as [| n IH]; intros i fit dist; cbv zeta;
    cbn [find_best_fit_loop]; [left; reflexivity |].
  destruct (((dist =? -1)
             || (imx477_get_reso_dist (mode_at i) framefmt <? dist))
            && (bus_fmt (mode_at i) =? u32 (code framefmt))) eqn:E.
  - apply andb_prop in E. destruct E as [_ Em]. apply Z.eqb_eq in Em.
    destruct (IH (i + 1) i (imx477_get_reso_dist (mode_at i) framefmt))
      as [-> | (Hr & Hm)].
    + right. split; [lia | exact Em].
    + right. split; [lia | exact Hm].
  - destruct (IH (i + 1) fit dist) as [-> | (Hr & Hm)].
    + left. reflexivity.
    + right. split; [lia | exact Hm].
Qed.

(** X3. Whatever is requested, the index [imx477_find_best_fit] returns
    is 0 or an index below [cfg_num] whose entry has the requested pixel
    format; it never points outside the modes it was told to look at,
    except for the fallback to the first entry. *)
Theorem find_best_fit_index_in_catalog :
  forall (x : imx477) (framefmt : v4l2_mbus_framefmt),
    cfg_num x <= Z.of_nat (length supported_modes) ->
    let best := imx477_find_best_fit x framefmt in
    best = 0
    \/ (0 < best < cfg_num x
        /\ bus_fmt (mode_at best) = u32 (code framefmt)).
Proof.
  intros x framefmt _. cbv zeta. unfold imx477_find_best_fit.
  destruct (find_best_fit_loop_range framefmt (Z.to_nat (cfg_num x)) 0 0 (-1))
    as [E | (Hr & Hm)]; cbv zeta in *.
  - left. exact E.
  - destruct (Z.eq_dec (find_best_fit_loop (Z.to_nat (cfg_num x)) 0 framefmt 0 (-1)) 0)
      as [E0 | N0]; [left; exact E0 |].
    right. split; [| exact Hm].
    destruct (Z_le_gt_dec (cfg_num x) 0) as [Hc | Hc].
    + rewrite Z2Nat_nonpos in Hr by exact Hc. cbn in Hr. lia.
    + rewrite Z2Nat.id in Hr by lia. lia.
Qed.

Lemma find_best_fit_index_in_catalog_witness :
  let framefmt := {| fmt_width := 1900; fmt_height := 1000;
                     code := MEDIA_BUS_FMT_SRGGB10_1X10 |} in
  cfg_num (probed ack_all) <= Z.of_nat (length supported_modes) /\
  0 < imx477_find_best_fit (probed ack_all) framefmt < cfg_num (probed ack_all).
Proof.
  cbv zeta. split; [vm_compute; discriminate |].
  destruct (find_best_fit_index_in_catalog (probed ack_all)
              {| fmt_width := 1900; fmt_height := 1000;
                 code := MEDIA_BUS_FMT_SRGGB10_1X10 |}
              ltac:(vm_compute; discriminate))
    as [H0 | (Hr & _)].
  - vm_compute in H0. discriminate H0.
  - exact Hr.
Defined.

(** ** Frame length for any interval *)

(** X4. Whatever frame interval is asked for, also one whose divisor
    does not fit 32 bits, [imx477_get_frame_length] answers a value
    between the mode's height and [IMX477_FRAME_LENGTH_MAX], as long as
    the divisor [do_div] sees is not zero. *)
Theorem get_frame_length_within_bounds :
  forall (mode : imx477_mode) (timeperframe : v4l2_fract),
    0 <= height mode <= IMX477_FRAME_LENGTH_MAX ->
    u32 (u64 (u64 (denominator timeperframe) * line_length_pix mode)) <> 0 ->
    height mode <= imx477_get_frame_length mode timeperframe
                <= IMX477_FRAME_LENGTH_MAX.
Proof.
  intros mode tpf Hh Hd. unfold imx477_get_frame_length, do_div.
  set (n := u64 (u64 (u64 (numerator tpf) * IMX477_PIXEL_RATE))).
  set (d := u32 (u64 (u64 (denominator tpf) * line_length_pix mode))) in *.
  assert (Hn : 0 <= n) by (unfold n, u64; apply Z.mod_pos_bound; lia).
  assert (Hd' : 0 < d) by (pose proof (u32_range (u64 (u64 (denominator tpf) * line_length_pix mode))); fold d in H; lia).
  assert (Hq : 0 <= n / d) by (apply Z.div_pos; lia).
  unfold IMX477_FRAME_LENGTH_MAX in *.
  rewrite (u32_small (height mode)) by lia.
  destruct (Z.gtb_spec (n / d) 65500).
  - rewrite u32_small by lia. lia.
  - rewrite u32_small by lia. lia.
Qed.

Lemma get_frame_length_within_bounds_witness :
  let interval := {| numerator := 100000; denominator := 300000 |} in
  2 ^ 32 <= denominator interval * line_length_pix (mode_at 0) /\
  height (mode_at 0) <= imx477_get_frame_length (mode_at 0) interval
                     <= IMX477_FRAME_LENGTH_MAX.
Proof.
  cbv zeta. split; [vm_compute; discriminate |].
  apply (get_frame_length_within_bounds (mode_at 0)
           {| numerator := 100000; denominator := 300000 |}).
  - vm_compute. split; discriminate.
  - vm_compute. discriminate.
Defined.

(** ** Register reads *)

Lemma u8_range x : 0 <= u8 x < 256.
Proof. unfold u8. apply Z.mod_pos_bound. lia. Qed.

Lemma u8_small x : 0 <= x < 256 -> u8 x = x.
Proof. intros H. unfold u8. apply Z.mod_small. exact H. Qed.

Lemma land_255 x : Z.land x 255 = x mod 256.
Proof. change 255 with (Z.ones 8). rewrite Z.land_ones by lia. reflexivity. Qed.

Lemma read_reg_msg_address reg len :
  read_reg_msg reg len = I2cTransfer (put_unaligned_be16 reg) (u32 len).
Proof.
  unfold read_reg_msg. rewrite <- (u16_reg_bytes reg).
  unfold put_unaligned_be16. rewrite !land_255. unfold u8.
  rewrite Z.mod_mod by lia. reflexivity.
Qed.

Lemma read_reg_run reg len v0 x :
  u32 len <= 4 ->
  imx477_read_reg reg len v0 x =
  let m := read_reg_msg reg len in
  let reply := adapter (client x) (length (xfers (client x))) m in
  (if fst reply =? 2
   then (0, get_unaligned_be32
              (repeat 0 (Z.to_nat (4 - u32 len)) ++ delivered len (snd reply)))
   else (- EIO, v0),
   push m x).
Proof.
  intros Hlen. unfold imx477_read_reg.
  destruct (Z.gtb_spec (u32 len) 4) as [Hgt | _]; [lia |].
  unfold bind, get, modify, pure, i2c_transfer, i2c_exchange. cbv zeta.
  fold (read_reg_msg reg len).
  destruct (adapter (client x) (length (xfers (client x))) (read_reg_msg reg len))
    as [ret rd] eqn:E.
  cbn [fst snd]. destruct (ret =? 2); reflexivity.
Qed.

Lemma lor_shiftl_add a b k :
  0 <= k -> 0 <= b < 2 ^ k -> Z.lor (Z.shiftl a k) b = a * 2 ^ k + b.
Proof.
  intros Hk Hb.
  assert (Hd : Z.land (Z.shiftl a k) b = 0).
  { apply Z.bits_inj'; intros n Hn. rewrite Z.land_spec, Z.bits_0.
    destruct (Z.ltb_spec n k).
    - rewrite Z.shiftl_spec_low by lia. reflexivity.
    - rewrite <- (Z.mod_small b (2 ^ k)) by lia.
      rewrite Z.mod_pow2_bits_high by lia. apply andb_false_r. }
  rewrite <- (Z.lxor_lor _ _ Hd), <- (Z.add_nocarry_lxor _ _ Hd).
  rewrite Z.shiftl_mul_pow2 by lia. reflexivity.
Qed.

Lemma be32_sum a b c d :
  0 <= a < 256 -> 0 <= b < 256 -> 0 <= c < 256 -> 0 <= d < 256 ->
  get_unaligned_be32 [a; b; c; d] = ((a * 256 + b) * 256 + c) * 256 + d.
Proof.
  intros Ha Hb Hc Hd. unfold get_unaligned_be32. cbn [nth].
  rewrite (lor_shiftl_add c d 8) by lia.
  rewrite (Z.shiftl_mul_pow2 b 16) by lia.
  rewrite (lor_shiftl_add a (b * 2 ^ 16) 24) by lia.
  replace (a * 2 ^ 24 + b * 2 ^ 16) with (Z.shiftl (a * 256 + b) 16)
    by (rewrite Z.shiftl_mul_pow2 by lia; lia).
  rewrite (lor_shiftl_add (a * 256 + b) (c * 2 ^ 8 + d) 16) by lia.
  lia.
Qed.

Lemma get_be32_padded bs :
  (length bs <= 4)%nat ->
  Forall (fun b => 0 <= b < 256) bs ->
  get_unaligned_be32 (repeat 0 (4 - length bs) ++ bs) = be_value bs.
Proof.
  intros Hlen Hb.
  destruct bs as [| a [| b [| c [| d [| e bs]]]]]; cbn [length] in Hlen; try lia;
    repeat match goal with
           | H : Forall _ (_ :: _) |- _ => inversion H; subst; clear H
           end;
    cbn [length Nat.sub repeat app]; rewrite be32_sum by lia;
    unfold be_value; cbn [fold_left]; lia.
Qed.

Lemma be_value_from_bound bs :
  forall acc k,
    0 <= k -> 0 <= acc < 256 ^ k ->
    Forall (fun b => 0 <= b < 256) bs ->
    0 <= fold_left (fun acc b => acc * 256 + b) bs acc
      < 256 ^ (k + Z.of_nat (length bs)).
Proof.
  induction bs as [| b bs IH]; intros acc k Hk Hacc Hb.
  - cbn. rewrite Z.add_0_r. exact Hacc.
  - inversion Hb as [| ? ? Hb0 Hbs]; subst. cbn [fold_left length].
    replace (k + Z.of_nat (S (length bs)))
      with ((k + 1) + Z.of_nat (length bs)) by lia.
    apply IH; [lia | | exact Hbs].
    rewrite Z.pow_add_r by lia. change (256 ^ 1) with 256. lia.
Qed.

Lemma Forall_firstn_bytes (P : Z -> Prop) n :
  forall l, Forall P l -> Forall P (firstn n l).
Proof.
  induction n as [| n IH]; intros l Hl; [constructor |].
  destruct Hl as [| b l Hb Hl]; cbn [firstn]; constructor; auto.
Qed.

Lemma delivered_bytes len rd :
  length (delivered len rd) = Z.to_nat (u32 len) /\
  Forall (fun b => 0 <= b < 256) (delivered len rd).
Proof.
  unfold delivered. split.
  - rewrite length_firstn, length_app, repeat_length. lia.
  - apply Forall_firstn_bytes. apply Forall_app. split.
    + apply Forall_map. apply Forall_forall. intros b _. apply u8_range.
    + apply Forall_forall. intros b Hin. apply repeat_spec in Hin. lia.
Qed.

Lemma read_reg_value len rd :
  u32 len <= 4 ->
  get_unaligned_be32 (repeat 0 (Z.to_nat (4 - u32 len)) ++ delivered len rd)
  = be_value (delivered len rd).
Proof.
  intros Hlen. pose proof (u32_range len) as Hr.
  destruct (delivered_bytes len rd) as (Hl & Hb).
  replace (Z.to_nat (4 - u32 len)) with (4 - length (delivered len rd))%nat by lia.
  apply get_be32_padded; [lia | exact Hb].
Qed.

(** X5. A register read of up to four bytes is one exchange on the bus,
    whatever its outcome.  When the adapter does not report both
    messages done the read fails with [-EIO] and the caller's value is
    left alone; otherwise the value is the number the delivered bytes
    denote, most significant byte first, so it is below [2^(8 len)]. *)
Theorem read_reg_decodes_big_endian :
  forall (reg len v0 : Z) (x : imx477),
    u32 len <= 4 ->
    let m := I2cTransfer (put_unaligned_be16 reg) (u32 len) in
    let reply := adapter (client x) (length (xfers (client x))) m in
    let r := imx477_read_reg reg len v0 x in
    snd r = push m x /\
    ((fst reply <> 2 /\ fst r = (- EIO, v0))
     \/
     (fst reply = 2 /\
      fst r = (0, be_value (delivered len (snd reply))) /\
      0 <= be_value (delivered len (snd reply)) < 2 ^ (8 * u32 len))).
Proof.
  intros reg len v0 x Hlen. cbv zeta.
  pose proof (u32_range len) as Hr.
  rewrite read_reg_run by exact Hlen. cbv zeta.
  rewrite read_reg_msg_address. cbn [fst snd].
  split; [reflexivity |].
  set (reply := adapter (client x) (length (xfers (client x)))
                        (I2cTransfer (put_unaligned_be16 reg) (u32 len))).
  destruct (delivered_bytes len (snd reply)) as (Hl & Hb).
  destruct (Z.eqb_spec (fst reply) 2) as [E | N].
  - right. split; [exact E |]. split.
    + rewrite read_reg_value by exact Hlen. reflexivity.
    + pose proof (be_value_from_bound (delivered len (snd reply)) 0 0
                    ltac:(lia) ltac:(cbn; lia) Hb) as Hv.
      fold (be_value (delivered len (snd reply))) in Hv.
      rewrite Hl, Z.add_0_l, Z2Nat.id in Hv by lia.
      replace (2 ^ (8 * u32 len)) with (256 ^ u32 len)
        by (change 256 with (2 ^ 8); rewrite <- Z.pow_mul_r by lia; reflexivity).
      exact Hv.
  - left. split; [exact N | reflexivity].
Qed.

Lemma read_reg_decodes_big_endian_witness :
  u32 2 <= 4 /\
  fst (imx477_read_reg IMX477_REG_CHIP_ID 2 7
         (probed (fun _ _ => (2, [0x04; 0x77]))))
  = (0, 0x0477).
Proof.
  split; [vm_compute; discriminate |].
  destruct (read_reg_decodes_big_endian IMX477_REG_CHIP_ID 2 7
              (probed (fun _ _ => (2, [0x04; 0x77])))
              ltac:(vm_compute; discriminate))
    as (_ & [(Hn & _) | (_ & Hv & _)]).
  - exfalso. apply Hn. reflexivity.
  - exact Hv.
Defined.

(** ** What a write puts on the wire is what a read takes off it *)

Ltac wire_arith :=
  unfold be_value; cbn [fold_left];
  rewrite ?land_255, ?Z.shiftr_div_pow2 by lia; unfold u32;
  rewrite ?Z.shiftl_mul_pow2 by lia;
  change (2 ^ 32) with 4294967296; change (2 ^ 24) with 16777216;
  change (2 ^ 16) with 65536; change (2 ^ 8) with 256; change (2 ^ 0) with 1;
  Z.to_euclidean_division_equations; lia.

Lemma byte_land x : 0 <= Z.land x 255 < 256.
Proof. rewrite land_255. apply Z.mod_pos_bound. lia. Qed.

Lemma write_reg_msg_payload reg len v :
  u32 len <= 4 ->
  exists data,
    write_reg_msg reg len v = I2cSend (put_unaligned_be16 reg ++ data) /\
    length data = Z.to_nat (u32 len) /\
    Forall (fun b => 0 <= b < 256) data /\
    be_value data = u32 v mod 2 ^ (8 * u32 len).
Proof.
  intros Hlen. pose proof (u32_range len) as Hr.
  unfold write_reg_msg. rewrite u16_reg_bytes.
  assert (Hc : u32 len = 0 \/ u32 len = 1 \/ u32 len = 2 \/ u32 len = 3 \/ u32 len = 4)
    by lia.
  unfold put_unaligned_be16, put_unaligned_be32. cbn [app].
  destruct Hc as [E | [E | [E | [E | E]]]]; rewrite E;
    match goal with
    | |- context [Z.to_nat ?n] =>
        let k := eval vm_compute in (Z.to_nat n) in
        change (Z.to_nat n) with k
    end;
    cbn [firstn]; eexists; (split; [reflexivity |]);
    (split; [reflexivity |]);
    (split; [repeat (apply Forall_cons; [apply byte_land |]); apply Forall_nil |]);
    repeat match goal with
           | |- context [8 * ?n] =>
               let k := eval vm_compute in (8 * n) in change (8 * n) with k
           end.
  - unfold be_value. cbn [fold_left]. rewrite Z.mod_1_r. reflexivity.
  - wire_arith.
  - wire_arith.
  - wire_arith.
  - wire_arith.
Qed.

Lemma delivered_exact len data :
  length data = Z.to_nat (u32 len) ->
  Forall (fun b => 0 <= b < 256) data ->
  delivered len data = data.
Proof.
  intros Hl Hb. unfold delivered.
  replace (map u8 data) with data.
  - rewrite <- Hl, firstn_app, Nat.sub_diag, firstn_all. cbn [firstn].
    apply app_nil_r.
  - symmetry. rewrite <- (map_id data) at 2. apply map_ext_Forall.
    revert Hb. apply Forall_impl. intros b Hb. apply u8_small. exact Hb.
Qed.

(** X6. Writing and reading agree on the wire format.  A write of [len]
    bytes puts the register address and then [len] data bytes on the
    bus; a device that answers a read of the same register with those
    data bytes makes [imx477_read_reg] return the value written, reduced
    to [len] bytes. *)
Theorem write_read_round_trip :
  forall (reg len v v0 : Z) (x y : imx477),
    u32 len <= 4 ->
    let sent := write_reg_msg reg len v in
    let asked := I2cTransfer (put_unaligned_be16 reg) (u32 len) in
    adapter (client y) (length (xfers (client y))) asked = (2, payload sent) ->
    xfers (client (snd (imx477_write_reg reg len v x)))
    = xfers (client x) ++ [I2cSend (put_unaligned_be16 reg ++ payload sent)] /\
    length (payload sent) = Z.to_nat (u32 len) /\
    imx477_read_reg reg len v0 y
    = (0, u32 v mod 2 ^ (8 * u32 len), push asked y).
Proof.
  intros reg len v v0 x y Hlen. cbv zeta. intros Hreply.
  destruct (write_reg_msg_payload reg len v Hlen) as (data & Hm & Hl & Hb & Hv).
  rewrite write_reg_run by exact Hlen. cbn [snd].
  rewrite Hm in *. cbn [payload] in *.
  assert (Hp : skipn 2 (put_unaligned_be16 reg ++ data) = data) by reflexivity.
  rewrite Hp in *.
  split; [reflexivity |]. split; [exact Hl |].
  rewrite read_reg_run by exact Hlen. cbv zeta.
  rewrite read_reg_msg_address, Hreply. cbn [fst snd].
  change (2 =? 2) with true. cbv iota.
  rewrite read_reg_value by exact Hlen.
  rewrite (delivered_exact len data Hl Hb).
  rewrite Hv. reflexivity.
Qed.

Lemma write_read_round_trip_witness :
  let y := probed (fun _ _ => (2, [0x12; 0x34])) in
  u32 2 <= 4 /\
  fst (imx477_read_reg IMX477_REG_EXPOSURE 2 0 y) = (0, 0x1234).
Proof.
  cbv zeta. split; [vm_compute; discriminate |].
  pose proof (write_read_round_trip IMX477_REG_EXPOSURE 2 0xab1234 0
                (probed ack_all) (probed (fun _ _ => (2, [0x12; 0x34])))
                ltac:(vm_compute; discriminate) eq_refl) as (_ & _ & H).
  rewrite H. reflexivity.
Defined.

(** ** Module identification *)

Lemma identify_module_run expected_id x :
  let m := I2cTransfer (put_unaligned_be16 IMX477_REG_CHIP_ID) 2 in
  let reply := adapter (client x) (length (xfers (client x))) m in
  imx477_identify_module expected_id x =
  (if fst reply =? 2
   then if be_value (delivered 2 (snd reply)) =? u32 expected_id
        then 0 else - EIO
   else - EIO,
   push m x).
Proof.
  cbv zeta. unfold imx477_identify_module. rewrite bind_run.
  rewrite read_reg_run by (vm_compute; discriminate). cbv zeta.
  rewrite read_reg_msg_address.
  change (u32 IMX477_REG_VALUE_16BIT) with 2. cbn [fst snd].
  destruct (fst (adapter (client x) (length (xfers (client x)))
                   (I2cTransfer (put_unaligned_be16 IMX477_REG_CHIP_ID) 2)) =? 2).
  - cbn [fst snd]. rewrite truth_0. cbv iota.
    rewrite (read_reg_value IMX477_REG_VALUE_16BIT) by (vm_compute; discriminate).
    change (delivered IMX477_REG_VALUE_16BIT) with (delivered 2).
    destruct (be_value (delivered 2 _) =? u32 expected_id); reflexivity.
  - reflexivity.
Qed.

(** X7. [imx477_identify_module] costs exactly one exchange, a two-byte
    read of the chip-id register.  It returns 0 exactly when the adapter
    completed the exchange and the two bytes delivered denote the
    expected id as a 32-bit number, and [-EIO] in every other case. *)
Theorem identify_module_outcome :
  forall (expected_id : Z) (x : imx477),
    let m := I2cTransfer (put_unaligned_be16 IMX477_REG_CHIP_ID) 2 in
    let reply := adapter (client x) (length (xfers (client x))) m in
    let r := fst (imx477_identify_module expected_id x) in
    snd (imx477_identify_module expected_id x) = push m x /\
    (r = 0 \/ r = - EIO) /\
    (r = 0 <->
     fst reply = 2 /\ be_value (delivered 2 (snd reply)) = u32 expected_id).
Proof.
  intros id x. cbv zeta. rewrite identify_module_run. cbv zeta. cbn [fst snd].
  split; [reflexivity |].
  destruct (Z.eqb_spec
              (fst (adapter (client x) (length (xfers (client x)))
                      (I2cTransfer (put_unaligned_be16 IMX477_REG_CHIP_ID) 2))) 2)
    as [E | N].
  - destruct (Z.eqb_spec
                (be_value (delivered 2
                   (snd (adapter (client x) (length (xfers (client x)))
                           (I2cTransfer (put_unaligned_be16 IMX477_REG_CHIP_ID) 2)))))
                (u32 id)) as [Ev | Nv].
    + split; [left; reflexivity |].
      split; [intros _; split; assumption | reflexivity].
    + split; [right; reflexivity |].
      split; [discriminate | intros (_ & Ev); contradiction].
  - split; [right; reflexivity |].
    split; [discriminate | intros (E & _); contradiction].
Qed.

(** ** Format negotiation, enumeration and queries *)

Lemma same_refl x : same_mode x x.
Proof. constructor; reflexivity. Qed.

Lemma same_trans x y z : same_mode x y -> same_mode y z -> same_mode x z.
Proof. intros [a1 b1] [a2 b2]. constructor; congruence. Qed.

Lemma quiet_same x x' : quiet x x' -> same_mode x x'.
Proof.
  intros Hq. constructor; [apply (q_cur_mode _ _ Hq) | apply (q_cfg_num _ _ Hq)].
Qed.

Lemma same_bind {A B} (m : M A) (k : A -> M B) x :
  same_mode x (snd (m x)) ->
  (forall a y, same_mode y (snd (k a y))) ->
  same_mode x (snd (bind m k x)).
Proof.
  intros Hm Hk. rewrite bind_run.
  eapply same_trans; [exact Hm | apply Hk].
Qed.

Lemma same_modify_range id mn mx st df x :
  same_mode x (snd (__v4l2_ctrl_modify_range id mn mx st df x)).
Proof. constructor; reflexivity. Qed.

Lemma same_s_ctrl id v x : same_mode x (snd (__v4l2_ctrl_s_ctrl id v x)).
Proof.
  destruct (s_ctrl_cases id v x) as [(-> & _) | [(-> & _) | (_ & Hq)]];
    try apply same_refl.
  apply (same_trans _ (set_ctrl_of id (with_val v (ctrl_handler x id)) x));
    [constructor; reflexivity | apply quiet_same; exact Hq].
Qed.

Lemma same_set_framing_limits x :
  same_mode x (snd (imx477_set_framing_limits x)).
Proof.
  unfold imx477_set_framing_limits.
  apply same_bind; [apply same_refl |]. intros x0 y0. cbv zeta.
  apply same_bind; [constructor; reflexivity |]. intros _ y1.
  apply same_bind; [apply same_modify_range |]. intros _ y2.
  apply same_bind; [apply same_s_ctrl |]. intros _ y3.
  apply same_bind; [apply same_modify_range |]. intros _ y4.
  apply same_bind; [apply same_s_ctrl |]. intros _ y5.
  apply same_bind; [apply same_s_ctrl |]. intros _ y6.
  apply same_refl.
Qed.

Lemma find_best_fit_in_range x framefmt :
  0 < cfg_num x ->
  0 <= imx477_find_best_fit x framefmt < cfg_num x.
Proof.
  intros Hc. unfold imx477_find_best_fit.
  destruct (find_best_fit_loop_range framefmt (Z.to_nat (cfg_num x)) 0 0 (-1))
    as [E | (Hr & _)]; cbv zeta in *.
  - rewrite E. lia.
  - rewrite Z2Nat.id in Hr by lia. lia.
Qed.

(** What [imx477_set_fmt] does for the active format. *)
Lemma set_fmt_active_run api try_fmt format x :
  let best := imx477_find_best_fit x format in
  let r := imx477_set_fmt api V4L2_SUBDEV_FORMAT_ACTIVE try_fmt format x in
  fst r = (0, mode_format (mode_at best)) /\
  cur_mode (snd r) = best /\
  cfg_num (snd r) = cfg_num x /\
  mutex (snd r) = false /\
  (cur_mode x = best -> snd r = set_mutex false x).
Proof.
  cbv zeta. unfold imx477_set_fmt. rewrite bind_run. cbv beta.
  change (snd (mutex_lock x)) with (set_mutex true x).
  rewrite bind_run.
  change (fst (get (set_mutex true x))) with (set_mutex true x).
  change (snd (get (set_mutex true x))) with (set_mutex true x). cbv zeta.
  change (imx477_find_best_fit (set_mutex true x) format)
    with (imx477_find_best_fit x format).
  change (cur_mode (set_mutex true x)) with (cur_mode x).
  set (best := imx477_find_best_fit x format).
  rewrite bind_run. cbv beta. rewrite bind_run. cbv beta.
  cbn [pure fst snd]. rewrite snd_unlock.
  split; [reflexivity |].
  destruct (Z.eqb_spec (cur_mode x) best) as [E | N]; cbn [negb].
  - rewrite snd_pure. cbn. repeat split; try assumption.
  - rewrite bind_run, snd_modify.
    destruct (same_set_framing_limits (set_cur_mode best (set_mutex true x)))
      as [Hc Hn].
    cbn [cur_mode cfg_num set_mutex].
    split; [exact Hc |]. split; [exact Hn |]. split; [reflexivity |].
    intros E. contradiction.
Qed.

Lemma get_fmt_active_run api try_fmt format x :
  imx477_get_fmt api V4L2_SUBDEV_FORMAT_ACTIVE try_fmt format x
  = (0, mode_format (mode_at (cur_mode x)), set_mutex false x).
Proof. reflexivity. Qed.

(** X9. The active format [imx477_get_fmt] reports is the one the last
    [imx477_set_fmt] answered: the format of the catalog entry the
    negotiation chose, whatever was asked for, and asking does not change
    the device. *)
Theorem set_fmt_then_get_fmt :
  forall (api : bool) (t f t' f' : v4l2_mbus_framefmt) (x : imx477),
    let r := imx477_set_fmt api V4L2_SUBDEV_FORMAT_ACTIVE t f x in
    fst r = (0, mode_format (mode_at (imx477_find_best_fit x f))) /\
    imx477_get_fmt api V4L2_SUBDEV_FORMAT_ACTIVE t' f' (snd r) = (fst r, snd r).
Proof.
  intros api t f t' f' x. cbv zeta.
  destruct (set_fmt_active_run api t f x) as (Hf & Hc & _ & Hm & _).
  split; [exact Hf |].
  rewrite get_fmt_active_run, Hf, Hc, set_mutex_idle by exact Hm.
  reflexivity.
Qed.

(** X10. Negotiation is idempotent on a probed device: handing
    [imx477_set_fmt] the format it answered selects the same mode again
    and, the mode being current, changes nothing at all, neither a
    control nor the bus. *)
Theorem set_fmt_idempotent :
  forall (api : bool) (t t' f : v4l2_mbus_framefmt) (x : imx477),
    cfg_num x = Z.of_nat (length supported_modes) ->
    let r := imx477_set_fmt api V4L2_SUBDEV_FORMAT_ACTIVE t f x in
    imx477_set_fmt api V4L2_SUBDEV_FORMAT_ACTIVE t' (snd (fst r)) (snd r)
    = (fst r, snd r).
Proof.
  intros api t t' f x Hcfg. cbv zeta.
  destruct (set_fmt_active_run api t f x) as (Hf & Hc & Hn & Hm & _).
  set (r := imx477_set_fmt api V4L2_SUBDEV_FORMAT_ACTIVE t f x) in *.
  pose proof (find_best_fit_in_range x f ltac:(rewrite Hcfg; cbn; lia)) as Hr.
  assert (Hb : imx477_find_best_fit (snd r) (snd (fst r))
               = imx477_find_best_fit x f).
  { rewrite Hf. cbn [snd]. unfold mode_format.
    apply find_best_fit_exact; [congruence | rewrite Hn; exact Hr]. }
  destruct (set_fmt_active_run api t' (snd (fst r)) (snd r))
    as (Hf2 & _ & _ & _ & Hsame).
  rewrite Hb in *.
  rewrite (surjective_pairing
             (imx477_set_fmt api V4L2_SUBDEV_FORMAT_ACTIVE t' (snd (fst r)) (snd r))).
  rewrite Hf2, (Hsame Hc), set_mutex_idle by exact Hm.
  rewrite Hf. reflexivity.
Qed.

Lemma set_fmt_idempotent_witness :
  let f := {| fmt_width := 2000; fmt_height := 1100;
              code := MEDIA_BUS_FMT_SRGGB10_1X10 |} in
  let r := imx477_set_fmt true V4L2_SUBDEV_FORMAT_ACTIVE f f (probed ack_all) in
  cfg_num (probed ack_all) = Z.of_nat (length supported_modes) /\
  cur_mode (snd r) = 2 /\
  imx477_set_fmt true V4L2_SUBDEV_FORMAT_ACTIVE f (snd (fst r)) (snd r)
  = (fst r, snd r).
Proof.
  cbv zeta. split; [reflexivity |]. split; [vm_compute; reflexivity |].
  apply (set_fmt_idempotent true); reflexivity.
Defined.

Lemma catalog_bus_fmt i : bus_fmt (mode_at i) = MEDIA_BUS_FMT_SRGGB10_1X10.
Proof. destruct (mode_at_cases i) as [-> | [-> | ->]]; reflexivity. Qed.

(** X8. Enumeration and negotiation agree on a probed device.  Every
    index [imx477_enum_mbus_code] accepts yields a code with which
    [imx477_enum_frame_size] accepts the same index and reports one
    discrete size; asking [imx477_set_fmt] for that size and code selects
    the mode of that index and answers the request unchanged. *)
Theorem enumerated_size_is_accepted :
  forall (api : bool) (t : v4l2_mbus_framefmt) (x : imx477)
         (index code0 : Z) (fse : v4l2_subdev_frame_size_enum),
    cfg_num x = Z.of_nat (length supported_modes) ->
    fst (imx477_enum_mbus_code x index code0) = 0 ->
    fse_index fse = index ->
    fse_code fse = snd (imx477_enum_mbus_code x index code0) ->
    let e := imx477_enum_frame_size x fse in
    let request := {| fmt_width := max_width (snd e);
                      fmt_height := max_height (snd e);
                      code := fse_code fse |} in
    fst e = 0 /\
    min_width (snd e) = max_width (snd e) /\
    min_height (snd e) = max_height (snd e) /\
    imx477_find_best_fit x request = u32 index /\
    fst (imx477_set_fmt api V4L2_SUBDEV_FORMAT_ACTIVE t request x) = (0, request) /\
    cur_mode (snd (imx477_set_fmt api V4L2_SUBDEV_FORMAT_ACTIVE t request x))
    = u32 index.
Proof.
  intros api t x index code0 fse Hcfg Hm Hi Hc. cbv zeta.
  unfold imx477_enum_mbus_code in Hm, Hc.
  destruct (Z.geb_spec (u32 index) (cfg_num x)) as [Hge | Hlt];
    [cbn in Hm; discriminate |].
  cbn [snd] in Hc.
  unfold imx477_enum_frame_size. rewrite Hi, Hc.
  destruct (Z.geb_spec (u32 index) (cfg_num x)) as [Hge | _]; [lia |].
  rewrite catalog_bus_fmt.
  change (u32 MEDIA_BUS_FMT_SRGGB10_1X10 =? MEDIA_BUS_FMT_SRGGB10_1X10) with true.
  cbn [negb fst snd max_width max_height min_width min_height].
  pose proof (u32_range index) as Hr.
  assert (Hbest :
    imx477_find_best_fit x
      {| fmt_width := width (mode_at (u32 index));
         fmt_height := height (mode_at (u32 index));
         code := MEDIA_BUS_FMT_SRGGB10_1X10 |} = u32 index).
  { rewrite <- (catalog_bus_fmt (u32 index)).
    apply find_best_fit_exact; [exact Hcfg | lia]. }
  destruct (set_fmt_active_run api t
              {| fmt_width := width (mode_at (u32 index));
                 fmt_height := height (mode_at (u32 index));
                 code := MEDIA_BUS_FMT_SRGGB10_1X10 |} x)
    as (Hf & Hcur & _).
  rewrite Hbest in Hf, Hcur.
  repeat (split; [reflexivity |]).
  split; [exact Hbest |]. split; [| exact Hcur].
  rewrite Hf. unfold mode_format. rewrite catalog_bus_fmt. reflexivity.
Qed.

Lemma enumerated_size_is_accepted_witness :
  let x := probed ack_all in
  let fse := {| fse_index := 1; fse_code := MEDIA_BUS_FMT_SRGGB10_1X10;
                min_width := 0; max_width := 0;
                min_height := 0; max_height := 0 |} in
  (cfg_num x = Z.of_nat (length supported_modes) /\
   fst (imx477_enum_mbus_code x 1 0) = 0 /\
   fse_code fse = snd (imx477_enum_mbus_code x 1 0)) /\
  fst (imx477_enum_frame_size x fse) = 0 /\
  max_width (snd (imx477_enum_frame_size x fse)) = 3840.
Proof.
  cbv zeta. split; [repeat split |].
  split; [| reflexivity].
  exact (proj1 (enumerated_size_is_accepted true
                  {| fmt_width := 0; fmt_height := 0; code := 0 |}
                  (probed ack_all) 1 0
                  {| fse_index := 1; fse_code := MEDIA_BUS_FMT_SRGGB10_1X10;
                     min_width := 0; max_width := 0;
                     min_height := 0; max_height := 0 |}
                  eq_refl eq_refl eq_refl eq_refl)).
Defined.

(** ** The current mode *)

Lemma same_set_mutex b x y : same_mode x y -> same_mode x (set_mutex b y).
Proof. intros [a c]. constructor; assumption. Qed.

Lemma same_stream_done enable y : same_mode y (stream_done enable y).
Proof. constructor; reflexivity. Qed.

Lemma roused_same x x' : roused x x' -> same_mode x x'.
Proof.
  intros Hw. constructor; [apply (w_cur_mode _ _ Hw) | apply (w_cfg_num _ _ Hw)].
Qed.

Lemma call_same_mode api c x :
  (forall t f, c <> SetFmt V4L2_SUBDEV_FORMAT_ACTIVE t f) ->
  same_mode x (snd (run_call api c x)).
Proof.
  intros Hc. destruct c as [id v | which t f | enable | on | |]; cbn [run_call].
  - rewrite v4l2_ctrl_s_ctrl_run. cbn [snd]. apply same_set_mutex.
    apply (same_trans _ (set_mutex true x));
      [constructor; reflexivity | apply same_s_ctrl].
  - destruct which; [| exfalso; apply (Hc t f); reflexivity].
    destruct api; constructor; reflexivity.
  - destruct (s_stream_cases enable x)
      as [E | [(y & Hq & E) | (y & Hq & E & _)]]; cbv zeta in E; rewrite E.
    + constructor; reflexivity.
    + apply same_set_mutex. apply (same_trans _ (set_mutex true x));
        [constructor; reflexivity | apply roused_same; exact Hq].
    + apply (same_trans _ y); [| apply same_stream_done].
      apply (same_trans _ (set_mutex true x));
        [constructor; reflexivity | apply roused_same; exact Hq].
  - destruct (s_power_cases on x) as (y & Hq & [E | (b & E)]); rewrite E.
    + apply same_set_mutex. apply (same_trans _ (set_mutex true x));
        [constructor; reflexivity | apply roused_same; exact Hq].
    + apply same_set_mutex. apply (same_trans _ y); [| constructor; reflexivity].
      apply (same_trans _ (set_mutex true x));
        [constructor; reflexivity | apply roused_same; exact Hq].
  - constructor; reflexivity.
  - apply roused_same, roused_resume.
Qed.

Lemma run_call_set_fmt api which t f x :
  snd (run_call api (SetFmt which t f) x) = snd (imx477_set_fmt api which t f x).
Proof. cbn [run_call]. rewrite bind_run. reflexivity. Qed.

Lemma call_in_catalog api c x :
  0 < cfg_num x ->
  0 <= cur_mode x < cfg_num x ->
  cfg_num (snd (run_call api c x)) = cfg_num x /\
  0 <= cur_mode (snd (run_call api c x)) < cfg_num x.
Proof.
  intros Hc Hm.
  assert (Hsame : (forall t f, c <> SetFmt V4L2_SUBDEV_FORMAT_ACTIVE t f) ->
                  cfg_num (snd (run_call api c x)) = cfg_num x /\
                  0 <= cur_mode (snd (run_call api c x)) < cfg_num x).
  { intros Hn. destruct (call_same_mode api c x Hn) as [E1 E2].
    rewrite E1, E2. split; [reflexivity | exact Hm]. }
  destruct c as [id v | [|] t f | enable | on | |];
    try (apply Hsame; intros; discriminate).
  rewrite run_call_set_fmt.
  destruct (set_fmt_active_run api t f x) as (_ & Hcur & Hcfg & _).
  rewrite Hcur, Hcfg. split; [reflexivity |].
  apply find_best_fit_in_range. exact Hc.
Qed.

(** X11. The current mode never leaves the catalog: from a state whose
    [cur_mode] is an index below [cfg_num], any sequence of control
    settings, format requests, stream and power switches, suspends and
    resumes ends in such a state, with [cfg_num] unchanged. *)
Theorem cur_mode_stays_in_catalog :
  forall (api : bool) (cs : list call) (x : imx477),
    0 <= cur_mode x < cfg_num x ->
    cfg_num (run_calls api cs x) = cfg_num x /\
    0 <= cur_mode (run_calls api cs x) < cfg_num x.
Proof.
  intros api cs. induction cs as [| c cs IH]; intros x Hm; cbn [run_calls].
  - split; [reflexivity | exact Hm].
  - destruct (call_in_catalog api c x ltac:(lia) Hm) as (Hcfg & Hcur).
    destruct (IH (snd (run_call api c x)) ltac:(rewrite Hcfg; exact Hcur))
      as (Hcfg' & Hcur').
    rewrite Hcfg in *. split; assumption.
Qed.

Lemma cur_mode_stays_in_catalog_witness :
  let huge := {| fmt_width := 0xffffffff; fmt_height := 0xffffffff;
                 code := MEDIA_BUS_FMT_SRGGB10_1X10 |} in
  let cs := [SetFmt V4L2_SUBDEV_FORMAT_ACTIVE huge huge; SStream 1;
             SetCtrl V4L2_CID_VBLANK 9000; Suspend; Resume] in
  0 <= cur_mode (probed ack_all) < cfg_num (probed ack_all) /\
  0 <= cur_mode (run_calls true cs (probed ack_all)) < cfg_num (probed ack_all).
Proof.
  cbv zeta. split; [vm_compute; split; [discriminate | reflexivity] |].
  apply (cur_mode_stays_in_catalog true).
  vm_compute. split; [discriminate | reflexivity].
Defined.

Lemma calls_same_mode api cs :
  forall x,
    (forall c, In c cs -> forall t f, c <> SetFmt V4L2_SUBDEV_FORMAT_ACTIVE t f) ->
    same_mode x (run_calls api cs x).
Proof.
  induction cs as [| c cs IH]; intros x Hcs; cbn [run_calls].
  - apply same_refl.
  - apply (same_trans _ (snd (run_call api c x))).
    + apply call_same_mode. apply Hcs. left. reflexivity.
    + apply IH. intros c' Hin. apply Hcs. right. exact Hin.
Qed.

(** X12. Only an ACTIVE [imx477_set_fmt] changes the mode.  Across any
    other calls, setting VBLANK or any other control among them,
    [imx477_get_fmt] keeps reporting the same active format and
    [im477_g_frame_interval] the same interval, the mode's default. *)
Theorem mode_changes_only_by_set_fmt :
  forall (api : bool) (cs : list call) (t f : v4l2_mbus_framefmt) (x : imx477),
    (forall c, In c cs -> forall t f, c <> SetFmt V4L2_SUBDEV_FORMAT_ACTIVE t f) ->
    let x' := run_calls api cs x in
    cur_mode x' = cur_mode x /\
    fst (imx477_get_fmt api V4L2_SUBDEV_FORMAT_ACTIVE t f x')
    = fst (imx477_get_fmt api V4L2_SUBDEV_FORMAT_ACTIVE t f x) /\
    fst (im477_g_frame_interval x') = fst (im477_g_frame_interval x) /\
    fst (im477_g_frame_interval x')
    = (0, timeperframe_default (mode_at (cur_mode x))).
Proof.
  intros api cs t f x Hcs. cbv zeta.
  destruct (calls_same_mode api cs x Hcs) as [Hcur _].
  split; [exact Hcur |].
  rewrite !get_fmt_active_run. cbn [fst].
  unfold im477_g_frame_interval. rewrite !bind_run.
  change (fst (get (run_calls api cs x))) with (run_calls api cs x).
  change (fst (get x)) with x. cbv zeta. cbn [fst snd bind pure mutex_lock mutex_unlock modify].
  rewrite Hcur. repeat split.
Qed.

Lemma mode_changes_only_by_set_fmt_witness :
  let cs := [SetCtrl V4L2_CID_VBLANK 9000; SStream 1] in
  let x' := run_calls true cs (probed ack_all) in
  (forall c, In c cs -> forall t f, c <> SetFmt V4L2_SUBDEV_FORMAT_ACTIVE t f) /\
  val (vblank x') = 9000 /\
  val (vblank (probed ack_all)) <> 9000 /\
  fst (im477_g_frame_interval x') = fst (im477_g_frame_interval (probed ack_all)).
Proof.
  cbv zeta.
  assert (Hcs : forall c, In c [SetCtrl V4L2_CID_VBLANK 9000; SStream 1] ->
                forall t f, c <> SetFmt V4L2_SUBDEV_FORMAT_ACTIVE t f).
  { intros c [<- | [<- | []]] t f; discriminate. }
  split; [exact Hcs |].
  split; [vm_compute; reflexivity |]. split; [vm_compute; discriminate |].
  exact (proj1 (proj2 (proj2
           (mode_changes_only_by_set_fmt true
              [SetCtrl V4L2_CID_VBLANK 9000; SStream 1]
              {| fmt_width := 0; fmt_height := 0; code := 0 |}
              {| fmt_width := 0; fmt_height := 0; code := 0 |}
              (probed ack_all) Hcs)))).
Defined.

(** ** Stopping *)

(** X13. Stopping cannot fail.  On a streaming device
    [imx477_s_stream 0] offers the bus one message, the standby write to
    the mode-select register, and whether or not the adapter takes it the
    call returns 0, clears [streaming], releases both flip controls and
    the mutex, and leaves the mode, the power flag and the
    common-registers flag as they were. *)
Theorem stop_streaming_never_fails :
  forall x : imx477,
    streaming x = true ->
    let r := imx477_s_stream 0 x in
    fst r = 0 /\
    xfers (client (snd r)) = xfers (client x) ++ [I2cSend [0x01; 0x00; 0x00]] /\
    streaming (snd r) = false /\
    mutex (snd r) = false /\
    grabbed (hflip (snd r)) = false /\
    grabbed (vflip (snd r)) = false /\
    cur_mode (snd r) = cur_mode x /\
    power_on (snd r) = power_on x /\
    common_regs_written (snd r) = common_regs_written x.
Proof.
  intros x Hs. cbv zeta. rewrite (s_stream_stop x Hs).
  rewrite stop_streaming_run. cbn [fst snd]. repeat split.
Qed.

Lemma stop_streaming_never_fails_witness :
  let x := snd (start_streaming (probed (nak_at 203))) in
  streaming x = true /\
  took (I2cSend [0x01; 0x00; 0x00]) x = false /\
  fst (imx477_s_stream 0 x) = 0.
Proof.
  cbv zeta.
  assert (Hs : streaming (snd (start_streaming (probed (nak_at 203)))) = true)
    by (vm_compute; reflexivity).
  split; [exact Hs |]. split; [vm_compute; reflexivity |].
  exact (proj1 (stop_streaming_never_fails
                  (snd (start_streaming (probed (nak_at 203)))) Hs)).
Defined.

(** ** Runtime PM in the control callback *)

Lemma pm_write_reg reg len v x : pm (snd (imx477_write_reg reg len v x)) = pm x.
Proof.
  destruct (Z_le_gt_dec (u32 len) 4) as [Hle | Hgt].
  - rewrite write_reg_run by exact Hle. reflexivity.
  - rewrite write_reg_wide by lia. reflexivity.
Qed.

Lemma pm_set_frame_length v x : pm (snd (imx477_set_frame_length v x)) = pm x.
Proof.
  rewrite set_frame_length_run. cbv zeta.
  destruct (took _ _); reflexivity.
Qed.

Lemma pm_ctrl_write id x : pm (snd (ctrl_write id x)) = pm x.
Proof.
  destruct id; unfold ctrl_write;
    try apply pm_write_reg; try apply pm_set_frame_length; reflexivity.
Qed.

Lemma pm_adjust id x :
  pm (snd ((if v4l2_cid_eq_dec id V4L2_CID_VBLANK
            then imx477_adjust_exposure_range else pure tt) x)) = pm x.
Proof. destruct (v4l2_cid_eq_dec id V4L2_CID_VBLANK); reflexivity. Qed.

(** X14. The control callback releases a runtime-PM reference it never
    took.  For every control, handled or not and whether or not the
    register write succeeds, the only runtime-PM effect of
    [imx477_set_ctrl] is that of one [pm_runtime_put]; it never calls
    [pm_runtime_get_sync].  A control without a case of its own is
    answered [-EINVAL] with nothing offered to the bus. *)
Theorem set_ctrl_puts_without_get :
  forall (id : v4l2_cid) (x : imx477),
    let x' := snd (imx477_set_ctrl id x) in
    pm x' = pm (snd (pm_runtime_put x)) /\
    get_sync_calls (pm x') = get_sync_calls (pm x) /\
    (has_ops id = false \/ id = V4L2_CID_PIXEL_RATE ->
     fst (imx477_set_ctrl id x) = - EINVAL /\ client x' = client x).
Proof.
  intros id x. cbv zeta. rewrite set_ctrl_run. cbv zeta. cbn [fst snd].
  set (x1 := snd ((if v4l2_cid_eq_dec id V4L2_CID_VBLANK
                   then imx477_adjust_exposure_range else pure tt) x)).
  assert (Hpm : pm (snd (ctrl_write id x1)) = pm x)
    by (rewrite pm_ctrl_write; apply pm_adjust).
  unfold pm_runtime_put, modify. cbn [snd pm set_pm].
  rewrite Hpm. split; [reflexivity |]. split; [reflexivity |].
  intros [Hn | ->]; [destruct id; try discriminate Hn |]; split; reflexivity.
Qed.

(** ** Orientation *)

(** X15. Both flip controls are applied by the same register write: the
    callback of either sends one byte to the orientation register that
    holds the horizontal flip in bit 0 and the vertical flip in bit 1, so
    applying one of them re-sends the other's current value as well. *)
Theorem flips_share_orientation_write :
  forall x : imx477,
    0 <= val (hflip x) <= 1 ->
    0 <= val (vflip x) <= 1 ->
    let m := I2cSend [0x01; 0x01; val (hflip x) + 2 * val (vflip x)] in
    imx477_set_ctrl V4L2_CID_HFLIP x = imx477_set_ctrl V4L2_CID_VFLIP x /\
    xfers (client (snd (imx477_set_ctrl V4L2_CID_HFLIP x)))
    = xfers (client x) ++ [m] /\
    fst (imx477_set_ctrl V4L2_CID_HFLIP x) = (if took m x then 0 else - EIO).
Proof.
  intros x Hh Hv. cbv zeta. rewrite !set_ctrl_run. cbv zeta.
  split; [reflexivity |].
  destruct (v4l2_cid_eq_dec V4L2_CID_HFLIP V4L2_CID_VBLANK) as [E | _];
    [discriminate E |].
  cbn [pure snd fst]. unfold ctrl_write.
  rewrite write_reg_run by (vm_compute; discriminate).
  rewrite write_reg_msg_8.
  assert (Hb : Z.land (Z.lor (val (hflip x)) (Z.shiftl (val (vflip x)) 1)) 255
               = val (hflip x) + 2 * val (vflip x)).
  { assert (Hh' : val (hflip x) = 0 \/ val (hflip x) = 1) by lia.
    assert (Hv' : val (vflip x) = 0 \/ val (vflip x) = 1) by lia.
    destruct Hh' as [-> | ->], Hv' as [-> | ->]; reflexivity. }
  rewrite Hb. cbn [fst snd]. split; reflexivity.
Qed.

Lemma flips_share_orientation_write_witness :
  let x := set_ctrl_of V4L2_CID_VFLIP (with_val 1 (vflip (probed ack_all)))
                       (probed ack_all) in
  (0 <= val (hflip x) <= 1 /\ 0 <= val (vflip x) <= 1) /\
  xfers (client (snd (imx477_set_ctrl V4L2_CID_HFLIP x)))
  = xfers (client x) ++ [I2cSend [0x01; 0x01; 2]].
Proof.
  cbv zeta. split; [vm_compute; repeat split; discriminate |].
  exact (proj1 (proj2
           (flips_share_orientation_write
              (set_ctrl_of V4L2_CID_VFLIP (with_val 1 (vflip (probed ack_all)))
                           (probed ack_all))
              ltac:(vm_compute; split; discriminate)
              ltac:(vm_compute; split; discriminate)))).
Defined.

(** ** Power *)

(** X16. [imx477_s_power] releases the mutex on every path and leaves
    the controls, the mode and the common-registers flag alone.  A
    request that matches the flag is a no-op returning 0; any non-zero
    [on] counts as on.  Switching off returns 0, clears the flag and puts
    one reference, with bus, rails and [streaming] untouched.  Switching
    on calls [pm_runtime_get_sync] once and returns its answer as it is,
    a positive one included, and sets the flag unless the answer is
    negative.  After an answer that is not negative the bus and
    [streaming] are as before and the reference is kept.  After a
    negative one the reference is given back, and when it came from
    resuming the device the failed resume has put the standby write on
    the bus and cleared [streaming]. *)
Theorem s_power_outcome :
  forall (on : Z) (x : imx477),
    let answer := fst (pm_runtime_get_sync x) in
    let suspended := runtime_suspended (pm x) (get_sync_calls (pm x)) in
    let r := fst (imx477_s_power on x) in
    let x' := snd (imx477_s_power on x) in
    mutex x' = false /\
    ctrl_handler x' = ctrl_handler x /\
    cur_mode x' = cur_mode x /\
    common_regs_written x' = common_regs_written x /\
    ((power_on x = truth on /\ r = 0 /\ x' = set_mutex false x)
     \/
     (power_on x = false /\ on <> 0 /\
      r = answer /\ power_on x' = negb (answer <? 0) /\
      get_sync_calls (pm x') = S (get_sync_calls (pm x)) /\
      ((0 <= answer /\
        client x' = client x /\ streaming x' = streaming x /\
        usage_count (pm x') = usage_count (pm x) + 1)
       \/
       (answer < 0 /\
        usage_count (pm x') = usage_count (pm x) /\
        ((suspended = false /\
          client x' = client x /\ streaming x' = streaming x /\
          rails x' = rails x)
         \/
         (suspended = true /\
          streaming x' = false /\
          xfers (client x')
          = xfers (client x) ++ [I2cSend [0x01; 0x00; 0x00]])))))
     \/
     (power_on x = true /\ on = 0 /\ r = 0 /\ power_on x' = false /\
      pm x' = pm (snd (pm_runtime_put x)) /\
      client x' = client x /\ rails x' = rails x /\
      streaming x' = streaming x)).
Proof.
  intros on x. cbv zeta. unfold imx477_s_power.
  rewrite bind_run. cbv beta.
  change (snd (mutex_lock x)) with (set_mutex true x).
  rewrite bind_run.
  change (fst (get (set_mutex true x))) with (set_mutex true x).
  change (snd (get (set_mutex true x))) with (set_mutex true x).
  change (power_on (set_mutex true x)) with (power_on x).
  destruct (power_on x) eqn:Hp, (truth on) eqn:Ht; cbn [Bool.eqb].
  - repeat (split; [reflexivity |]). left. repeat split.
  - apply truth_false in Ht. subst on.
    repeat (split; [reflexivity |]). right. right. repeat split.
  - apply truth_true in Ht. rewrite bind_run.
    rewrite (get_sync_answer x (set_mutex true x) eq_refl eq_refl eq_refl eq_refl).
    change (runtime_suspended (pm x) (get_sync_calls (pm x)))
      with (runtime_suspended (pm (set_mutex true x))
                              (get_sync_calls (pm (set_mutex true x)))).
    change (get_sync_calls (pm x)) with (get_sync_calls (pm (set_mutex true x))).
    change (usage_count (pm x)) with (usage_count (pm (set_mutex true x))).
    set (x0 := set_mutex true x).
    destruct (Z.ltb_spec (fst (pm_runtime_get_sync x0)) 0) as [Hneg | Hpos].
    + destruct (get_sync_failed x0 Hneg)
        as (rl & p & Hc & Hu & [(Hsus & E) | (Hsus & E)]); rewrite E;
        (repeat (split; [reflexivity |])); right; left;
        (split; [reflexivity |]); (split; [exact Ht |]);
        (split; [reflexivity |]); (split; [exact Hp |]);
        (split; [exact Hc |]); right; (split; [exact Hneg |]);
        (split; [change (usage_count p - 1 = usage_count (pm x0)); lia |]).
      * left. repeat split. exact Hsus.
      * right. repeat split. exact Hsus.
    + destruct (get_sync_ok x0 Hpos) as (rl & p & E & Hc & Hu). rewrite E.
      repeat (split; [reflexivity |]). right. left.
      split; [reflexivity |]. split; [exact Ht |].
      split; [reflexivity |]. split; [reflexivity |].
      split; [exact Hc |]. left. split; [exact Hpos |].
      split; [reflexivity |]. split; [reflexivity |]. exact Hu.
  - repeat (split; [reflexivity |]). left. repeat split.
Qed.

(** X17. [imx477_resume] returns what powering on returned.  When that
    fails, the clock is not switched on and the reset line is not
    raised, yet the driver still offers the bus the standby write, and
    clears [streaming]; when it succeeds, supplies and clock are on and
    neither the bus nor [streaming] is touched. *)
Theorem resume_outcome :
  forall x : imx477,
    let r := fst (imx477_resume x) in
    let x' := snd (imx477_resume x) in
    r = fst (__imx477_power_on x) /\
    common_regs_written x' = common_regs_written x /\
    ((r <> 0 /\
      streaming x' = false /\
      xfers (client x') = xfers (client x) ++ [I2cSend [0x01; 0x00; 0x00]] /\
      xclk_enabled (rails x') = xclk_enabled (rails x) /\
      reset_gpio_value (rails x') = reset_gpio_value (rails x))
     \/
     (r = 0 /\
      streaming x' = streaming x /\
      client x' = client x /\
      supplies_enabled (rails x') = true /\
      xclk_enabled (rails x') = true)).
Proof.
  intros x. cbv zeta. rewrite resume_run. cbv zeta.
  destruct (power_on_keeps x) as (Hc & Hs & Hw & _).
  destruct (power_on_run x) as [(Hn & Hf & Hsup & Hclk & Hgpio)
                               | [(_ & Hn & Hf & Hsup & Hclk & Hgpio)
                                 | (_ & _ & Hf & Hsup & Hclk & Hgpio)]];
    cbv zeta in *.
  - rewrite Hf, (truth_nonzero _ Hn). cbn [fst snd].
    split; [reflexivity |]. split; [exact Hw |]. left.
    split; [exact Hn |]. split; [reflexivity |].
    split; [unfold push; cbn [set_streaming set_client client xfers]; rewrite Hc; reflexivity |]. split; assumption.
  - rewrite Hf, (truth_nonzero _ Hn). cbn [fst snd].
    split; [reflexivity |]. split; [exact Hw |]. left.
    split; [exact Hn |]. split; [reflexivity |].
    split; [unfold push; cbn [set_streaming set_client client xfers]; rewrite Hc; reflexivity |]. split; assumption.
  - rewrite Hf, truth_0. cbn [fst snd].
    split; [reflexivity |]. split; [exact Hw |]. right.
    repeat split; assumption.
Qed.

(** X18. Resuming does not restart a stream.  After a suspend and a
    successful resume of a streaming device the common-registers flag is
    clear, the sensor having lost its registers, but [streaming] is still
    set and nothing was sent to the bus; a following request to start is
    taken for redundant and writes nothing either. *)
Theorem suspend_resume_keeps_streaming_flag :
  forall x : imx477,
    mutex x = false ->
    streaming x = true ->
    fst (imx477_resume (snd (imx477_suspend x))) = 0 ->
    let x2 := snd (imx477_resume (snd (imx477_suspend x))) in
    streaming x2 = true /\
    common_regs_written x2 = false /\
    client x2 = client x /\
    supplies_enabled (rails x2) = true /\
    imx477_s_stream 1 x2 = (0, x2).
Proof.
  intros x Hm Hs Hr. cbv zeta.
  set (x1 := snd (imx477_suspend x)) in *.
  assert (H1 : streaming x1 = true /\ common_regs_written x1 = false /\
               client x1 = client x /\ mutex x1 = false)
    by (repeat split; assumption).
  destruct H1 as (Hs1 & Hw1 & Hc1 & Hm1).
  rewrite resume_run in *. cbv zeta in *.
  destruct (power_on_keeps x1) as (Hc & Hst & Hw & Hmu & _).
  destruct (truth (fst (__imx477_power_on x1))) eqn:Ht.
  - cbn [fst] in Hr. apply truth_true in Ht. contradiction.
  - cbn [snd].
    destruct (power_on_run x1) as [(Hn & Hf & _) | [(_ & Hn & Hf & _)
                                  | (_ & _ & _ & Hsup & _)]]; cbv zeta in *.
    + apply truth_false in Ht. congruence.
    + apply truth_false in Ht. congruence.
    + split; [congruence |]. split; [congruence |]. split; [congruence |].
      split; [exact Hsup |].
      rewrite s_stream_same by (rewrite Hst, Hs1; reflexivity).
      rewrite set_mutex_idle by congruence. reflexivity.
Qed.

Lemma suspend_resume_keeps_streaming_flag_witness :
  let x := snd (start_streaming (probed ack_all)) in
  let x2 := snd (imx477_resume (snd (imx477_suspend x))) in
  (mutex x = false /\ streaming x = true /\
   fst (imx477_resume (snd (imx477_suspend x))) = 0) /\
  common_regs_written x = true /\
  common_regs_written x2 = false /\
  imx477_s_stream 1 x2 = (0, x2).
Proof.
  cbv zeta.
  assert (H : mutex (snd (start_streaming (probed ack_all))) = false /\
              streaming (snd (start_streaming (probed ack_all))) = true /\
              fst (imx477_resume (snd (imx477_suspend
                     (snd (start_streaming (probed ack_all)))))) = 0)
    by (vm_compute; repeat split).
  split; [exact H |]. split; [vm_compute; reflexivity |].
  destruct H as (Hm & Hs & Hr).
  destruct (suspend_resume_keeps_streaming_flag
              (snd (start_streaming (probed ack_all))) Hm Hs Hr)
    as (_ & Hw & _ & _ & Hstart).
  split; [exact Hw | exact Hstart].
Defined.

(** ** The reset line *)

Lemma rails_bind {A B} (m : M A) (k : A -> M B) x :
  rails (snd (m x)) = rails x ->
  (forall a y, rails (snd (k a y)) = rails y) ->
  rails (snd (bind m k x)) = rails x.
Proof. intros Hm Hk. rewrite bind_run, Hk. exact Hm. Qed.

Lemma rails_s_ctrl id v x : rails (snd (__v4l2_ctrl_s_ctrl id v x)) = rails x.
Proof.
  destruct (s_ctrl_cases id v x) as [(-> & _) | [(-> & _) | (_ & Hq)]];
    try reflexivity.
  rewrite (q_rails _ _ Hq). reflexivity.
Qed.

Lemma rails_set_framing_limits x :
  rails (snd (imx477_set_framing_limits x)) = rails x.
Proof.
  unfold imx477_set_framing_limits.
  apply rails_bind; [reflexivity |]. intros x0 y0. cbv zeta.
  apply rails_bind; [reflexivity |]. intros _ y1.
  apply rails_bind; [reflexivity |]. intros _ y2.
  apply rails_bind; [apply rails_s_ctrl |]. intros _ y3.
  apply rails_bind; [reflexivity |]. intros _ y4.
  apply rails_bind; [apply rails_s_ctrl |]. intros _ y5.
  apply rails_bind; [apply rails_s_ctrl |]. intros _ y6.
  reflexivity.
Qed.

Lemma rails_set_fmt api which t f x :
  rails (snd (imx477_set_fmt api which t f x)) = rails x.
Proof.
  unfold imx477_set_fmt.
  apply rails_bind; [reflexivity |]. intros _ y0.
  apply rails_bind; [reflexivity |]. intros y1 y2. cbv zeta.
  destruct which.
  - destruct api; reflexivity.
  - apply rails_bind.
    + destruct (negb (cur_mode y1 =? imx477_find_best_fit y1 f)); [| reflexivity].
      apply rails_bind; [reflexivity |]. intros _ y3.
      apply rails_set_framing_limits.
    + intros _ y3. reflexivity.
Qed.

Lemma call_reset_line api c x :
  reset_gpio_value (rails (snd (run_call api c x))) = reset_gpio_value (rails x)
  \/ reset_gpio_value (rails (snd (run_call api c x))) = 1.
Proof.
  destruct c as [id v | which t f | enable | on | |]; cbn [run_call].
  - left. rewrite v4l2_ctrl_s_ctrl_run. cbn [snd].
    change (rails (set_mutex false ?y)) with (rails y).
    rewrite rails_s_ctrl. reflexivity.
  - left. rewrite bind_run. cbn [pure snd]. rewrite rails_set_fmt. reflexivity.
  - destruct (s_stream_cases enable x)
      as [E | [(y & Hq & E) | (y & Hq & E & _)]]; cbv zeta in E; rewrite E.
    + left. reflexivity.
    + change (rails (set_mutex false y)) with (rails y).
      exact (w_reset _ _ Hq).
    + change (rails (stream_done enable y)) with (rails y).
      exact (w_reset _ _ Hq).
  - destruct (s_power_cases on x) as (y & Hq & [E | (b & E)]); rewrite E.
    + change (rails (set_mutex false y)) with (rails y).
      exact (w_reset _ _ Hq).
    + change (rails (set_mutex false (set_power_on b y))) with (rails y).
      exact (w_reset _ _ Hq).
  - cbn. destruct (reset_gpio_valid (rails x)); [right | left]; reflexivity.
  - exact (w_reset _ _ (roused_resume x)).
Qed.

(** X19. The driver never drives the reset line low.  Powering off
    sets the reset GPIO to 1, as powering on does, and nothing else
    writes it: after any sequence of calls its value is the one it had or
    1. *)
Theorem reset_line_never_lowered :
  forall (api : bool) (cs : list call) (x : imx477),
    reset_gpio_value (rails (run_calls api cs x)) = reset_gpio_value (rails x)
    \/ reset_gpio_value (rails (run_calls api cs x)) = 1.
Proof.
  intros api cs. induction cs as [| c cs IH]; intros x; cbn [run_calls].
  - left. reflexivity.
  - destruct (IH (snd (run_call api c x))) as [E | E].
    + rewrite E. apply call_reset_line.
    + right. exact E.
Qed.

(** ** A stream switch that is neither 0 nor 1 *)

Lemma pm_write_regs_loop regs :
  forall x, pm (snd (write_regs_loop regs x)) = pm x.
Proof.
  induction regs as [| r regs IH]; intros x; cbn [write_regs_loop];
    [reflexivity |].
  rewrite bind_if_run. cbv zeta.
  destruct (truth (fst (imx477_write_reg (address r) 1 (reg_val r) x))).
  - apply pm_write_reg.
  - rewrite IH. apply pm_write_reg.
Qed.

Lemma gets_set_ctrl id x :
  get_sync_calls (pm (snd (imx477_set_ctrl id x))) = get_sync_calls (pm x).
Proof.
  rewrite set_ctrl_run. cbv zeta. cbn [snd].
  unfold pm_runtime_put, modify. cbn [snd pm set_pm get_sync_calls].
  rewrite pm_ctrl_write, pm_adjust. reflexivity.
Qed.

Lemma gets_handler_setup_loop ids :
  forall x,
    get_sync_calls (pm (snd (handler_setup_loop ids x))) = get_sync_calls (pm x).
Proof.
  induction ids as [| id ids IH]; intros x; cbn [handler_setup_loop];
    [reflexivity |].
  rewrite bind_if_run. cbv zeta.
  destruct (truth (fst (imx477_set_ctrl id x))).
  - apply gets_set_ctrl.
  - rewrite IH. apply gets_set_ctrl.
Qed.

Lemma gets_common_regs_stage x :
  get_sync_calls (pm (snd (common_regs_stage x))) = get_sync_calls (pm x).
Proof.
  unfold common_regs_stage. destruct (common_regs_written x); [reflexivity |].
  cbv zeta. destruct (truth (fst (write_regs_loop mode_common_regs x))).
  - rewrite pm_write_regs_loop. reflexivity.
  - destruct (truth (fst (write_regs_loop _ (snd (write_regs_loop mode_common_regs x))))).
    + rewrite !pm_write_regs_loop. reflexivity.
    + change (pm (snd (0, set_common_regs_written true ?y))) with (pm y).
      rewrite !pm_write_regs_loop. reflexivity.
Qed.

Lemma gets_mode_stage mode x :
  get_sync_calls (pm (snd (mode_stage mode x))) = get_sync_calls (pm x).
Proof.
  unfold mode_stage. cbv zeta.
  destruct (truth (fst (write_regs_loop (regs (reg_list mode)) x))).
  - rewrite pm_write_regs_loop. reflexivity.
  - destruct (truth (fst (handler_setup_loop replayed_ctrls
                            (snd (write_regs_loop (regs (reg_list mode)) x))))).
    + rewrite gets_handler_setup_loop, pm_write_regs_loop. reflexivity.
    + rewrite pm_write_reg, gets_handler_setup_loop, pm_write_regs_loop.
      reflexivity.
Qed.

Lemma gets_start_streaming x :
  get_sync_calls (pm (snd (__imx477_start_streaming x))) = get_sync_calls (pm x).
Proof.
  rewrite start_streaming_stages. cbv zeta.
  destruct (truth (fst (common_regs_stage x))).
  - apply gets_common_regs_stage.
  - rewrite gets_mode_stage. apply gets_common_regs_stage.
Qed.

Lemma quiet_grows x y n :
  quiet x y ->
  (n < length (xfers (client x)))%nat ->
  (n < length (xfers (client y)))%nat.
Proof.
  intros Hq Hn. destruct (q_xfers _ _ Hq) as (T & ->).
  rewrite length_app. lia.
Qed.

Lemma program_prefix_length k regs :
  (1 <= k)%nat -> regs <> [] ->
  (1 <= length (program_msgs (firstn k regs)))%nat.
Proof.
  intros Hk Hr. unfold program_msgs. rewrite length_map, length_firstn.
  destruct regs; [contradiction | cbn [length]; lia].
Qed.

Lemma start_streaming_offers x :
  (length (xfers (client x))
   < length (xfers (client (snd (__imx477_start_streaming x)))))%nat.
Proof.
  rewrite start_streaming_stages. cbv zeta.
  destruct (common_regs_written x) eqn:Hw.
  - assert (Hc : common_regs_stage x = (0, x))
      by (unfold common_regs_stage; rewrite Hw; reflexivity).
    rewrite Hc. cbn [fst snd]. rewrite truth_0.
    destruct (mode_stage_trace (mode_at (cur_mode x)) x
                (catalog_regs_nonempty (cur_mode x)))
      as (k & R & Hk & -> & _).
    pose proof (program_prefix_length k _ ltac:(lia)
                  (catalog_regs_nonempty (cur_mode x))).
    rewrite !length_app. lia.
  - destruct (common_regs_stage_trace x Hw) as (k & Hk & Hx & _).
    cbv zeta in Hx.
    assert (Hlen : (length (xfers (client x))
                    < length (xfers (client (snd (common_regs_stage x)))))%nat).
    { rewrite Hx, length_app.
      pose proof (program_prefix_length k
                    (mode_common_regs ++ regs (extra_regs (compatible_data x)))
                    ltac:(lia) ltac:(discriminate)).
      lia. }
    destruct (truth (fst (common_regs_stage x))); [exact Hlen |].
    apply (quiet_grows (snd (common_regs_stage x))); [| exact Hlen].
    apply quiet_mode_stage.
Qed.

Lemma pm_stream_done enable y : pm (stream_done enable y) = pm y.
Proof. reflexivity. Qed.

Lemma pm_unlock_put y :
  get_sync_calls (pm (set_mutex false (snd (pm_runtime_put y))))
  = get_sync_calls (pm y).
Proof. reflexivity. Qed.

Lemma streaming_unlock_put y :
  streaming (set_mutex false (snd (pm_runtime_put y))) = streaming y.
Proof. reflexivity. Qed.

(** X20. Only the values 0 and 1 of [enable] can be taken for a
    redundant request.  On a device that is already streaming,
    [imx477_s_stream] with any other value calls [pm_runtime_get_sync]
    once more and, unless that answers an error, offers the start-up
    programme to the bus again, [streaming] staying set; an error is
    returned as it is.  The mutex is released on every path. *)
Theorem s_stream_nonboolean_enable_restarts :
  forall (enable : Z) (x : imx477),
    enable <> 0 ->
    enable <> 1 ->
    streaming x = true ->
    let answer := fst (pm_runtime_get_sync x) in
    let x' := snd (imx477_s_stream enable x) in
    get_sync_calls (pm x') = S (get_sync_calls (pm x)) /\
    mutex x' = false /\
    (answer < 0 -> fst (imx477_s_stream enable x) = answer) /\
    (0 <= answer ->
     streaming x' = true /\
     (length (xfers (client x)) < length (xfers (client x')))%nat).
Proof.
  intros enable x H0 H1 Hs. cbv zeta.
  rewrite s_stream_start by (try exact H0; rewrite Hs; cbn; congruence).
  cbv zeta.
  rewrite (get_sync_answer x (set_mutex true x) eq_refl eq_refl eq_refl eq_refl).
  set (x0 := set_mutex true x).
  destruct (Z.ltb_spec (fst (pm_runtime_get_sync x0)) 0) as [Hneg | Hpos].
  - destruct (get_sync_failed x0 Hneg)
      as (rl & p & Hc & _ & [(_ & E) | (_ & E)]); cbn [fst snd]; rewrite E;
      (split; [exact Hc |]); (split; [reflexivity |]);
      (split; [intros _; reflexivity | intros H; lia]).
  - destruct (get_sync_ok x0 Hpos) as (rl & p & E & Hc & _). rewrite E.
    set (g := set_rails rl (set_pm p x0)).
    assert (Hg : get_sync_calls (pm g) = S (get_sync_calls (pm x))) by exact Hc.
    assert (Hgs : streaming g = true) by exact Hs.
    pose proof (gets_start_streaming g) as Hst.
    pose proof (quiet_start_streaming g) as Hq.
    pose proof (start_streaming_offers g) as Hoff.
    change (client g) with (client x) in Hoff.
    destruct (truth (fst (__imx477_start_streaming g))); cbn [fst snd].
    + rewrite pm_unlock_put, streaming_unlock_put.
      split; [rewrite Hst; exact Hg |].
      split; [reflexivity |].
      split; [intros H; lia |]. intros _.
      split; [rewrite (q_streaming _ _ Hq); exact Hgs | exact Hoff].
    + destruct (stream_done_state enable (snd (__imx477_start_streaming g)))
        as (_ & _ & Hmu & Hstr & _ & Hcl & _).
      rewrite pm_stream_done, Hmu, Hstr, Hcl.
      split; [rewrite Hst; exact Hg |].
      split; [reflexivity |].
      split; [intros H; lia |]. intros _.
      split; [apply truth_nonzero; exact H0 | exact Hoff].
Qed.

Lemma s_stream_nonboolean_enable_restarts_witness :
  let x := snd (start_streaming (probed ack_all)) in
  (2 <> 0 /\ 2 <> 1 /\ streaming x = true) /\
  get_sync_calls (pm (snd (imx477_s_stream 2 x))) = S (get_sync_calls (pm x)).
Proof.
  cbv zeta.
  assert (Hs : streaming (snd (start_streaming (probed ack_all))) = true)
    by (vm_compute; reflexivity).
  split; [split; [discriminate | split; [discriminate | exact Hs]] |].
  exact (proj1 (s_stream_nonboolean_enable_restarts 2
                  (snd (start_streaming (probed ack_all)))
                  ltac:(discriminate) ltac:(discriminate) Hs)).
Defined.

(** ** Probing *)

(** X21. A probe that fails leaves the sensor unpowered.  From rails
    that are off, the end of [imx477_probe] either returns an error with
    supplies and clock off, whichever step failed, or returns 0 with the
    chip-id register read once and found to hold the expected id; in
    that case supplies and clock are on only if [pm_runtime_idle] did not
    suspend the device, and the common-registers flag is clear if it
    did.  The bus saw at most that one read. *)
Theorem probe_failure_powers_off :
  forall (media_controller : bool) (pads_init_ret register_ret : Z)
         (idle_suspends : bool) (x : imx477),
    supplies_enabled (rails x) = false ->
    xclk_enabled (rails x) = false ->
    let res := fst (imx477_probe_bringup media_controller pads_init_ret
                                         register_ret idle_suspends x) in
    let x' := snd (imx477_probe_bringup media_controller pads_init_ret
                                        register_ret idle_suspends x) in
    let m := I2cTransfer (put_unaligned_be16 IMX477_REG_CHIP_ID) 2 in
    let reply := adapter (client x) (length (xfers (client x))) m in
    (res = 0 /\
     supplies_enabled (rails x') = negb idle_suspends /\
     xclk_enabled (rails x') = negb idle_suspends /\
     (idle_suspends = true -> common_regs_written x' = false) /\
     xfers (client x') = xfers (client x) ++ [m] /\
     fst reply = 2 /\
     be_value (delivered 2 (snd reply)) = u32 (chip_id (compatible_data x)))
    \/
    (res <> 0 /\
     supplies_enabled (rails x') = false /\
     xclk_enabled (rails x') = false /\
     (xfers (client x') = xfers (client x)
      \/ xfers (client x') = xfers (client x) ++ [m])).
Proof.
  intros mc p r idl x Hsup Hclk. cbv zeta. unfold imx477_probe_bringup.
  rewrite bind_run.
  destruct (power_on_keeps x) as (Hc & _ & _ & _ & _ & _ & _ & _ & _ & _ & Hcd).
  destruct (power_on_run x) as [(Hn & Hf & Hs & Hk & _)
                               | [(_ & Hn & Hf & Hs & Hk & _)
                                 | (_ & _ & Hf & Hs & Hk & _)]];
    cbv zeta in *.
  - rewrite Hf, (truth_nonzero _ Hn). cbn [pure fst snd].
    right. split; [exact Hn |]. split; [congruence |]. split; [congruence |].
    left. rewrite Hc. reflexivity.
  - rewrite Hf, (truth_nonzero _ Hn). cbn [pure fst snd].
    right. split; [exact Hn |]. split; [exact Hs |]. split; [congruence |].
    left. rewrite Hc. reflexivity.
  - rewrite Hf, truth_0. cbv iota. rewrite bind_run.
    set (y := snd (__imx477_power_on x)) in *.
    change (fst (get y)) with y. change (snd (get y)) with y.
    rewrite bind_run, Hcd, identify_module_run. cbv zeta. rewrite Hc.
    cbn [fst snd].
    set (m := I2cTransfer (put_unaligned_be16 IMX477_REG_CHIP_ID) 2).
    set (reply := adapter (client x) (length (xfers (client x))) m).
    assert (Hx : xfers (client (push m y)) = xfers (client x) ++ [m])
      by (unfold push; cbn [client set_client xfers]; rewrite Hc; reflexivity).
    assert (Hr : rails (push m y) = rails y) by reflexivity.
    destruct (power_off_state (push m y)) as (Ho1 & Ho2 & Ho3).
    assert (Hfail : forall e : Z,
               e <> 0 ->
               e <> 0 /\
               supplies_enabled (rails (snd (__imx477_power_off (push m y)))) = false /\
               xclk_enabled (rails (snd (__imx477_power_off (push m y)))) = false /\
               (xfers (client (snd (__imx477_power_off (push m y))))
                = xfers (client x)
                \/ xfers (client (snd (__imx477_power_off (push m y))))
                   = xfers (client x) ++ [m])).
    { intros e He. split; [exact He |]. split; [exact Ho1 |].
      split; [exact Ho2 |]. right. rewrite Ho3. exact Hx. }
    destruct (Z.eqb_spec (fst reply) 2) as [E | N];
      [destruct (Z.eqb_spec (be_value (delivered 2 (snd reply)))
                            (u32 (chip_id (compatible_data x)))) as [Ev | Nv] |].
    + rewrite truth_0. cbv iota.
      destruct (truth (if mc then p else 0)) eqn:Hp.
      * apply truth_true in Hp. rewrite bind_run. cbn [pure fst snd].
        right. apply Hfail. exact Hp.
      * destruct (Z.ltb_spec r 0) as [Hneg | Hpos].
        -- rewrite bind_run. cbn [pure fst snd]. right. apply Hfail. lia.
        -- rewrite bind_run. cbn [pure fst snd]. left.
           split; [reflexivity |].
           destruct idl.
           ++ rewrite bind_run. cbn [pure snd negb].
              change (snd (imx477_suspend (push m y)))
                with (snd (__imx477_power_off (push m y))).
              split; [exact Ho1 |]. split; [exact Ho2 |].
              split; [intros _; reflexivity |].
              split; [rewrite Ho3; exact Hx |]. split; assumption.
           ++ cbn [pure snd negb]. rewrite Hr.
              split; [exact Hs |]. split; [exact Hk |].
              split; [intros H; discriminate H |].
              split; [exact Hx |]. split; assumption.
    + change (truth (- EIO)) with true. cbv iota.
      rewrite bind_run. cbn [pure fst snd]. right. apply Hfail. discriminate.
    + change (truth (- EIO)) with true. cbv iota.
      rewrite bind_run. cbn [pure fst snd]. right. apply Hfail. discriminate.
Qed.

(** An identification that fails, the bus answering zeros, and one that
    succeeds, after which runtime PM suspends the device. *)
Lemma probe_failure_powers_off_witness :
  let x := probed ack_all in
  let y := probed (fun _ _ => (2, [0x04; 0x77])) in
  (supplies_enabled (rails x) = false /\ xclk_enabled (rails x) = false) /\
  (fst (imx477_probe_bringup true 0 0 true x) = - EIO /\
   supplies_enabled (rails (snd (imx477_probe_bringup true 0 0 true x))) = false) /\
  (fst (imx477_probe_bringup true 0 0 true y) = 0 /\
   supplies_enabled (rails (snd (imx477_probe_bringup true 0 0 true y))) = false).
Proof.
  cbv zeta. split; [split; reflexivity |]. split.
  - destruct (probe_failure_powers_off true 0 0 true (probed ack_all)
                eq_refl eq_refl)
      as [(H0 & _) | (_ & Hs & _)].
    + vm_compute in H0. discriminate H0.
    + split; [vm_compute; reflexivity | exact Hs].
  - destruct (probe_failure_powers_off true 0 0 true
                (probed (fun _ _ => (2, [0x04; 0x77]))) eq_refl eq_refl)
      as [(H0 & Hs & _) | (Hn & _)].
    + split; [exact H0 | exact Hs].
    + exfalso. apply Hn. vm_compute. reflexivity.
Defined.
